(** * scaffoldkit: registry, base generator and generation orchestrator

    A shallow embedding of [src/core/registry.ts], [src/core/base-generator.ts],
    [src/core/generator.ts] and of the React and Node generators, followed by
    the properties stated about them.

    Conventions of the embedding:
    - a JavaScript [Map] and a plain object used as a record of properties are
      both insertion-ordered, string-keyed maps: module [OMap]; an
      assignment [o[k] = v] under a computed key is [OMap.assign], which
      stores nothing under ["__proto__"], the name of the prototype
      accessor of a plain object; the keys of an object are kept in the
      order of insertion, also the integer-like ones that JavaScript
      enumerates first, and no property below is about their order;
    - a string is a sequence of characters with codes below 256;
    - the closed string unions of [src/types/index.ts] are inductive types,
      each with the string it is at run time;
    - the file system, the logger, the template engine, Prettier, the clock
      and Node's [path] module are collaborators of the code: the first two
      are recorded as traces in a [World], the others are the fields of an
      [Env]. *)

From Stdlib Require Import List String Ascii Bool ZArith.
From Stdlib Require Import DecimalString.
From Stdlib Require DecimalNat DecimalFacts.
Import ListNotations.

Local Open Scope string_scope.
Local Open Scope list_scope.

Infix "+s+" := String.append (at level 60, right associativity).

(** The double-quote character, for messages that quote a value. *)
Definition dquote : string := String "034"%char EmptyString.

(** Line feed, the separator of [Array.prototype.join('\n')]. *)
Definition newline : string := String "010"%char EmptyString.

(* ------------------------------------------------------------------ *)
(** ** Insertion-ordered string-keyed maps *)

Module OMap.

Section Ops.
Context {V : Type}.

(** [m.get(k)] / [o[k]]: the value stored under [k], if any. *)
Fixpoint get (k : string) (m : list (string * V)) : option V :=
  match m with
  | [] => None
  | (k', v) :: m' => if String.eqb k' k then Some v else get k m'
  end.

(** [m.has(k)] / [k in o]. *)
Definition has (k : string) (m : list (string * V)) : bool :=
  match get k m with Some _ => true | None => false end.

(** [m.set(k, v)] / [o[k] = v]: an existing key keeps its position, a new
    key goes last. *)
Fixpoint set (k : string) (v : V) (m : list (string * V)) : list (string * V) :=
  match m with
  | [] => [(k, v)]
  | (k', v') :: m' =>
      if String.eqb k' k then (k, v) :: m' else (k', v') :: set k v m'
  end.

(** [o[k] = v] on a plain object [o] made by [{}], for a key computed at
    run time: assigning to ["__proto__"] calls the accessor inherited from
    [Object.prototype], which changes the prototype when [v] is an object
    and does nothing otherwise; in both cases [o] gets no property, and
    [JSON.stringify] writes none. *)
Definition assign (k : string) (v : V) (m : list (string * V))
  : list (string * V) :=
  if String.eqb k "__proto__" then m else set k v m.

(** [m.delete(k)] / the rest of [const { k: _, ...rest } = o]. *)
Fixpoint remove (k : string) (m : list (string * V)) : list (string * V) :=
  match m with
  | [] => []
  | (k', v') :: m' =>
      if String.eqb k' k then remove k m' else (k', v') :: remove k m'
  end.

(** [Array.from(m.keys())] / [Object.keys(o)]. *)
Definition keys (m : list (string * V)) : list string := map fst m.

(** [Array.from(m.values())]. *)
Definition values (m : list (string * V)) : list V := map snd m.

(** [{ ...o, ...e }]: the properties of [e] are assigned onto [o] in order. *)
Definition spread (o e : list (string * V)) : list (string * V) :=
  fold_left (fun acc kv => set (fst kv) (snd kv) acc) e o.
End Ops.

End OMap.

(** JSON-like values, for the open-ended parts of a manifest
    ([Record<string, unknown>]). *)
#[local] Set Warnings "-register-all".

Inductive Json : Type :=
| JNull
| JBool (b : bool)
| JStr (s : string)
| JArr (items : list Json)
| JObj (props : list (string * Json)).

(** A [Record<string, string>] as a JSON object. *)
Definition JStrMap (m : list (string * string)) : Json :=
  JObj (map (fun kv => (fst kv, JStr (snd kv))) m).

(* ------------------------------------------------------------------ *)
(** ** Strings the way the code uses them *)

Module Str.

(** White space removed by [String.prototype.trim], for characters below
    256: TAB, LF, VT, FF, CR, SPACE and NBSP. *)
Definition is_space (c : ascii) : bool :=
  let n := nat_of_ascii c in
  (Nat.leb 9 n && Nat.leb n 13) || Nat.eqb n 32 || Nat.eqb n 160.

Fixpoint trim_start (s : string) : string :=
  match s with
  | EmptyString => EmptyString
  | String c s' => if is_space c then trim_start s' else s
  end.

(** Drops trailing white space: the result of the tail is computed first,
    and a space in front of an empty result is trailing too. *)
Fixpoint trim_end (s : string) : string :=
  match s with
  | EmptyString => EmptyString
  | String c s' =>
      match trim_end s' with
      | EmptyString => if is_space c then EmptyString else String c EmptyString
      | r => String c r
      end
  end.

(** [s.trim()]. *)
Definition trim (s : string) : string := trim_end (trim_start s).

(** Every character of [s] is white space; so for the empty string. *)
Fixpoint all_space (s : string) : bool :=
  match s with
  | EmptyString => true
  | String c s' => is_space c && all_space s'
  end.

(** [s.startsWith(p)], returning what follows the prefix. *)
Fixpoint strip_prefix (p s : string) : option string :=
  match p, s with
  | EmptyString, _ => Some s
  | String a p', String b s' =>
      if Ascii.eqb a b then strip_prefix p' s' else None
  | String _ _, EmptyString => None
  end.

(** [s.replace(pat, rep)] with a string pattern: the first occurrence
    only. *)
Fixpoint replace_first (pat rep s : string) : string :=
  match strip_prefix pat s with
  | Some rest => rep +s+ rest
  | None =>
      match s with
      | EmptyString => EmptyString
      | String c s' => String c (replace_first pat rep s')
      end
  end.

(** The part of [s] after its first ["/"], together with the number of
    characters in front of it; [None] when [s] has no ["/"]. *)
Fixpoint after_slash (s : string) : option (nat * string) :=
  match s with
  | EmptyString => None
  | String c s' =>
      if Ascii.eqb c "/"%char then Some (0, s')
      else match after_slash s' with
           | Some (n, r) => Some (S n, r)
           | None => None
           end
  end.

(** [name.replace(/^@[^/]+\//, '')]: a leading ["@scope/"] with a
    non-empty scope is removed. *)
Definition strip_scope (name : string) : string :=
  match name with
  | String "@"%char rest =>
      match after_slash rest with
      | Some (S _, r) => r
      | _ => name
      end
  | _ => name
  end.

(** [parts.join(sep)]. *)
Definition join (sep : string) (parts : list string) : string :=
  String.concat sep parts.

End Str.

(* ------------------------------------------------------------------ *)
(** ** Types of [src/types/index.ts] *)

(** The framework tag. The declared union is closed, but the tag reaches
    [generatePackage] and the registry as the text the caller supplied, and
    both use it only as a map key and inside messages: it is a string. *)
Definition Framework : Type := string.

Inductive PackageType : Type :=
| Library | Plugin | Utility | Cli | Sdk | Integration | Adapter.

Inductive RuntimeTarget : Type :=
| Browser | Node | Edge | Universal.

Inductive ModuleFormat : Type :=
| Esm | Cjs | Dual.

Inductive PackageManager : Type :=
| Npm | Pnpm | Yarn | Bun.

Inductive BuildSystem : Type :=
| Tsup | Vite | Rollup | Unbuild | Esbuild.

Definition PackageType_str (t : PackageType) : string :=
  match t with
  | Library => "library" | Plugin => "plugin" | Utility => "utility"
  | Cli => "cli" | Sdk => "sdk" | Integration => "integration"
  | Adapter => "adapter"
  end.

Definition RuntimeTarget_str (t : RuntimeTarget) : string :=
  match t with
  | Browser => "browser" | Node => "node" | Edge => "edge"
  | Universal => "universal"
  end.

Definition ModuleFormat_str (f : ModuleFormat) : string :=
  match f with Esm => "esm" | Cjs => "cjs" | Dual => "dual" end.

Definition BuildSystem_str (b : BuildSystem) : string :=
  match b with
  | Tsup => "tsup" | Vite => "vite" | Rollup => "rollup"
  | Unbuild => "unbuild" | Esbuild => "esbuild"
  end.

(** [a === b] on the members of a union: a comparison of their strings. *)
Definition PackageType_eqb (a b : PackageType) : bool :=
  String.eqb (PackageType_str a) (PackageType_str b).

Definition RuntimeTarget_eqb (a b : RuntimeTarget) : bool :=
  String.eqb (RuntimeTarget_str a) (RuntimeTarget_str b).

Definition ModuleFormat_eqb (a b : ModuleFormat) : bool :=
  String.eqb (ModuleFormat_str a) (ModuleFormat_str b).

Record GeneratorMeta : Type := {
  id : string;
  name : string;
  framework : Framework;
  description : string;
  version : string;
  supportedPackageTypes : list PackageType;
  supportedRuntimeTargets : list RuntimeTarget;
  recommendedBuildSystem : BuildSystem
}.

(** [GeneratorConfig]. The optional fields that the modelled code never
    reads ([frameworkOptions] and the preset extensions) travel together in
    [cfg_presetOptions]. *)
Record GeneratorConfig : Type := {
  cfg_name : string;
  cfg_description : string;
  cfg_packageType : PackageType;
  cfg_runtimeTarget : RuntimeTarget;
  cfg_moduleFormat : ModuleFormat;
  cfg_buildSystem : BuildSystem;
  cfg_packageManager : PackageManager;
  cfg_license : string;
  cfg_author : string;
  cfg_repository : option string;
  cfg_outDir : string;
  cfg_includeExample : option bool;
  cfg_presetOptions : list (string * Json)
}.

(** Truthiness of an optional boolean ([if (config.includeExample)]). *)
Definition truthy_flag (b : option bool) : bool :=
  match b with Some true => true | _ => false end.

(** Truthiness of an optional string ([if (config.repository)]): present
    and not empty. *)
Definition truthy_text (s : option string) : option string :=
  match s with
  | Some EmptyString => None
  | other => other
  end.

Inductive DependencyKind : Type :=
| Dependency | DevDependency | PeerDependency | OptionalDependency.

Definition DependencyKind_str (k : DependencyKind) : string :=
  match k with
  | Dependency => "dependency"
  | DevDependency => "devDependency"
  | PeerDependency => "peerDependency"
  | OptionalDependency => "optionalDependency"
  end.

Definition DependencyKind_eqb (a b : DependencyKind) : bool :=
  String.eqb (DependencyKind_str a) (DependencyKind_str b).

(** The manifest section a dependency kind is written to. *)
Definition section_key (k : DependencyKind) : string :=
  match k with
  | Dependency => "dependencies"
  | DevDependency => "devDependencies"
  | PeerDependency => "peerDependencies"
  | OptionalDependency => "optionalDependencies"
  end.

Record DependencySpec : Type := {
  dep_name : string;
  dep_version : string;
  dep_type : DependencyKind;
  dep_condition : option (GeneratorConfig -> bool)
}.

Record ExportConfig : Type := {
  exp_path : string;
  exp_types : option string;
  exp_import : option string;
  exp_require : option string;
  exp_default : option string
}.

Record GeneratedFile : Type := {
  file_path : string;
  file_template : string;
  file_isTemplate : bool;
  file_condition : option (GeneratorConfig -> bool)
}.

Inductive ValidationSeverity : Type :=
| SevError | SevWarning | SevInfo.

Definition is_error (s : ValidationSeverity) : bool :=
  match s with SevError => true | _ => false end.

Definition is_warning (s : ValidationSeverity) : bool :=
  match s with SevWarning => true | _ => false end.

Record ValidationIssue : Type := {
  severity : ValidationSeverity;
  category : string;
  message : string;
  suggestion : option string
}.

Record ValidationResult : Type := {
  valid : bool;
  issues : list ValidationIssue
}.

Record GeneratorResult : Type := {
  success : bool;
  files : list string;
  warnings : list string;
  error : option string;
  nextSteps : list string
}.

(* ------------------------------------------------------------------ *)
(** ** The world outside the program *)

(** Calls to the logger of [src/core/logger.ts]. *)
Inductive LogLevel : Type :=
| LDebug | LInfo | LWarn | LError.

Definition LogEntry : Type := (LogLevel * string)%type.

(** A file-system operation of [fs-extra] that completed. *)
Inductive FsOp : Type :=
| FsEnsureDir (dir : string)
| FsWriteFile (path : string) (content : string)
| FsWriteJson (path : string) (value : list (string * Json)).

(** What a run changes: the file-system operations it completed, and the
    logger calls it made, both oldest first. *)
Record World : Type := {
  fs_ops : list FsOp;
  log : list LogEntry
}.

Definition log_call (lvl : LogLevel) (msg : string) (w : World) : World :=
  {| fs_ops := fs_ops w; log := log w ++ [(lvl, msg)] |}.

(** How a call ends: it throws, or it returns a value. *)
Inductive Outcome (A : Type) : Type :=
| Thrown (msg : string)
| Value (a : A).

Arguments Thrown {A} msg.
Arguments Value {A} a.

(** A computation over a mutable state [S] that may throw: the state it
    leaves, and how it ended. *)
Definition M (S A : Type) : Type := S -> S * Outcome A.

Definition ret {S A} (a : A) : M S A := fun s => (s, Value a).

Definition throw {S A} (msg : string) : M S A := fun s => (s, Thrown msg).

Definition bind {S A B} (m : M S A) (k : A -> M S B) : M S B :=
  fun s =>
    match m s with
    | (s', Thrown msg) => (s', Thrown msg)
    | (s', Value a) => k a s'
    end.

Notation "x <- m ;; k" := (bind m (fun x => k))
  (at level 61, m at next level, right associativity).
Notation "m ;;; k" := (bind m (fun _ => k))
  (at level 61, right associativity).

(** The [Generator] interface. Its methods are functions of the
    configuration; the optional hook may act on the world and may throw. *)
Record Generator : Type := {
  meta : GeneratorMeta;
  getDependencies : GeneratorConfig -> list DependencySpec;
  getExports : GeneratorConfig -> list ExportConfig;
  getFiles : GeneratorConfig -> list GeneratedFile;
  getPackageJsonExtras : GeneratorConfig -> list (string * Json);
  validate : GeneratorConfig -> ValidationResult;
  postGenerate : option (GeneratorConfig -> GeneratorResult -> M World unit)
}.

(* ------------------------------------------------------------------ *)
(** ** [src/core/registry.ts] *)

Module Registry.

Record t : Type := {
  generators : list (string * Generator);
  frameworkMap : list (string * list Generator)
}.

(** A fresh [GeneratorRegistry], also the state after [clear()]. *)
Definition empty : t := {| generators := []; frameworkMap := [] |}.

(** [m.get(k) || []]: an array, even an empty one, is truthy. *)
Definition bucket (fw : Framework) (r : t) : list Generator :=
  match OMap.get fw (frameworkMap r) with
  | Some gs => gs
  | None => []
  end.

(** [register(generator)], with the logger calls it makes. *)
Definition register (g : Generator) (r : t) : t * list LogEntry :=
  let gid := id (meta g) in
  let fw := framework (meta g) in
  let warned :=
    if OMap.has gid (generators r)
    then [(LWarn, "Generator " +s+ dquote +s+ gid +s+ dquote
                    +s+ " is already registered. Overwriting.")]
    else [] in
  let existing := bucket fw r in
  ({| generators := OMap.set gid g (generators r);
      frameworkMap := OMap.set fw (existing ++ [g]) (frameworkMap r) |},
   warned
   ++ [(LDebug, "Registered generator: " +s+ gid +s+ " (" +s+ fw +s+ ")")]).

(** [unregister(id)]. *)
Definition unregister (gid : string) (r : t) : t * bool :=
  match OMap.get gid (generators r) with
  | None => (r, false)
  | Some g =>
      let fw := framework (meta g) in
      let existing := bucket fw r in
      ({| generators := OMap.remove gid (generators r);
          frameworkMap :=
            OMap.set fw
              (filter (fun g' => negb (String.eqb (id (meta g')) gid)) existing)
              (frameworkMap r) |},
       true)
  end.

Definition get (gid : string) (r : t) : option Generator :=
  OMap.get gid (generators r).

Definition getByFramework (fw : Framework) (r : t) : list Generator :=
  bucket fw r.

(** [generators[0]]: [undefined] on an empty array. *)
Definition getPrimary (fw : Framework) (r : t) : option Generator :=
  match getByFramework fw r with
  | [] => None
  | g :: _ => Some g
  end.

Definition getAll (r : t) : list Generator := OMap.values (generators r).

Definition getAllMeta (r : t) : list GeneratorMeta := map meta (getAll r).

Definition getSupportedFrameworks (r : t) : list Framework :=
  OMap.keys (frameworkMap r).

Definition has (gid : string) (r : t) : bool := OMap.has gid (generators r).

Definition hasFramework (fw : Framework) (r : t) : bool :=
  match OMap.get fw (frameworkMap r) with
  | Some gs => Nat.ltb 0 (List.length gs)
  | None => false
  end.

(** One call on the registry, and a sequence of calls. *)
Inductive Op : Type :=
| DoRegister (g : Generator)
| DoUnregister (gid : string).

Definition step (r : t) (o : Op) : t :=
  match o with
  | DoRegister g => fst (register g r)
  | DoUnregister gid => fst (unregister gid r)
  end.

Definition run (ops : list Op) : t := fold_left step ops empty.

(** Every generator stored under an identity has a bucket under its
    framework tag. *)
Definition linked (r : t) : Prop :=
  forall gid g,
    OMap.get gid (generators r) = Some g ->
    OMap.has (framework (meta g)) (frameworkMap r) = true.

End Registry.

(* ------------------------------------------------------------------ *)
(** ** [src/core/base-generator.ts] *)

Module BaseGenerator.

(** What a concrete generator class supplies: its metadata, the three
    abstract methods, and the validation hook it may override. *)
Record Subclass : Type := {
  sub_meta : GeneratorMeta;
  getFrameworkDependencies : GeneratorConfig -> list DependencySpec;
  getFrameworkFiles : GeneratorConfig -> list GeneratedFile;
  getFrameworkPackageJsonExtras : GeneratorConfig -> list (string * Json);
  validateFrameworkConfig : GeneratorConfig -> list ValidationIssue
}.

Definition dep (n v : string) : DependencySpec :=
  {| dep_name := n; dep_version := v; dep_type := Dependency;
     dep_condition := None |}.

Definition peerDep (n v : string) : DependencySpec :=
  {| dep_name := n; dep_version := v; dep_type := PeerDependency;
     dep_condition := None |}.

Definition devDep (n v : string) : DependencySpec :=
  {| dep_name := n; dep_version := v; dep_type := DevDependency;
     dep_condition := None |}.

Definition optionalDep (n v : string) : DependencySpec :=
  {| dep_name := n; dep_version := v; dep_type := OptionalDependency;
     dep_condition := None |}.

(** A template-backed file without a condition. *)
Definition tpl (p t : string) : GeneratedFile :=
  {| file_path := p; file_template := t; file_isTemplate := true;
     file_condition := None |}.

Definition getCommonDependencies (config : GeneratorConfig)
  : list DependencySpec :=
  [ devDep "typescript" "^5.7.0"; devDep "@types/node" "^22.0.0" ]
  ++ match cfg_buildSystem config with
     | Tsup => [ devDep "tsup" "^8.3.0" ]
     | Vite => [ devDep "vite" "^6.0.0"; devDep "vite-plugin-dts" "^4.3.0" ]
     | Rollup =>
         [ devDep "rollup" "^4.28.0";
           devDep "@rollup/plugin-typescript" "^12.1.0";
           devDep "@rollup/plugin-node-resolve" "^16.0.0" ]
     | Unbuild => [ devDep "unbuild" "^3.0.0" ]
     | Esbuild => [ devDep "esbuild" "^0.24.0" ]
     end
  ++ [ devDep "vitest" "^2.1.0" ].

Definition getDependencies (s : Subclass) (config : GeneratorConfig)
  : list DependencySpec :=
  getCommonDependencies config ++ getFrameworkDependencies s config.

Definition getExports (config : GeneratorConfig) : list ExportConfig :=
  let mainExport :=
    {| exp_path := ".";
       exp_types := Some "./dist/index.d.ts";
       exp_import := Some "./dist/index.js";
       exp_require :=
         if ModuleFormat_eqb (cfg_moduleFormat config) Dual
         then Some "./dist/index.cjs" else None;
       exp_default := Some "./dist/index.js" |} in
  [ mainExport ].

Definition getCommonFiles (config : GeneratorConfig) : list GeneratedFile :=
  [ tpl "tsconfig.json" "common/tsconfig.json.hbs";
    tpl "README.md" "common/README.md.hbs";
    tpl "LICENSE" "common/LICENSE.hbs";
    tpl ".gitignore" "common/gitignore.hbs";
    tpl ".npmignore" "common/npmignore.hbs";
    tpl "CHANGELOG.md" "common/CHANGELOG.md.hbs" ]
  ++ match cfg_buildSystem config with
     | Tsup => [ tpl "tsup.config.ts" "common/tsup.config.ts.hbs" ]
     | Vite => [ tpl "vite.config.ts" "common/vite.config.ts.hbs" ]
     | Rollup => [ tpl "rollup.config.ts" "common/rollup.config.ts.hbs" ]
     | Unbuild => [ tpl "build.config.ts" "common/unbuild.config.ts.hbs" ]
     | Esbuild => []
     end
  ++ [ tpl "vitest.config.ts" "common/vitest.config.ts.hbs" ].

Definition getFiles (s : Subclass) (config : GeneratorConfig)
  : list GeneratedFile :=
  getCommonFiles config ++ getFrameworkFiles s config.

Definition getCommonPackageJsonExtras (config : GeneratorConfig)
  : list (string * Json) :=
  [ ("sideEffects", JBool false);
    ("files", JArr [JStr "dist"; JStr "README.md"; JStr "LICENSE";
                    JStr "CHANGELOG.md"]) ].

Definition getPackageJsonExtras (s : Subclass) (config : GeneratorConfig)
  : list (string * Json) :=
  OMap.spread (getCommonPackageJsonExtras config)
              (getFrameworkPackageJsonExtras s config).

Definition config_error (msg : string) (hint : option string)
  : ValidationIssue :=
  {| severity := SevError; category := "config"; message := msg;
     suggestion := hint |}.

(** [!s || s.trim() === '']. *)
Definition blank (s : string) : bool :=
  match Str.trim s with EmptyString => true | _ => false end.

Definition validate (s : Subclass) (config : GeneratorConfig)
  : ValidationResult :=
  let m := sub_meta s in
  let issues :=
    (if blank (cfg_name config)
     then [ config_error "Package name is required" None ] else [])
    ++ (if existsb (PackageType_eqb (cfg_packageType config))
                   (supportedPackageTypes m)
        then []
        else [ config_error
                 ("Package type " +s+ dquote
                    +s+ PackageType_str (cfg_packageType config) +s+ dquote
                    +s+ " is not supported by " +s+ name m)
                 (Some ("Supported types: "
                          +s+ Str.join ", "
                                (map PackageType_str
                                     (supportedPackageTypes m)))) ])
    ++ (if existsb (RuntimeTarget_eqb (cfg_runtimeTarget config))
                   (supportedRuntimeTargets m)
        then []
        else [ config_error
                 ("Runtime target " +s+ dquote
                    +s+ RuntimeTarget_str (cfg_runtimeTarget config)
                    +s+ dquote +s+ " is not supported by " +s+ name m)
                 (Some ("Supported targets: "
                          +s+ Str.join ", "
                                (map RuntimeTarget_str
                                     (supportedRuntimeTargets m)))) ])
    ++ (if blank (cfg_outDir config)
        then [ config_error "Output directory is required" None ] else [])
    ++ validateFrameworkConfig s config in
  {| valid := negb (existsb (fun i => is_error (severity i)) issues);
     issues := issues |}.

(** The default hook: nothing happens. *)
Definition postGenerate (config : GeneratorConfig) (result : GeneratorResult)
  : M World unit := ret tt.

(** An instance of a class that extends [BaseGenerator] and overrides
    nothing beyond what [Subclass] lists. *)
Definition make (s : Subclass) : Generator :=
  Build_Generator
    (sub_meta s)
    (getDependencies s)
    getExports
    (getFiles s)
    (getPackageJsonExtras s)
    (validate s)
    (Some postGenerate).

End BaseGenerator.

(* ------------------------------------------------------------------ *)
(** ** [src/generators/react/index.ts] *)

Module ReactGenerator.
Local Abbreviation dep := BaseGenerator.dep.
Local Abbreviation devDep := BaseGenerator.devDep.
Local Abbreviation peerDep := BaseGenerator.peerDep.
Local Abbreviation tpl := BaseGenerator.tpl.

Definition react_meta : GeneratorMeta :=
  {| id := "react-library";
     name := "React Library";
     framework := "react";
     description :=
       "Generate a React component library with TypeScript, "
         +s+ "modern build tools, and JSX support";
     version := "1.0.0";
     supportedPackageTypes := [Library; Utility; Plugin];
     supportedRuntimeTargets := [Browser; Universal];
     recommendedBuildSystem := Tsup |}.

Definition react_dependencies (config : GeneratorConfig)
  : list DependencySpec :=
  [ peerDep "react" "^18.0.0 || ^19.0.0";
    peerDep "react-dom" "^18.0.0 || ^19.0.0";
    devDep "@types/react" "^18.0.0";
    devDep "@types/react-dom" "^18.0.0";
    devDep "@testing-library/react" "^16.1.0";
    devDep "@testing-library/jest-dom" "^6.6.0";
    devDep "jsdom" "^25.0.0";
    devDep "eslint" "^9.17.0";
    devDep "@eslint/js" "^9.17.0";
    devDep "eslint-plugin-react" "^7.37.0";
    devDep "eslint-plugin-react-hooks" "^5.1.0";
    devDep "globals" "^15.0.0";
    devDep "typescript-eslint" "^8.18.0";
    devDep "@vitejs/plugin-react" "^4.3.0" ].

Definition react_files (config : GeneratorConfig) : list GeneratedFile :=
  [ tpl "src/index.ts" "react/src/index.ts.hbs";
    tpl "src/components/Button/Button.tsx"
        "react/src/components/Button/Button.tsx.hbs";
    tpl "src/components/Button/Button.test.tsx"
        "react/src/components/Button/Button.test.tsx.hbs";
    tpl "src/components/Button/index.ts"
        "react/src/components/Button/index.ts.hbs";
    tpl "src/hooks/useToggle.ts" "react/src/hooks/useToggle.ts.hbs";
    tpl "src/hooks/useToggle.test.ts" "react/src/hooks/useToggle.test.ts.hbs";
    tpl "src/hooks/index.ts" "react/src/hooks/index.ts.hbs";
    tpl "eslint.config.js" "react/eslint.config.js.hbs";
    tpl "vitest.setup.ts" "common/vitest.setup.ts.hbs" ]
  ++ (if truthy_flag (cfg_includeExample config)
      then [ tpl "example/index.html" "react/example/index.html.hbs";
             tpl "example/main.tsx" "react/example/main.tsx.hbs";
             tpl "example/App.tsx" "react/example/App.tsx.hbs";
             tpl "example/vite.config.ts" "react/example/vite.config.ts.hbs";
             tpl "example/package.json" "react/example/package.json.hbs";
             tpl "example/tsconfig.json" "react/example/tsconfig.json.hbs" ]
      else []).

Definition react_extras (config : GeneratorConfig) : list (string * Json) :=
  let scripts :=
    [ ("lint", "eslint src"); ("lint:fix", "eslint src --fix") ]
    ++ (if truthy_flag (cfg_includeExample config)
        then [ ("example:install", "cd example && npm install");
               ("example:dev", "cd example && npm run dev");
               ("example:prod",
                "npm run build && cd example && npm run dev:prod") ]
        else []) in
  [ ("peerDependenciesMeta",
     JObj [ ("react-dom", JObj [ ("optional", JBool true) ]) ]);
    ("scripts", JStrMap scripts) ].

Definition react_validate (config : GeneratorConfig) : list ValidationIssue :=
  if RuntimeTarget_eqb (cfg_runtimeTarget config) Node
  then [ {| severity := SevWarning;
            category := "config";
            message := "React libraries typically target browser, not Node.js";
            suggestion :=
              Some ("Consider using " +s+ dquote +s+ "browser" +s+ dquote
                      +s+ " or " +s+ dquote +s+ "universal" +s+ dquote
                      +s+ " as the runtime target") |} ]
  else [].

Definition ReactGenerator : BaseGenerator.Subclass :=
  {| BaseGenerator.sub_meta := react_meta;
     BaseGenerator.getFrameworkDependencies := react_dependencies;
     BaseGenerator.getFrameworkFiles := react_files;
     BaseGenerator.getFrameworkPackageJsonExtras := react_extras;
     BaseGenerator.validateFrameworkConfig := react_validate |}.

Definition reactGenerator : Generator :=
  BaseGenerator.make ReactGenerator.

End ReactGenerator.

(* ------------------------------------------------------------------ *)
(** ** [src/generators/node/index.ts] *)

Module NodeGenerator.
Local Abbreviation dep := BaseGenerator.dep.
Local Abbreviation devDep := BaseGenerator.devDep.
Local Abbreviation peerDep := BaseGenerator.peerDep.
Local Abbreviation tpl := BaseGenerator.tpl.

Definition node_meta : GeneratorMeta :=
  {| id := "node-package";
     name := "Node.js Package";
     framework := "node";
     description := "Generate a Node.js package or CLI tool with TypeScript";
     version := "1.0.0";
     supportedPackageTypes := [Utility; Library; Cli; Sdk];
     supportedRuntimeTargets := [Node; Edge];
     recommendedBuildSystem := Tsup |}.

Definition is_cli (config : GeneratorConfig) : bool :=
  PackageType_eqb (cfg_packageType config) Cli.

Definition node_dependencies (config : GeneratorConfig)
  : list DependencySpec :=
  [ devDep "@types/node" "^22.10.0";
    devDep "eslint" "^9.17.0";
    devDep "@eslint/js" "^9.17.0";
    devDep "typescript-eslint" "^8.18.0";
    devDep "globals" "^15.0.0" ]
  ++ (if is_cli config
      then [ dep "commander" "^12.1.0";
             dep "chalk" "^5.3.0";
             dep "@inquirer/prompts" "^7.2.0";
             dep "ora" "^8.1.0" ]
      else []).

Definition node_files (config : GeneratorConfig) : list GeneratedFile :=
  (if is_cli config
   then [ tpl "src/index.ts" "node/src/index-cli.ts.hbs";
          tpl "src/bin/cli.ts" "node/src/bin/cli.ts.hbs";
          tpl "src/commands/init.ts" "node/src/commands/init.ts.hbs";
          tpl "src/commands/index.ts" "node/src/commands/index.ts.hbs";
          tpl "src/utils/logger.ts" "node/src/utils/logger.ts.hbs";
          tpl "src/utils/index.ts" "node/src/utils/index.ts.hbs" ]
   else [ tpl "src/index.ts" "node/src/index.ts.hbs";
          tpl "src/core/client.ts" "node/src/core/client.ts.hbs";
          tpl "src/core/client.test.ts" "node/src/core/client.test.ts.hbs";
          tpl "src/core/index.ts" "node/src/core/index.ts.hbs";
          tpl "src/types.ts" "node/src/types.ts.hbs" ])
  ++ [ tpl "eslint.config.js" "node/eslint.config.js.hbs" ]
  ++ (if truthy_flag (cfg_includeExample config)
      then tpl "example/package.json" "node/example/package.json.hbs"
           :: (if is_cli config
               then [ tpl "example/demo.sh" "node/example/demo.sh.hbs" ]
               else [ tpl "example/usage.ts" "node/example/usage.ts.hbs" ])
      else []).

(** The export entry added for a CLI package. *)
Definition binExport : ExportConfig :=
  {| exp_path := "./bin";
     exp_types := Some "./dist/bin/cli.d.ts";
     exp_import := Some "./dist/bin/cli.js";
     exp_require := None;
     exp_default := None |}.

(** The override: the inherited entries, then the binary subpath for a
    CLI package. *)
Definition node_getExports (config : GeneratorConfig) : list ExportConfig :=
  BaseGenerator.getExports config
  ++ (if is_cli config then [ binExport ] else []).

Definition node_extras (config : GeneratorConfig) : list (string * Json) :=
  let scripts :=
    [ ("lint", "eslint src"); ("lint:fix", "eslint src --fix") ]
    ++ (if truthy_flag (cfg_includeExample config) && negb (is_cli config)
        then [ ("example:run", "cd example && npx tsx usage.ts") ]
        else []) in
  [ ("engines", JObj [ ("node", JStr ">=18.0.0") ]);
    ("scripts", JStrMap scripts) ]
  ++ (if is_cli config
      then [ ("bin",
              JObj [ (Str.strip_scope (cfg_name config),
                      JStr "./dist/bin/cli.js") ]) ]
      else []).

Definition node_validate (config : GeneratorConfig) : list ValidationIssue :=
  if RuntimeTarget_eqb (cfg_runtimeTarget config) Browser
  then [ {| severity := SevWarning;
            category := "config";
            message := "Node.js packages typically target Node.js, not browser";
            suggestion :=
              Some ("Consider using " +s+ dquote +s+ "node" +s+ dquote
                      +s+ " or " +s+ dquote +s+ "universal" +s+ dquote
                      +s+ " as the runtime target") |} ]
  else [].

Definition NodeGenerator : BaseGenerator.Subclass :=
  {| BaseGenerator.sub_meta := node_meta;
     BaseGenerator.getFrameworkDependencies := node_dependencies;
     BaseGenerator.getFrameworkFiles := node_files;
     BaseGenerator.getFrameworkPackageJsonExtras := node_extras;
     BaseGenerator.validateFrameworkConfig := node_validate |}.

Definition nodeGenerator : Generator :=
  let base := BaseGenerator.make NodeGenerator in
  {| meta := meta base;
     getDependencies := getDependencies base;
     getExports := node_getExports;
     getFiles := getFiles base;
     getPackageJsonExtras := getPackageJsonExtras base;
     validate := validate base;
     postGenerate := postGenerate base |}.

End NodeGenerator.

(* ------------------------------------------------------------------ *)
(** ** [src/core/generator.ts] *)

(** The Prettier parsers [formatContent] chooses between. *)
Inductive Parser : Type :=
| PTypescript | PBabel | PJson | PMarkdown | PHtml | PCss | PYaml.

(** The object handed to the template engine. The code builds it by
    spreading; the engine is a black box here, so its parts are kept
    apart. *)
Record TemplateContext : Type := {
  ctx_config : GeneratorConfig;
  ctx_year : Z;
  ctx_date : string;
  ctx_cliVersion : string;
  ctx_dependencies : list (string * string);
  ctx_devDependencies : list (string * string);
  ctx_peerDependencies : list (string * string);
  ctx_optionalDependencies : list (string * string);
  ctx_exports : list ExportConfig;
  ctx_extras : list (string * Json);
  ctx_framework : Framework;
  ctx_generatorId : string
}.

(** The collaborators of the orchestrator. *)
Record Env : Type := {
  (** Node's [path] module. *)
  path_join : string -> string -> string;
  path_dirname : string -> string;
  path_extname : string -> string;
  path_basename : string -> string;
  (** [templateEngine.render] and [templateEngine.getTemplatesRoot]. *)
  render : string -> TemplateContext -> Outcome string;
  templatesRoot : string;
  (** [prettier.format] with the fixed style options. *)
  prettier_format : string -> Parser -> Outcome string;
  (** Whether a file-system operation throws, given those completed so
      far. *)
  fs_fail : list FsOp -> FsOp -> option string;
  (** [new Date()]. *)
  now_year : Z;
  now_date : string
}.

Module Orchestrator.

(** The mutable state of one run: the world, and the two arrays the
    [try] block fills and the [catch] block reads. *)
Record RunState : Type := {
  rs_world : World;
  rs_files : list string;
  rs_warnings : list string
}.

Definition on_world (f : World -> World) (st : RunState) : RunState :=
  {| rs_world := f (rs_world st);
     rs_files := rs_files st;
     rs_warnings := rs_warnings st |}.

(** A computation on the world, run inside a generation. *)
Definition lift {A} (m : M World A) : M RunState A :=
  fun st =>
    match m (rs_world st) with
    | (w, out) => (on_world (fun _ => w) st, out)
    end.

Definition logM (lvl : LogLevel) (msg : string) : M RunState unit :=
  fun st => (on_world (log_call lvl msg) st, Value tt).

(** [files.push(p)]. *)
Definition push_file (p : string) : M RunState unit :=
  fun st =>
    ({| rs_world := rs_world st;
        rs_files := rs_files st ++ [p];
        rs_warnings := rs_warnings st |}, Value tt).

(** [d.type === type], then the fold into an object keyed by name. *)
Definition groupDependencies (deps : list DependencySpec)
           (type : DependencyKind) : list (string * string) :=
  fold_left
    (fun acc d => OMap.assign (dep_name d) (dep_version d) acc)
    (filter (fun d => DependencyKind_eqb (dep_type d) type) deps)
    [].

Definition getBuildScript (buildSystem : BuildSystem) : string :=
  match buildSystem with
  | Tsup => "tsup"
  | Vite => "vite build"
  | Rollup => "rollup -c"
  | Unbuild => "unbuild"
  | Esbuild => "esbuild src/index.ts --bundle --outdir=dist --format=esm"
  end.

Definition getDevScript (buildSystem : BuildSystem) : string :=
  match buildSystem with
  | Tsup => "tsup --watch"
  | Vite => "vite build --watch"
  | Rollup => "rollup -c -w"
  | Unbuild => "unbuild --watch"
  | Esbuild =>
      "esbuild src/index.ts --bundle --outdir=dist --format=esm --watch"
  end.

(** A property that is written only when its value is defined. *)
Definition prop (k : string) (v : option string) : list (string * Json) :=
  match v with
  | Some s => [(k, JStr s)]
  | None => []
  end.

(** [a || b] on optional strings. *)
Definition or_else (a b : option string) : option string :=
  match truthy_text a with
  | Some s => Some s
  | None => b
  end.

(** One entry of the manifest's conditional exports. *)
Definition exportEntry (config : GeneratorConfig) (exp : ExportConfig)
  : Json :=
  match ModuleFormat_eqb (cfg_moduleFormat config) Dual,
        truthy_text (exp_require exp) with
  | true, Some req =>
      JObj (prop "types" (exp_types exp)
            ++ prop "import" (exp_import exp)
            ++ [("require", JStr req)]
            ++ prop "default" (or_else (exp_default exp) (exp_import exp)))
  | _, _ =>
      JObj (prop "types" (exp_types exp)
            ++ prop "import" (exp_import exp)
            ++ prop "default" (or_else (exp_default exp) (exp_import exp)))
  end.

(** The loop that fills [exportsField]. *)
Definition buildExportsField (config : GeneratorConfig)
           (exports : list ExportConfig) : list (string * Json) :=
  fold_left
    (fun acc exp => OMap.assign (exp_path exp) (exportEntry config exp) acc)
    exports [].

Definition baseScripts (config : GeneratorConfig) : list (string * Json) :=
  [ ("build", JStr (getBuildScript (cfg_buildSystem config)));
    ("dev", JStr (getDevScript (cfg_buildSystem config)));
    ("test", JStr "vitest");
    ("test:coverage", JStr "vitest --coverage");
    ("typecheck", JStr "tsc --noEmit");
    ("prepublishOnly", JStr "npm run build") ].

(** The property name of the index [i]: its decimal numeral. *)
Definition index_key (i : nat) : string :=
  NilZero.string_of_uint (Nat.to_uint i).

(** The elements of an array, or the characters of a string, under their
    index keys ["0"], ["1"], ... from [i] on. *)
Fixpoint indexed {A} (i : nat) (l : list A) : list (string * A) :=
  match l with
  | [] => []
  | a :: rest => (index_key i, a) :: indexed (S i) rest
  end.

(** The characters of a string, each as a string of its own. *)
Fixpoint chars (s : string) : list Json :=
  match s with
  | EmptyString => []
  | String c rest => JStr (String c EmptyString) :: chars rest
  end.

(** What [...extraScripts] copies, for
    [extraScripts = (extras.scripts as Record<string, string>) || {}]:
    the properties of an object, the elements of an array and the
    characters of a string under their index keys, and nothing for
    [true] and for the falsy values. *)
Definition extraScripts (extras : list (string * Json))
  : list (string * Json) :=
  match OMap.get "scripts" extras with
  | Some (JObj props) => props
  | Some (JArr items) => indexed 0 items
  | Some (JStr s) => indexed 0 (chars s)
  | _ => []
  end.

(** Assigns a dependency section when its group is not empty. *)
Definition add_section (deps : list DependencySpec) (k : DependencyKind)
           (pkg : list (string * Json)) : list (string * Json) :=
  match groupDependencies deps k with
  | [] => pkg
  | group => OMap.set (section_key k) (JStrMap group) pkg
  end.

(** The object [generatePackageJson] writes. *)
Definition packageJson (generator : Generator) (config : GeneratorConfig)
  : list (string * Json) :=
  let deps := getDependencies generator config in
  let exports := getExports generator config in
  let extras := getPackageJsonExtras generator config in
  let exportsField := buildExportsField config exports in
  let mergedScripts := OMap.spread (baseScripts config) (extraScripts extras) in
  let restExtras := OMap.remove "scripts" extras in
  let fixed :=
    [ ("name", JStr (cfg_name config));
      ("version", JStr "0.0.1");
      ("description", JStr (cfg_description config));
      ("type", JStr "module");
      ("main", JStr "./dist/index.js");
      ("module", JStr "./dist/index.js");
      ("types", JStr "./dist/index.d.ts");
      ("exports", JObj exportsField);
      ("files", JArr [JStr "dist"; JStr "README.md"; JStr "LICENSE";
                      JStr "CHANGELOG.md"]);
      ("scripts", JObj mergedScripts);
      ("keywords", JArr []);
      ("author", JStr (cfg_author config));
      ("license", JStr (cfg_license config));
      ("sideEffects", JBool false) ] in
  let withExtras := OMap.spread fixed restExtras in
  let withRepository :=
    match truthy_text (cfg_repository config) with
    | Some url =>
        OMap.set "repository"
                 (JObj [("type", JStr "git"); ("url", JStr url)]) withExtras
    | None => withExtras
    end in
  add_section deps OptionalDependency
    (add_section deps PeerDependency
       (add_section deps DevDependency
          (add_section deps Dependency withRepository))).

Definition generateNextSteps (E : Env) (config : GeneratorConfig)
  : list string :=
  [ "cd " +s+ path_basename E (cfg_outDir config) ]
  ++ [ match cfg_packageManager config with
       | Pnpm => "pnpm install"
       | Yarn => "yarn"
       | Bun => "bun install"
       | Npm => "npm install"
       end ]
  ++ [ "npm run build"; "npm run test" ].

(** The switch of [formatContent]; [None] is its [default] branch. *)
Definition parserFor (ext : string) : option Parser :=
  if String.eqb ext ".ts" || String.eqb ext ".tsx" then Some PTypescript
  else if String.eqb ext ".js" || String.eqb ext ".jsx"
          || String.eqb ext ".mjs" || String.eqb ext ".cjs" then Some PBabel
  else if String.eqb ext ".json" then Some PJson
  else if String.eqb ext ".md" then Some PMarkdown
  else if String.eqb ext ".html" then Some PHtml
  else if String.eqb ext ".css" || String.eqb ext ".scss" then Some PCss
  else if String.eqb ext ".yaml" || String.eqb ext ".yml" then Some PYaml
  else None.

Section WithEnv.
Variable E : Env.

(** One [fs-extra] call: it throws, or it is recorded as completed. *)
Definition fsM (op : FsOp) : M RunState unit :=
  fun st =>
    match fs_fail E (fs_ops (rs_world st)) op with
    | Some msg => (st, Thrown msg)
    | None =>
        (on_world (fun w => {| fs_ops := fs_ops w ++ [op]; log := log w |}) st,
         Value tt)
    end.

Definition formatContent (content filepath : string) : M RunState string :=
  match parserFor (path_extname E filepath) with
  | None => ret content
  | Some parser =>
      match prettier_format E content parser with
      | Value formatted => ret formatted
      | Thrown msg =>
          logM LWarn ("Failed to format " +s+ filepath +s+ ": " +s+ msg) ;;;
          ret content
      end
  end.

Definition buildTemplateContext (config : GeneratorConfig)
           (generator : Generator) : TemplateContext :=
  let deps := getDependencies generator config in
  {| ctx_config := config;
     ctx_year := now_year E;
     ctx_date := now_date E;
     ctx_cliVersion := "1.0.0-alpha.1";
     ctx_dependencies := groupDependencies deps Dependency;
     ctx_devDependencies := groupDependencies deps DevDependency;
     ctx_peerDependencies := groupDependencies deps PeerDependency;
     ctx_optionalDependencies := groupDependencies deps OptionalDependency;
     ctx_exports := getExports generator config;
     ctx_extras := getPackageJsonExtras generator config;
     ctx_framework := framework (meta generator);
     ctx_generatorId := id (meta generator) |}.

Definition alternatePaths (fw : Framework) (template : string)
  : list string :=
  [ fw +s+ "/"
       +s+ Str.replace_first "common/" EmptyString
             (Str.replace_first (fw +s+ "/") EmptyString template);
    Str.replace_first (fw +s+ "/") EmptyString template ].

(** The inner loop over the alternate paths: the first that renders. *)
Fixpoint firstRendered (paths : list string) (context : TemplateContext)
  : option string :=
  match paths with
  | [] => None
  | p :: rest =>
      match render E p context with
      | Value content => Some content
      | Thrown _ => firstRendered rest context
      end
  end.

(** The content of one file: literal, or rendered with the fallback. *)
Definition fileContent (fw : Framework) (file : GeneratedFile)
           (context : TemplateContext) : M RunState string :=
  if file_isTemplate file then
    logM LDebug ("Templates root: " +s+ templatesRoot E) ;;;
    match render E (file_template file) context with
    | Value content => ret content
    | Thrown _ =>
        match firstRendered (alternatePaths fw (file_template file))
                            context with
        | Some content => ret content
        | None =>
            logM LWarn ("Template not found: " +s+ file_template file
                          +s+ ", tried: "
                          +s+ Str.join ", "
                                (alternatePaths fw (file_template file))) ;;;
            logM LWarn ("Templates root: " +s+ templatesRoot E) ;;;
            throw ("Template not found: " +s+ file_template file)
        end
    end
  else ret (file_template file).

(** [file.condition && !file.condition(config)]. *)
Definition skipped (config : GeneratorConfig) (file : GeneratedFile)
  : bool :=
  match file_condition file with
  | Some cond => negb (cond config)
  | None => false
  end.

(** The body of the [for] loop for a file that is not skipped. *)
Definition generateFile (fw : Framework) (config : GeneratorConfig)
           (context : TemplateContext) (file : GeneratedFile)
  : M RunState unit :=
  let filePath := path_join E (cfg_outDir config) (file_path file) in
  fsM (FsEnsureDir (path_dirname E filePath)) ;;;
  content <- fileContent fw file context ;;
  formattedContent <- formatContent content filePath ;;
  fsM (FsWriteFile filePath formattedContent) ;;;
  push_file (file_path file) ;;;
  logM LDebug ("Generated: " +s+ file_path file).

Fixpoint generateFiles (fw : Framework) (config : GeneratorConfig)
         (context : TemplateContext) (filesToGenerate : list GeneratedFile)
  : M RunState unit :=
  match filesToGenerate with
  | [] => ret tt
  | file :: rest =>
      (if skipped config file then ret tt
       else generateFile fw config context file) ;;;
      generateFiles fw config context rest
  end.

Definition generatePackageJson (generator : Generator)
           (config : GeneratorConfig) : M RunState unit :=
  fsM (FsWriteJson (path_join E (cfg_outDir config) "package.json")
                   (packageJson generator config)).

Definition failure (files warnings : list string) (msg : string)
  : GeneratorResult :=
  {| success := false; files := files; warnings := warnings;
     error := Some msg; nextSteps := [] |}.

(** The end of the [try] block: the manifest is written, the result is
    built from the two arrays, and the hook, if any, runs. The hook
    receives the result; it is taken not to modify it. *)
Definition finalize (generator : Generator) (config : GeneratorConfig)
  : M RunState GeneratorResult :=
  generatePackageJson generator config ;;;
  fun st =>
    let result :=
      {| success := true; files := rs_files st;
         warnings := rs_warnings st; error := None;
         nextSteps := generateNextSteps E config |} in
    match postGenerate generator with
    | Some hook => (lift (hook config result) ;;; ret result) st
    | None => ret result st
    end.

(** The [try] block after validation has passed. *)
Definition generation (fw : Framework) (generator : Generator)
           (config : GeneratorConfig) : M RunState GeneratorResult :=
  fsM (FsEnsureDir (cfg_outDir config)) ;;;
  generateFiles fw config (buildTemplateContext config generator)
                (getFiles generator config) ;;;
  finalize generator config.

(** What the caller receives: the result the [try] block returned, or
    the one the [catch] block builds from the arrays as they are. *)
Definition settle (r : RunState * Outcome GeneratorResult)
  : World * GeneratorResult :=
  match r with
  | (st, Value result) => (rs_world st, result)
  | (st, Thrown msg) =>
      (rs_world st, failure (rs_files st) (rs_warnings st) msg)
  end.

(** The state in which the [try] block continues once validation has
    passed. *)
Definition validated (validation : ValidationResult) (w : World)
  : RunState :=
  {| rs_world := w;
     rs_files := [];
     rs_warnings :=
       map message
           (filter (fun i => is_warning (severity i))
                   (issues validation)) |}.

(** [generatePackage(framework, config)] against the registry [reg],
    started in the world [w]: the world it leaves and the result it
    resolves to. The terminal spinner only draws, and is left out. *)
Definition generatePackage (reg : Registry.t) (fw : Framework)
           (config : GeneratorConfig) (w : World)
  : World * GeneratorResult :=
  match Registry.getPrimary fw reg with
  | None => (w, failure [] [] ("No generator found for framework: " +s+ fw))
  | Some generator =>
      let validation := validate generator config in
      if negb (valid validation) then
        let errorMessages :=
          map message
              (filter (fun i => is_error (severity i)) (issues validation)) in
        (w, failure [] [] (Str.join newline errorMessages))
      else
        settle (generation fw generator config (validated validation w))
  end.

End WithEnv.

End Orchestrator.

(* ------------------------------------------------------------------ *)
(** ** Concrete inputs *)

Module Samples.

(** A library configuration every built-in generator can be asked for. *)
Definition libConfig : GeneratorConfig :=
  {| cfg_name := "my-lib";
     cfg_description := "A my-lib package";
     cfg_packageType := Library;
     cfg_runtimeTarget := Browser;
     cfg_moduleFormat := Esm;
     cfg_buildSystem := Tsup;
     cfg_packageManager := Npm;
     cfg_license := "MIT";
     cfg_author := "someone";
     cfg_repository := None;
     cfg_outDir := "out/my-lib";
     cfg_includeExample := None;
     cfg_presetOptions := [] |}.

Definition with_runtimeTarget (t : RuntimeTarget) (c : GeneratorConfig)
  : GeneratorConfig :=
  {| cfg_name := cfg_name c; cfg_description := cfg_description c;
     cfg_packageType := cfg_packageType c; cfg_runtimeTarget := t;
     cfg_moduleFormat := cfg_moduleFormat c;
     cfg_buildSystem := cfg_buildSystem c;
     cfg_packageManager := cfg_packageManager c;
     cfg_license := cfg_license c; cfg_author := cfg_author c;
     cfg_repository := cfg_repository c; cfg_outDir := cfg_outDir c;
     cfg_includeExample := cfg_includeExample c;
     cfg_presetOptions := cfg_presetOptions c |}.

Definition with_packageType (t : PackageType) (c : GeneratorConfig)
  : GeneratorConfig :=
  {| cfg_name := cfg_name c; cfg_description := cfg_description c;
     cfg_packageType := t; cfg_runtimeTarget := cfg_runtimeTarget c;
     cfg_moduleFormat := cfg_moduleFormat c;
     cfg_buildSystem := cfg_buildSystem c;
     cfg_packageManager := cfg_packageManager c;
     cfg_license := cfg_license c; cfg_author := cfg_author c;
     cfg_repository := cfg_repository c; cfg_outDir := cfg_outDir c;
     cfg_includeExample := cfg_includeExample c;
     cfg_presetOptions := cfg_presetOptions c |}.

Definition with_name (n : string) (c : GeneratorConfig) : GeneratorConfig :=
  {| cfg_name := n; cfg_description := cfg_description c;
     cfg_packageType := cfg_packageType c;
     cfg_runtimeTarget := cfg_runtimeTarget c;
     cfg_moduleFormat := cfg_moduleFormat c;
     cfg_buildSystem := cfg_buildSystem c;
     cfg_packageManager := cfg_packageManager c;
     cfg_license := cfg_license c; cfg_author := cfg_author c;
     cfg_repository := cfg_repository c; cfg_outDir := cfg_outDir c;
     cfg_includeExample := cfg_includeExample c;
     cfg_presetOptions := cfg_presetOptions c |}.

(** React asked for the [node] runtime target. *)
Definition reactOnNode : GeneratorConfig := with_runtimeTarget Node libConfig.

(** A Node CLI and a Node library. *)
Definition nodeCli : GeneratorConfig :=
  with_name "@acme/tool"
    (with_packageType Cli (with_runtimeTarget Node libConfig)).

Definition nodeLibrary : GeneratorConfig := with_runtimeTarget Node libConfig.

(** A name of white space only. *)
Definition blankName : GeneratorConfig := with_name "   " libConfig.

(** A second React generator under the identity of the built-in one. *)
Definition reactGenerator2 : Generator :=
  BaseGenerator.make
    {| BaseGenerator.sub_meta :=
         {| id := "react-library";
            name := "React Library (fork)";
            framework := "react";
            description := "A replacement for the built-in React generator";
            version := "2.0.0";
            supportedPackageTypes := [Library];
            supportedRuntimeTargets := [Browser];
            recommendedBuildSystem := Vite |};
       BaseGenerator.getFrameworkDependencies := fun _ => [];
       BaseGenerator.getFrameworkFiles := fun _ => [];
       BaseGenerator.getFrameworkPackageJsonExtras := fun _ => [];
       BaseGenerator.validateFrameworkConfig := fun _ => [] |}.


(** A generator with one literal TypeScript file. *)
Definition literalFile : GeneratedFile :=
  {| file_path := "src/index.ts";
     file_template := "export const x = ;";
     file_isTemplate := false;
     file_condition := None |}.

Definition literalGenerator : Generator :=
  BaseGenerator.make
    {| BaseGenerator.sub_meta :=
         {| id := "literal";
            name := "Literal";
            framework := "vanilla";
            description := "Writes one literal file";
            version := "1.0.0";
            supportedPackageTypes := [Library];
            supportedRuntimeTargets := [Browser];
            recommendedBuildSystem := Tsup |};
       BaseGenerator.getFrameworkDependencies := fun _ => [];
       BaseGenerator.getFrameworkFiles := fun _ => [ literalFile ];
       BaseGenerator.getFrameworkPackageJsonExtras := fun _ => [];
       BaseGenerator.validateFrameworkConfig := fun _ => [] |}.

(** The text after the last occurrence of [c] in [s], if [c] occurs. *)
Fixpoint after_last (c : ascii) (s : string) : option string :=
  match s with
  | EmptyString => None
  | String a s' =>
      match after_last c s' with
      | Some r => Some r
      | None => if Ascii.eqb a c then Some s' else None
      end
  end.

(** The text before the last occurrence of [c] in [s], if [c] occurs. *)
Fixpoint before_last (c : ascii) (s : string) : option string :=
  match s with
  | EmptyString => None
  | String a s' =>
      match before_last c s' with
      | Some r => Some (String a r)
      | None => if Ascii.eqb a c then Some EmptyString else None
      end
  end.

Definition basename (p : string) : string :=
  match after_last "/"%char p with Some r => r | None => p end.

(** An environment in which templates render, the file system accepts
    every operation, and Prettier rejects every input. *)
Definition strictPrettier : Env :=
  {| path_join := fun a b => a +s+ "/" +s+ b;
     path_dirname :=
       fun p => match before_last "/"%char p with Some d => d | None => "." end;
     path_extname :=
       fun p => match after_last "."%char (basename p) with
                | Some e => "." +s+ e
                | None => EmptyString
                end;
     path_basename := basename;
     render := fun t _ => Value ("rendered " +s+ t);
     templatesRoot := "templates";
     prettier_format := fun _ _ => Thrown "SyntaxError: Unexpected token";
     fs_fail := fun _ _ => None;
     now_year := 2025%Z;
     now_date := "2025-01-01" |}.

Definition freshWorld : World := {| fs_ops := []; log := [] |}.

(** The registry after [initializeGenerators] for the two generators
    modelled here. *)
Definition builtins : Registry.t :=
  Registry.run [ Registry.DoRegister ReactGenerator.reactGenerator;
                 Registry.DoRegister NodeGenerator.nodeGenerator ].

(** The run of [literalGenerator] up to the content of its literal
    file. *)
Definition literalRun : Orchestrator.RunState * Outcome string :=
  (Orchestrator.fsM strictPrettier (FsEnsureDir (cfg_outDir libConfig)) ;;;
   Orchestrator.generateFiles strictPrettier "vanilla" libConfig
     (Orchestrator.buildTemplateContext strictPrettier libConfig
        literalGenerator)
     (BaseGenerator.getCommonFiles libConfig) ;;;
   Orchestrator.fsM strictPrettier
     (FsEnsureDir
        (path_dirname strictPrettier
           (path_join strictPrettier (cfg_outDir libConfig)
              (file_path literalFile)))) ;;;
   Orchestrator.fileContent strictPrettier "vanilla" literalFile
     (Orchestrator.buildTemplateContext strictPrettier libConfig
        literalGenerator))
    (Orchestrator.validated (validate literalGenerator libConfig) freshWorld).

End Samples.

(* ------------------------------------------------------------------ *)
(** ** Reading a manifest *)

Module Manifest.

(** The entry of the manifest's [exports] field for the root subpath. *)
Definition root_entry (pkg : list (string * Json))
  : option (list (string * Json)) :=
  match OMap.get "exports" pkg with
  | Some (JObj exportsField) =>
      match OMap.get "." exportsField with
      | Some (JObj entry) => Some entry
      | _ => None
      end
  | _ => None
  end.

(** Whether an entry of the conditional exports has a [require]
    condition. *)
Definition has_require (entry : list (string * Json)) : bool :=
  OMap.has "require" entry.



(** Whether some spec in [deps] has kind [k] and a name other than
    ["__proto__"]. *)
Definition stores (k : DependencyKind) (deps : list DependencySpec)
  : bool :=
  existsb
    (fun d => DependencyKind_eqb (dep_type d) k
              && negb (String.eqb (dep_name d) "__proto__"))
    deps.

(** The last export of [exports] for the subpath [p]. *)
Definition last_export (p : string) (exports : list ExportConfig)
  : option ExportConfig :=
  fold_left
    (fun found e => if String.eqb (exp_path e) p then Some e else found)
    exports None.

End Manifest.

(* ------------------------------------------------------------------ *)
(** ** Issues named in the properties *)

Module Issues.

(** The first issue [BaseGenerator.validate] reports for a blank name. *)
Definition name_required : ValidationIssue :=
  BaseGenerator.config_error "Package name is required" None.

(** What [validate] reports for the runtime target [node]. *)
Definition react_node_error : ValidationIssue :=
  {| severity := SevError;
     category := "config";
     message := "Runtime target " +s+ dquote +s+ "node" +s+ dquote
                  +s+ " is not supported by React Library";
     suggestion := Some "Supported targets: browser, universal" |}.

Definition react_node_warning : ValidationIssue :=
  {| severity := SevWarning;
     category := "config";
     message := "React libraries typically target browser, not Node.js";
     suggestion :=
       Some ("Consider using " +s+ dquote +s+ "browser" +s+ dquote
               +s+ " or " +s+ dquote +s+ "universal" +s+ dquote
               +s+ " as the runtime target") |}.

End Issues.

(* ------------------------------------------------------------------ *)
(** ** States of a run, in order *)

Module RunOrder.
Import Orchestrator.

(** From [st] to [st']: the warnings are the same and every path
    recorded as written is still recorded. *)
Definition carried (st st' : RunState) : Prop :=
  rs_warnings st' = rs_warnings st
  /\ (forall p, In p (rs_files st) -> In p (rs_files st')).

(** A computation that carries every state it starts from. *)
Definition steady {A} (m : M RunState A) : Prop :=
  forall st, carried st (fst (m st)).

End RunOrder.

(* ------------------------------------------------------------------ *)
(** ** The other built-in generators *)

Definition BuildSystem_eqb (a b : BuildSystem) : bool :=
  String.eqb (BuildSystem_str a) (BuildSystem_str b).

(** [src/generators/vue/index.ts] *)
Module VueGenerator.
Local Abbreviation devDep := BaseGenerator.devDep.
Local Abbreviation peerDep := BaseGenerator.peerDep.
Local Abbreviation tpl := BaseGenerator.tpl.

Definition vue_meta : GeneratorMeta :=
  {| id := "vue-library";
     name := "Vue 3 Library";
     framework := "vue";
     description :=
       "Generate a Vue 3 component library with Composition API, "
         +s+ "TypeScript, and Vite";
     version := "1.0.0";
     supportedPackageTypes := [Library; Plugin; Utility];
     supportedRuntimeTargets := [Browser; Universal];
     recommendedBuildSystem := Vite |}.

Definition vue_dependencies (config : GeneratorConfig)
  : list DependencySpec :=
  [ peerDep "vue" "^3.4.0";
    devDep "@vitejs/plugin-vue" "^5.2.0";
    devDep "vue-tsc" "^2.2.0";
    devDep "@vue/test-utils" "^2.4.0";
    devDep "@testing-library/vue" "^8.1.0";
    devDep "jsdom" "^25.0.0";
    devDep "happy-dom" "^15.11.0";
    devDep "eslint" "^9.17.0";
    devDep "@eslint/js" "^9.17.0";
    devDep "eslint-plugin-vue" "^9.32.0";
    devDep "typescript-eslint" "^8.18.0" ].

Definition vue_files (config : GeneratorConfig) : list GeneratedFile :=
  [ tpl "src/index.ts" "vue/src/index.ts.hbs";
    tpl "src/components/Button/Button.vue"
        "vue/src/components/Button/Button.vue.hbs";
    tpl "src/components/Button/Button.test.ts"
        "vue/src/components/Button/Button.test.ts.hbs";
    tpl "src/components/Button/index.ts"
        "vue/src/components/Button/index.ts.hbs";
    tpl "src/composables/useToggle.ts" "vue/src/composables/useToggle.ts.hbs";
    tpl "src/composables/useToggle.test.ts"
        "vue/src/composables/useToggle.test.ts.hbs";
    tpl "src/composables/index.ts" "vue/src/composables/index.ts.hbs";
    tpl "src/plugin.ts" "vue/src/plugin.ts.hbs";
    tpl "eslint.config.js" "vue/eslint.config.js.hbs";
    tpl "src/shims-vue.d.ts" "vue/src/shims-vue.d.ts.hbs" ]
  ++ (if truthy_flag (cfg_includeExample config)
      then [ tpl "example/index.html" "vue/example/index.html.hbs";
             tpl "example/main.ts" "vue/example/main.ts.hbs";
             tpl "example/App.vue" "vue/example/App.vue.hbs";
             tpl "example/vite.config.ts" "vue/example/vite.config.ts.hbs";
             tpl "example/package.json" "vue/example/package.json.hbs";
             tpl "example/tsconfig.json" "vue/example/tsconfig.json.hbs" ]
      else []).

Definition vue_extras (config : GeneratorConfig) : list (string * Json) :=
  let scripts :=
    [ ("lint", "eslint src"); ("lint:fix", "eslint src --fix");
      ("typecheck", "vue-tsc --noEmit") ]
    ++ (if truthy_flag (cfg_includeExample config)
        then [ ("example:install", "cd example && npm install");
               ("example:dev", "cd example && npm run dev") ]
        else []) in
  [ ("scripts", JStrMap scripts) ].

Definition vue_validate (config : GeneratorConfig) : list ValidationIssue :=
  if negb (BuildSystem_eqb (cfg_buildSystem config) Vite)
  then [ {| severity := SevInfo;
            category := "config";
            message :=
              "Vite is the recommended build system for Vue libraries";
            suggestion :=
              Some "Consider using Vite for optimal Vue support" |} ]
  else [].

Definition VueGenerator : BaseGenerator.Subclass :=
  {| BaseGenerator.sub_meta := vue_meta;
     BaseGenerator.getFrameworkDependencies := vue_dependencies;
     BaseGenerator.getFrameworkFiles := vue_files;
     BaseGenerator.getFrameworkPackageJsonExtras := vue_extras;
     BaseGenerator.validateFrameworkConfig := vue_validate |}.

Definition vueGenerator : Generator := BaseGenerator.make VueGenerator.

End VueGenerator.

(** [src/generators/svelte/index.ts] *)
Module SvelteGenerator.
Local Abbreviation devDep := BaseGenerator.devDep.
Local Abbreviation peerDep := BaseGenerator.peerDep.
Local Abbreviation tpl := BaseGenerator.tpl.

Definition svelte_meta : GeneratorMeta :=
  {| id := "svelte-library";
     name := "Svelte Library";
     framework := "svelte";
     description :=
       "Generate a Svelte component library with TypeScript, Vite, "
         +s+ "and svelte-package";
     version := "1.0.0";
     supportedPackageTypes := [Library; Plugin; Utility];
     supportedRuntimeTargets := [Browser; Universal];
     recommendedBuildSystem := Vite |}.

Definition svelte_dependencies (config : GeneratorConfig)
  : list DependencySpec :=
  [ peerDep "svelte" "^4.0.0 || ^5.0.0";
    devDep "@sveltejs/package" "^2.3.0";
    devDep "@sveltejs/vite-plugin-svelte" "^4.0.0";
    devDep "svelte" "^5.0.0";
    devDep "svelte-check" "^4.1.0";
    devDep "@testing-library/svelte" "^5.2.0";
    devDep "jsdom" "^25.0.0";
    devDep "eslint" "^9.17.0";
    devDep "@eslint/js" "^9.17.0";
    devDep "eslint-plugin-svelte" "^2.46.0";
    devDep "typescript-eslint" "^8.18.0";
    devDep "svelte-preprocess" "^6.0.0" ].

Definition svelte_files (config : GeneratorConfig) : list GeneratedFile :=
  [ tpl "src/lib/index.ts" "svelte/src/lib/index.ts.hbs";
    tpl "src/lib/components/Button/Button.svelte"
        "svelte/src/lib/components/Button/Button.svelte.hbs";
    tpl "src/lib/components/Button/Button.test.ts"
        "svelte/src/lib/components/Button/Button.test.ts.hbs";
    tpl "src/lib/components/Button/index.ts"
        "svelte/src/lib/components/Button/index.ts.hbs";
    tpl "src/lib/stores/toggle.ts" "svelte/src/lib/stores/toggle.ts.hbs";
    tpl "src/lib/stores/toggle.test.ts"
        "svelte/src/lib/stores/toggle.test.ts.hbs";
    tpl "src/lib/stores/index.ts" "svelte/src/lib/stores/index.ts.hbs";
    tpl "svelte.config.js" "svelte/svelte.config.js.hbs";
    tpl "eslint.config.js" "svelte/eslint.config.js.hbs" ]
  ++ (if truthy_flag (cfg_includeExample config)
      then [ tpl "example/index.html" "svelte/example/index.html.hbs";
             tpl "example/main.ts" "svelte/example/main.ts.hbs";
             tpl "example/App.svelte" "svelte/example/App.svelte.hbs";
             tpl "example/vite.config.ts" "svelte/example/vite.config.ts.hbs";
             tpl "example/package.json" "svelte/example/package.json.hbs";
             tpl "example/tsconfig.json" "svelte/example/tsconfig.json.hbs";
             tpl "example/svelte.config.js"
                 "svelte/example/svelte.config.js.hbs" ]
      else []).

Definition svelte_extras (config : GeneratorConfig) : list (string * Json) :=
  let scripts :=
    [ ("build", "svelte-package -i src/lib");
      ("lint", "eslint src"); ("lint:fix", "eslint src --fix");
      ("check", "svelte-check --tsconfig ./tsconfig.json") ]
    ++ (if truthy_flag (cfg_includeExample config)
        then [ ("example:install", "cd example && npm install");
               ("example:dev", "cd example && npm run dev") ]
        else []) in
  [ ("svelte", JStr "./dist/index.js");
    ("scripts", JStrMap scripts);
    ("files", JArr [JStr "dist"; JStr "!dist/**/*.test.*"]) ].

Definition svelte_warning : ValidationIssue :=
  {| severity := SevWarning;
     category := "config";
     message := "Svelte libraries typically use @sveltejs/package with Vite";
     suggestion := Some "Consider using Vite for the build system" |}.

Definition svelte_validate (config : GeneratorConfig)
  : list ValidationIssue :=
  if negb (BuildSystem_eqb (cfg_buildSystem config) Vite)
  then [ svelte_warning ] else [].

Definition SvelteGenerator : BaseGenerator.Subclass :=
  {| BaseGenerator.sub_meta := svelte_meta;
     BaseGenerator.getFrameworkDependencies := svelte_dependencies;
     BaseGenerator.getFrameworkFiles := svelte_files;
     BaseGenerator.getFrameworkPackageJsonExtras := svelte_extras;
     BaseGenerator.validateFrameworkConfig := svelte_validate |}.

Definition svelteGenerator : Generator := BaseGenerator.make SvelteGenerator.

End SvelteGenerator.

(** [src/generators/vanilla/index.ts] *)
Module VanillaGenerator.
Local Abbreviation devDep := BaseGenerator.devDep.
Local Abbreviation tpl := BaseGenerator.tpl.

Definition vanilla_meta : GeneratorMeta :=
  {| id := "typescript-utility";
     name := "TypeScript Utility Package";
     framework := "vanilla";
     description :=
       "Generate a framework-agnostic TypeScript utility library";
     version := "1.0.0";
     supportedPackageTypes := [Utility; Library; Sdk];
     supportedRuntimeTargets := [Browser; Node; Edge; Universal];
     recommendedBuildSystem := Tsup |}.

Definition vanilla_dependencies (config : GeneratorConfig)
  : list DependencySpec :=
  [ devDep "eslint" "^9.17.0";
    devDep "@eslint/js" "^9.17.0";
    devDep "typescript-eslint" "^8.18.0";
    devDep "globals" "^15.0.0";
    devDep "prettier" "^3.4.0" ].

Definition vanilla_files (config : GeneratorConfig) : list GeneratedFile :=
  [ tpl "src/index.ts" "vanilla/src/index.ts.hbs";
    tpl "src/utils/string.ts" "vanilla/src/utils/string.ts.hbs";
    tpl "src/utils/string.test.ts" "vanilla/src/utils/string.test.ts.hbs";
    tpl "src/utils/array.ts" "vanilla/src/utils/array.ts.hbs";
    tpl "src/utils/array.test.ts" "vanilla/src/utils/array.test.ts.hbs";
    tpl "src/utils/index.ts" "vanilla/src/utils/index.ts.hbs";
    tpl "src/types.ts" "vanilla/src/types.ts.hbs";
    tpl "eslint.config.js" "vanilla/eslint.config.js.hbs";
    tpl ".prettierrc" "vanilla/.prettierrc.hbs" ]
  ++ (if truthy_flag (cfg_includeExample config)
      then [ tpl "example/index.html" "vanilla/example/index.html.hbs";
             tpl "example/main.ts" "vanilla/example/main.ts.hbs";
             tpl "example/vite.config.ts" "vanilla/example/vite.config.ts.hbs";
             tpl "example/package.json" "vanilla/example/package.json.hbs";
             tpl "example/tsconfig.json" "vanilla/example/tsconfig.json.hbs" ]
      else []).

Definition vanilla_extras (config : GeneratorConfig) : list (string * Json) :=
  let scripts :=
    [ ("lint", "eslint src"); ("lint:fix", "eslint src --fix");
      ("format", "prettier --write src");
      ("format:check", "prettier --check src") ]
    ++ (if truthy_flag (cfg_includeExample config)
        then [ ("example:install", "cd example && npm install");
               ("example:dev", "cd example && npm run dev") ]
        else []) in
  [ ("scripts", JStrMap scripts) ]
  ++ (if RuntimeTarget_eqb (cfg_runtimeTarget config) Node
         || RuntimeTarget_eqb (cfg_runtimeTarget config) Universal
      then [ ("engines", JObj [ ("node", JStr ">=18.0.0") ]) ]
      else []).

Definition vanilla_validate (config : GeneratorConfig)
  : list ValidationIssue := [].

Definition VanillaGenerator : BaseGenerator.Subclass :=
  {| BaseGenerator.sub_meta := vanilla_meta;
     BaseGenerator.getFrameworkDependencies := vanilla_dependencies;
     BaseGenerator.getFrameworkFiles := vanilla_files;
     BaseGenerator.getFrameworkPackageJsonExtras := vanilla_extras;
     BaseGenerator.validateFrameworkConfig := vanilla_validate |}.

Definition vanillaGenerator : Generator :=
  BaseGenerator.make VanillaGenerator.

End VanillaGenerator.

(** [src/generators/index.ts] *)
Module Generators.

(** The generators in the order [initializeGenerators] registers them. *)
Definition builtin : list Generator :=
  [ ReactGenerator.reactGenerator;
    VueGenerator.vueGenerator;
    SvelteGenerator.svelteGenerator;
    VanillaGenerator.vanillaGenerator;
    NodeGenerator.nodeGenerator ].

(** A sequence of [registry.register] calls, with all they log. *)
Fixpoint registerAll (gs : list Generator) (r : Registry.t)
  : Registry.t * list LogEntry :=
  match gs with
  | [] => (r, [])
  | g :: rest =>
      let (r1, logged1) := Registry.register g r in
      let (r2, logged2) := registerAll rest r1 in
      (r2, logged1 ++ logged2)
  end.

(** [initializeGenerators()], on the registry as it is. *)
Definition initializeGenerators (r : Registry.t)
  : Registry.t * list LogEntry :=
  registerAll builtin r.

End Generators.

(* ------------------------------------------------------------------ *)
(** ** [src/commands/create.ts]: what the wizard offers *)

Module Wizard.

(** [frameworkChoices], filtered by [registry.getSupportedFrameworks()]. *)
Definition frameworkChoices (r : Registry.t) : list Framework :=
  filter
    (fun c => existsb (String.eqb c) (Registry.getSupportedFrameworks r))
    [ "react"; "vue"; "svelte"; "vanilla"; "node" ].

(** [generator?.meta.supportedPackageTypes || ['library']]: an array, even
    an empty one, is truthy. *)
Definition supportedTypes (generator : option Generator) : list PackageType :=
  match generator with
  | Some g => supportedPackageTypes (meta g)
  | None => [ Library ]
  end.

Definition packageTypeChoices (generator : option Generator)
  : list PackageType :=
  filter
    (fun c => existsb (PackageType_eqb c) (supportedTypes generator))
    [ Library; Plugin; Utility; Cli; Sdk ].

Definition recommendedBuild (generator : option Generator) : BuildSystem :=
  match generator with
  | Some g => recommendedBuildSystem (meta g)
  | None => Tsup
  end.

Definition supportedTargets (generator : option Generator)
  : list RuntimeTarget :=
  match generator with
  | Some g => supportedRuntimeTargets (meta g)
  | None => [ Browser; Node; Universal ]
  end.

Definition runtimeTargetChoices (generator : option Generator)
  : list RuntimeTarget :=
  filter
    (fun c => existsb (RuntimeTarget_eqb c) (supportedTargets generator))
    [ Browser; Node; Universal; Edge ].

(** [framework === 'node' ? 'node' : 'browser']. *)
Definition defaultRuntimeTarget (fw : Framework) : RuntimeTarget :=
  if String.eqb fw "node" then Node else Browser.

(** [getPackageDir(name)]. *)
Definition getPackageDir (name : string) : string := Str.strip_scope name.

End Wizard.

(* ------------------------------------------------------------------ *)
(** ** [src/core/template-engine.ts]: helpers on strings *)

Module TemplateHelpers.

Definition is_lower (c : ascii) : bool :=
  let n := nat_of_ascii c in Nat.leb 97 n && Nat.leb n 122.

(** [letter.toUpperCase()] for a letter matched by [[a-z]]. *)
Definition upper_letter (c : ascii) : ascii :=
  ascii_of_nat (nat_of_ascii c - 32).

(** [str.replace(/-([a-z])/g, (_, letter) => letter.toUpperCase())]: the
    matches are taken left to right and do not overlap. *)
Fixpoint camelCase (s : string) : string :=
  match s with
  | EmptyString => EmptyString
  | String c rest =>
      match rest with
      | String l rest' =>
          if Ascii.eqb c "-"%char && is_lower l
          then String (upper_letter l) (camelCase rest')
          else String c (camelCase rest)
      | EmptyString => String c EmptyString
      end
  end.

(** A line terminator, which [.] does not match. *)
Definition is_line_terminator (c : ascii) : bool :=
  let n := nat_of_ascii c in Nat.eqb n 10 || Nat.eqb n 13.

Fixpoint has_line_terminator (s : string) : bool :=
  match s with
  | EmptyString => false
  | String c rest => is_line_terminator c || has_line_terminator rest
  end.

(** [(.+)$] matches all of [s]. *)
Definition one_line (s : string) : bool :=
  match s with
  | EmptyString => false
  | _ => negb (has_line_terminator s)
  end.

(** [name.match(/^(?:@[^/]+\/)?(.+)$/)]: the scope is dropped when what
    follows it is one non-empty line; otherwise the group is the whole
    name, or there is no match and the name is returned. *)
Definition packageShortName (name : string) : string :=
  match name with
  | String "@"%char rest =>
      match Str.after_slash rest with
      | Some (S _, r) => if one_line r then r else name
      | _ => name
      end
  | _ => name
  end.

(** [name.startsWith('@')]. *)
Definition isScoped (name : string) : bool :=
  match name with
  | String "@"%char _ => true
  | _ => false
  end.

End TemplateHelpers.

(* ------------------------------------------------------------------ *)
(** ** Notions used to state the properties of a run *)

Module Trace.

(** The paths of the [writeFile] calls among [ops], in order. *)
Fixpoint written_paths (ops : list FsOp) : list string :=
  match ops with
  | [] => []
  | FsWriteFile p _ :: rest => p :: written_paths rest
  | _ :: rest => written_paths rest
  end.

(** The manifests of the [writeJson] calls among [ops], in order. *)
Fixpoint written_manifests (ops : list FsOp)
  : list (string * list (string * Json)) :=
  match ops with
  | [] => []
  | FsWriteJson p v :: rest => (p, v) :: written_manifests rest
  | _ :: rest => written_manifests rest
  end.

(** The hook is absent or the inherited one. *)
Definition default_hook (g : Generator) : Prop :=
  postGenerate g = None \/ postGenerate g = Some BaseGenerator.postGenerate.

(** [p] occurs in [s]. *)
Fixpoint occurs (p s : string) : bool :=
  match Str.strip_prefix p s with
  | Some _ => true
  | None =>
      match s with
      | EmptyString => false
      | String _ s' => occurs p s'
      end
  end.

(** [s] has the character [c]. *)
Fixpoint has_char (c : ascii) (s : string) : bool :=
  match s with
  | EmptyString => false
  | String a s' => Ascii.eqb a c || has_char c s'
  end.

(** Every stored generator is stored under its own identity and is in the
    bucket of its framework. *)
Definition stored_in_bucket (r : Registry.t) : Prop :=
  forall gid g,
    Registry.get gid r = Some g ->
    id (meta g) = gid
    /\ In g (Registry.getByFramework (framework (meta g)) r).

(** No string occurs twice in [l]. *)
Fixpoint distinct (l : list string) : bool :=
  match l with
  | [] => true
  | x :: rest => negb (existsb (String.eqb x) rest) && distinct rest
  end.

(** The first generator of [gs] with the framework tag [fw]. *)
Definition first_for (fw : Framework) (gs : list Generator)
  : option Generator :=
  find (fun g => String.eqb (framework (meta g)) fw) gs.

(** No ["-"] of [s] is followed by a lower-case letter. *)
Fixpoint kebab_free (s : string) : bool :=
  match s with
  | EmptyString => true
  | String c rest =>
      match rest with
      | String l _ =>
          negb (Ascii.eqb c "-"%char && TemplateHelpers.is_lower l)
          && kebab_free rest
      | EmptyString => true
      end
  end.

(** From [st] to [st'] the files [done] were written under [outDir], one
    [writeFile] each and in order, and recorded; no manifest was written
    and the warnings are the same. *)
Definition advanced (E : Env) (outDir : string) (done : list GeneratedFile)
           (st st' : Orchestrator.RunState) : Prop :=
  Orchestrator.rs_files st'
  = Orchestrator.rs_files st ++ map file_path done
  /\ written_paths (fs_ops (Orchestrator.rs_world st'))
     = written_paths (fs_ops (Orchestrator.rs_world st))
       ++ map (fun f => path_join E outDir (file_path f)) done
  /\ written_manifests (fs_ops (Orchestrator.rs_world st'))
     = written_manifests (fs_ops (Orchestrator.rs_world st))
  /\ Orchestrator.rs_warnings st' = Orchestrator.rs_warnings st.

(** A computation that leaves the file-system operations and the two
    arrays of a run as they are. *)
Definition quiet {A} (m : M Orchestrator.RunState A) : Prop :=
  forall st,
    fs_ops (Orchestrator.rs_world (fst (m st)))
    = fs_ops (Orchestrator.rs_world st)
    /\ Orchestrator.rs_files (fst (m st)) = Orchestrator.rs_files st
    /\ Orchestrator.rs_warnings (fst (m st)) = Orchestrator.rs_warnings st.

(** The files of [files] that are not skipped for [config]. *)
Definition included (config : GeneratorConfig) (files : list GeneratedFile)
  : list GeneratedFile :=
  filter (fun f => negb (Orchestrator.skipped config f)) files.

End Trace.

(* ------------------------------------------------------------------ *)
(** ** Further concrete inputs *)

Module Cases.

(** The registry after [initializeGenerators()] on an empty registry. *)
Definition allBuiltins : Registry.t :=
  fst (Generators.initializeGenerators Registry.empty).

(** An environment like [Samples.strictPrettier], on a file system that
    refuses every operation. *)
Definition readOnly : Env :=
  {| path_join := path_join Samples.strictPrettier;
     path_dirname := path_dirname Samples.strictPrettier;
     path_extname := path_extname Samples.strictPrettier;
     path_basename := path_basename Samples.strictPrettier;
     render := render Samples.strictPrettier;
     templatesRoot := templatesRoot Samples.strictPrettier;
     prettier_format := prettier_format Samples.strictPrettier;
     fs_fail := fun _ _ => Some "EACCES: permission denied";
     now_year := now_year Samples.strictPrettier;
     now_date := now_date Samples.strictPrettier |}.

(** A generator whose one dependency of its own is an optional
    dependency named ["__proto__"]. *)
Definition protoGenerator : Generator :=
  BaseGenerator.make
    {| BaseGenerator.sub_meta :=
         {| id := "proto";
            name := "Proto";
            framework := "vanilla";
            description := "Declares a dependency named __proto__";
            version := "1.0.0";
            supportedPackageTypes := [Library];
            supportedRuntimeTargets := [Browser];
            recommendedBuildSystem := Tsup |};
       BaseGenerator.getFrameworkDependencies :=
         fun _ => [ BaseGenerator.optionalDep "__proto__" "1.0.0" ];
       BaseGenerator.getFrameworkFiles := fun _ => [];
       BaseGenerator.getFrameworkPackageJsonExtras := fun _ => [];
       BaseGenerator.validateFrameworkConfig := fun _ => [] |}.

(** A generator whose extras carry an array under [scripts]. *)
Definition arrayScriptsGenerator : Generator :=
  BaseGenerator.make
    {| BaseGenerator.sub_meta :=
         {| id := "array-scripts";
            name := "Array Scripts";
            framework := "vanilla";
            description := "Puts an array under scripts";
            version := "1.0.0";
            supportedPackageTypes := [Library];
            supportedRuntimeTargets := [Browser];
            recommendedBuildSystem := Tsup |};
       BaseGenerator.getFrameworkDependencies := fun _ => [];
       BaseGenerator.getFrameworkFiles := fun _ => [];
       BaseGenerator.getFrameworkPackageJsonExtras :=
         fun _ => [ ("scripts", JArr [ JStr "echo hi" ]) ];
       BaseGenerator.validateFrameworkConfig := fun _ => [] |}.

(** A template shared by the frameworks. *)
Definition sharedTemplate : GeneratedFile :=
  {| file_path := "README.md";
     file_template := "common/README.md.hbs";
     file_isTemplate := true;
     file_condition := None |}.

End Cases.

(* ------------------------------------------------------------------ *)
(** * Properties *)

(** ** Facts about insertion-ordered maps *)

Section OMapFacts.
Context {V : Type}.
Implicit Types (m o e : list (string * V)) (k : string) (v : V).

Lemma omap_get_set_same k v m : OMap.get k (OMap.set k v m) = Some v.
Proof.
  induction m as [|[k' v'] m IH]; simpl.
  - now rewrite String.eqb_refl.
  - destruct (String.eqb k' k) eqn:Hk; simpl.
    + now rewrite String.eqb_refl.
    + now rewrite Hk.
Qed.

Lemma omap_get_set_other k k' v m :
  k' <> k -> OMap.get k' (OMap.set k v m) = OMap.get k' m.
Proof.
  intros Hne.
  assert (Hkk : String.eqb k k' = false) by (apply String.eqb_neq; congruence).
  induction m as [|[k0 v0] m IH]; simpl.
  - now rewrite Hkk.
  - destruct (String.eqb k0 k) eqn:Hk; simpl.
    + apply String.eqb_eq in Hk; subst k0. now rewrite Hkk.
    + now rewrite IH.
Qed.

Lemma omap_has_set k k' v m :
  OMap.has k' (OMap.set k v m) = String.eqb k k' || OMap.has k' m.
Proof.
  unfold OMap.has.
  destruct (String.eqb k k') eqn:Hk.
  - apply String.eqb_eq in Hk; subst. now rewrite omap_get_set_same.
  - apply String.eqb_neq in Hk.
    rewrite omap_get_set_other by congruence. reflexivity.
Qed.

Lemma omap_get_assign_same k v m :
  k <> "__proto__" -> OMap.get k (OMap.assign k v m) = Some v.
Proof.
  intros Hk. unfold OMap.assign.
  apply String.eqb_neq in Hk. rewrite Hk. apply omap_get_set_same.
Qed.

Lemma omap_get_assign_other k k' v m :
  k' <> k -> OMap.get k' (OMap.assign k v m) = OMap.get k' m.
Proof.
  intros Hne. unfold OMap.assign.
  destruct (String.eqb k "__proto__"); [reflexivity|].
  now apply omap_get_set_other.
Qed.

Lemma omap_get_assign_proto k v m :
  OMap.get "__proto__" (OMap.assign k v m) = OMap.get "__proto__" m.
Proof.
  unfold OMap.assign.
  destruct (String.eqb k "__proto__") eqn:Hk; [reflexivity|].
  apply omap_get_set_other. apply String.eqb_neq in Hk. congruence.
Qed.

Lemma omap_has_spread k o e :
  OMap.has k (OMap.spread o e) = OMap.has k o || OMap.has k e.
Proof.
  unfold OMap.spread. revert o.
  induction e as [|[k' v'] e IH]; intros o; simpl.
  - now rewrite orb_false_r.
  - rewrite IH, omap_has_set. unfold OMap.has at 4. simpl.
    destruct (String.eqb k' k); simpl.
    + now rewrite orb_true_r.
    + reflexivity.
Qed.

Lemma omap_get_spread_absent k o e :
  OMap.has k e = false -> OMap.get k (OMap.spread o e) = OMap.get k o.
Proof.
  unfold OMap.spread. revert o.
  induction e as [|[k' v'] e IH]; intros o He; simpl.
  - reflexivity.
  - unfold OMap.has in He. simpl in He.
    destruct (String.eqb k' k) eqn:Hk; [discriminate|].
    rewrite IH by exact He.
    apply omap_get_set_other. apply String.eqb_neq in Hk. congruence.
Qed.

Lemma omap_get_remove_other k k' m :
  k' <> k -> OMap.get k' (OMap.remove k m) = OMap.get k' m.
Proof.
  intros Hne.
  induction m as [|[k0 v0] m IH]; simpl.
  - reflexivity.
  - destruct (String.eqb k0 k) eqn:Hk; simpl.
    + apply String.eqb_eq in Hk; subst k0.
      assert (Hkk : String.eqb k k' = false)
        by (apply String.eqb_neq; congruence).
      now rewrite Hkk.
    + now rewrite IH.
Qed.

Lemma omap_get_remove_same k m : OMap.get k (OMap.remove k m) = None.
Proof.
  induction m as [|[k0 v0] m IH]; simpl.
  - reflexivity.
  - destruct (String.eqb k0 k) eqn:Hk; simpl; [exact IH|].
    now rewrite Hk.
Qed.

Lemma omap_has_remove_other k k' m :
  k' <> k -> OMap.has k' (OMap.remove k m) = OMap.has k' m.
Proof.
  intros Hne. unfold OMap.has. now rewrite omap_get_remove_other.
Qed.

Lemma omap_has_keys k m : OMap.has k m = true <-> In k (OMap.keys m).
Proof.
  unfold OMap.has, OMap.keys.
  induction m as [|[k' v'] m IH]; simpl.
  - split; [discriminate | tauto].
  - destruct (String.eqb k' k) eqn:Hk.
    + apply String.eqb_eq in Hk. split; auto.
    + apply String.eqb_neq in Hk. rewrite IH. tauto.
Qed.
End OMapFacts.

(** The members of each union are told apart by their strings. *)
Lemma PackageType_eqb_eq a b : PackageType_eqb a b = true <-> a = b.
Proof. destruct a, b; vm_compute; split; congruence. Qed.

Lemma RuntimeTarget_eqb_eq a b : RuntimeTarget_eqb a b = true <-> a = b.
Proof. destruct a, b; vm_compute; split; congruence. Qed.

Lemma ModuleFormat_eqb_eq a b : ModuleFormat_eqb a b = true <-> a = b.
Proof. destruct a, b; vm_compute; split; congruence. Qed.

Lemma DependencyKind_eqb_eq a b : DependencyKind_eqb a b = true <-> a = b.
Proof. destruct a, b; vm_compute; split; congruence. Qed.

Lemma section_key_inj a b : section_key a = section_key b -> a = b.
Proof. destruct a, b; simpl; congruence. Qed.

(** ** The manifest, field by field *)

Section ManifestFacts.
Import Orchestrator.

Lemma get_add_section_other deps kind k pkg :
  k <> section_key kind ->
  OMap.get k (add_section deps kind pkg) = OMap.get k pkg.
Proof.
  intros Hne. unfold add_section.
  destruct (groupDependencies deps kind); [reflexivity|].
  now apply omap_get_set_other.
Qed.


Lemma has_add_section deps kind k pkg :
  OMap.has k (add_section deps kind pkg)
  = (String.eqb (section_key kind) k
     && negb (Nat.eqb (List.length (groupDependencies deps kind)) 0))
    || OMap.has k pkg.
Proof.
  unfold add_section.
  destruct (groupDependencies deps kind); simpl.
  - now rewrite andb_false_r.
  - now rewrite omap_has_set, andb_true_r.
Qed.

(** The field [exports] of the manifest is the synthesized
    [exportsField], unless the generator's extras carry an [exports] key
    of their own. *)
Lemma packageJson_exports g config :
  OMap.has "exports" (getPackageJsonExtras g config) = false ->
  OMap.get "exports" (packageJson g config)
  = Some (JObj (buildExportsField config (getExports g config))).
Proof.
  intros Hex. unfold packageJson.
  rewrite !get_add_section_other
    by (match goal with |- _ <> section_key ?k => now destruct k end).
  assert (Hspread : forall fixed,
             OMap.get "exports"
               (OMap.spread fixed
                  (OMap.remove "scripts" (getPackageJsonExtras g config)))
             = OMap.get "exports" fixed).
  { intros fixed. apply omap_get_spread_absent.
    rewrite omap_has_remove_other by discriminate. exact Hex. }
  destruct (truthy_text (cfg_repository config)).
  - rewrite omap_get_set_other by discriminate.
    rewrite Hspread. reflexivity.
  - rewrite Hspread. reflexivity.
Qed.

Lemma exportEntry_main config :
  exists entry,
    exportEntry config
      {| exp_path := ".";
         exp_types := Some "./dist/index.d.ts";
         exp_import := Some "./dist/index.js";
         exp_require :=
           if ModuleFormat_eqb (cfg_moduleFormat config) Dual
           then Some "./dist/index.cjs" else None;
         exp_default := Some "./dist/index.js" |} = JObj entry
    /\ (Manifest.has_require entry = true <-> cfg_moduleFormat config = Dual).
Proof.
  unfold exportEntry; simpl.
  destruct (cfg_moduleFormat config); eexists; (split; [reflexivity|]);
    vm_compute; split; congruence.
Qed.

Lemma exportsField_other_paths config k more acc :
  Forall (fun e => exp_path e <> k) more ->
  OMap.get k
    (fold_left
       (fun acc exp =>
          OMap.assign (exp_path exp) (exportEntry config exp) acc)
       more acc)
  = OMap.get k acc.
Proof.
  intros Hmore. revert acc.
  induction Hmore as [|e more He _ IH]; intros acc; simpl.
  - reflexivity.
  - rewrite IH. apply omap_get_assign_other. congruence.
Qed.

(** The root entry of [exportsField] when the export list is the base
    one, possibly followed by entries for other subpaths. *)
Lemma root_of_exportsField config more :
  Forall (fun e => exp_path e <> ".") more ->
  exists entry,
    OMap.get "." (buildExportsField config
                    (BaseGenerator.getExports config ++ more))
    = Some (JObj entry)
    /\ (Manifest.has_require entry = true <-> cfg_moduleFormat config = Dual).
Proof.
  intros Hmore.
  destruct (exportEntry_main config) as (entry & Hentry & Hreq).
  exists entry. split; [|exact Hreq].
  unfold buildExportsField. rewrite fold_left_app.
  rewrite exportsField_other_paths by exact Hmore.
  unfold BaseGenerator.getExports. cbn [fold_left exp_path].
  rewrite Hentry. apply omap_get_assign_same. discriminate.
Qed.
End ManifestFacts.

(** ** Root export entry and module format *)

Section RootExport.
Import Orchestrator.

Lemma react_extras_no_exports config :
  OMap.has "exports"
    (getPackageJsonExtras ReactGenerator.reactGenerator config) = false.
Proof.
  simpl. unfold BaseGenerator.getPackageJsonExtras.
  rewrite omap_has_spread. reflexivity.
Qed.

Lemma node_extras_no_exports config :
  OMap.has "exports"
    (getPackageJsonExtras NodeGenerator.nodeGenerator config) = false.
Proof.
  simpl. unfold BaseGenerator.getPackageJsonExtras.
  rewrite omap_has_spread. simpl. unfold NodeGenerator.node_extras.
  destruct (NodeGenerator.is_cli config); reflexivity.
Qed.

Lemma root_entry_of_manifest g config more :
  OMap.has "exports" (getPackageJsonExtras g config) = false ->
  getExports g config = BaseGenerator.getExports config ++ more ->
  Forall (fun e => exp_path e <> ".") more ->
  exists entry,
    Manifest.root_entry (packageJson g config) = Some entry
    /\ (Manifest.has_require entry = true <-> cfg_moduleFormat config = Dual).
Proof.
  intros Hex Hg Hmore.
  destruct (root_of_exportsField config more Hmore) as (entry & Hget & Hreq).
  exists entry. split; [|exact Hreq].
  unfold Manifest.root_entry.
  rewrite (packageJson_exports g config Hex), Hg, Hget. reflexivity.
Qed.

(** C1. With module format [dual] the root export entry of the base
    generator's [getExports] has a [require] path, and so has the entry
    for ["."] in the [exports] field of the synthesized manifest; with
    [esm] or [cjs] neither has one. The manifest is that of the React
    generator, which inherits [getExports], and of the Node generator,
    which appends to what it inherits. *)
Theorem C1_root_export_require_iff_dual (config : GeneratorConfig) :
  (exists root,
      BaseGenerator.getExports config = [root]
      /\ exp_path root = "."
      /\ (exp_require root <> None <-> cfg_moduleFormat config = Dual))
  /\ (exists entry,
         OMap.get "." (buildExportsField config
                         (BaseGenerator.getExports config))
         = Some (JObj entry)
         /\ (Manifest.has_require entry = true
             <-> cfg_moduleFormat config = Dual))
  /\ (exists entry,
         Manifest.root_entry
           (packageJson ReactGenerator.reactGenerator config) = Some entry
         /\ (Manifest.has_require entry = true
             <-> cfg_moduleFormat config = Dual))
  /\ (exists entry,
         Manifest.root_entry
           (packageJson NodeGenerator.nodeGenerator config) = Some entry
         /\ (Manifest.has_require entry = true
             <-> cfg_moduleFormat config = Dual)).
Proof.
  split; [|split; [|split]].
  - eexists. split; [reflexivity|]. split; [reflexivity|]. simpl.
    destruct (cfg_moduleFormat config); vm_compute; split; congruence.
  - destruct (root_of_exportsField config [] (Forall_nil _))
      as (entry & Hget & Hreq).
    rewrite app_nil_r in Hget. exists entry. now split.
  - apply (root_entry_of_manifest _ config []).
    + apply react_extras_no_exports.
    + reflexivity.
    + constructor.
  - apply (root_entry_of_manifest _ config
             (if NodeGenerator.is_cli config
              then [ NodeGenerator.binExport ] else [])).
    + apply node_extras_no_exports.
    + reflexivity.
    + destruct (NodeGenerator.is_cli config); repeat constructor.
      simpl. discriminate.
Qed.
End RootExport.

(** ** The [bin] field of a Node package *)

Section NodeBin.
Import Orchestrator.

(** The manifest has a [bin] field exactly when the generator's extras
    have one: no other step of [generatePackageJson] writes that key. *)
Lemma packageJson_has_bin g config :
  OMap.has "bin" (packageJson g config)
  = OMap.has "bin" (getPackageJsonExtras g config).
Proof.
  unfold packageJson.
  rewrite !has_add_section. simpl.
  destruct (truthy_text (cfg_repository config)).
  - rewrite omap_has_set, omap_has_spread. simpl.
    now rewrite omap_has_remove_other by discriminate.
  - rewrite omap_has_spread. simpl.
    now rewrite omap_has_remove_other by discriminate.
Qed.

Lemma node_extras_bin config :
  OMap.has "bin" (getPackageJsonExtras NodeGenerator.nodeGenerator config)
  = NodeGenerator.is_cli config.
Proof.
  simpl. unfold BaseGenerator.getPackageJsonExtras.
  rewrite omap_has_spread. simpl. unfold NodeGenerator.node_extras.
  destruct (NodeGenerator.is_cli config); reflexivity.
Qed.

(** C8. For the Node generator and package type [cli], whatever the
    module format, the manifest has a [bin] field and [getExports]
    returns the root entry followed by one more entry, for the subpath
    ["./bin"]; for package type [library] the manifest has no [bin]
    field. *)
Theorem C8_node_cli_bin (config : GeneratorConfig) :
  (cfg_packageType config = Cli ->
     OMap.has "bin" (packageJson NodeGenerator.nodeGenerator config) = true
     /\ getExports NodeGenerator.nodeGenerator config
        = BaseGenerator.getExports config ++ [NodeGenerator.binExport]
     /\ map exp_path (getExports NodeGenerator.nodeGenerator config)
        = ["."; "./bin"])
  /\ (cfg_packageType config = Library ->
        OMap.has "bin" (packageJson NodeGenerator.nodeGenerator config)
        = false).
Proof.
  split; intros Htype.
  - rewrite packageJson_has_bin, node_extras_bin.
    simpl. unfold NodeGenerator.node_getExports, NodeGenerator.is_cli.
    rewrite Htype. simpl. repeat split; reflexivity.
  - rewrite packageJson_has_bin, node_extras_bin.
    unfold NodeGenerator.is_cli. now rewrite Htype.
Qed.
End NodeBin.

(** ** Dependencies and the manifest sections *)

Section DependencySections.
Import Orchestrator.

Lemma omap_set_not_nil {V} k (v : V) m : OMap.set k v m <> [].
Proof.
  destruct m as [|[k' v'] m]; simpl; [discriminate|].
  destruct (String.eqb k' k); discriminate.
Qed.

Lemma omap_assign_keeps {V} k (v : V) m :
  m <> [] -> OMap.assign k v m <> [].
Proof.
  intros Hm. unfold OMap.assign.
  destruct (String.eqb k "__proto__"); [exact Hm | apply omap_set_not_nil].
Qed.

Lemma fold_assign_not_nil (l : list DependencySpec) acc :
  acc <> [] ->
  Nat.eqb
    (List.length
       (fold_left
          (fun acc d => OMap.assign (dep_name d) (dep_version d) acc)
          l acc)) 0
  = false.
Proof.
  revert acc. induction l as [|d l IH]; intros acc Hacc; simpl.
  - destruct acc; [congruence | reflexivity].
  - apply IH, omap_assign_keeps, Hacc.
Qed.

(** A group is empty exactly when no spec of its kind has a name that is
    stored. *)
Lemma group_empty_iff deps kind :
  Nat.eqb (List.length (groupDependencies deps kind)) 0
  = negb (Manifest.stores kind deps).
Proof.
  unfold groupDependencies, Manifest.stores.
  induction deps as [|d deps IH]; cbn [filter existsb fold_left].
  - reflexivity.
  - destruct (DependencyKind_eqb (dep_type d) kind);
      cbn [fold_left andb orb]; [|exact IH].
    unfold OMap.assign at 2.
    destruct (String.eqb (dep_name d) "__proto__"); cbn [negb orb].
    + exact IH.
    + cbn [OMap.set]. apply fold_assign_not_nil. discriminate.
Qed.

Lemma stores_iff deps kind :
  Manifest.stores kind deps = true
  <-> exists d, In d deps /\ dep_type d = kind
                /\ dep_name d <> "__proto__".
Proof.
  unfold Manifest.stores. rewrite existsb_exists.
  split.
  - intros (d & Hin & Hd). apply andb_true_iff in Hd as [Hk Hn].
    exists d. split; [exact Hin|].
    split; [now apply DependencyKind_eqb_eq|].
    apply negb_true_iff in Hn. now apply String.eqb_neq.
  - intros (d & Hin & Hk & Hn). exists d. split; [exact Hin|].
    apply andb_true_iff. split; [now apply DependencyKind_eqb_eq|].
    apply negb_true_iff. now apply String.eqb_neq.
Qed.







(** Which keys of the four sections a manifest has. *)
Lemma packageJson_has_section g config kind :
  OMap.has (section_key kind) (packageJson g config)
  = Manifest.stores kind (getDependencies g config)
    || OMap.has (section_key kind) (getPackageJsonExtras g config).
Proof.
  unfold packageJson.
  rewrite !has_add_section, !group_empty_iff, !negb_involutive.
  assert (Hbase :
            forall fixed,
              OMap.has (section_key kind) fixed = false ->
              OMap.has (section_key kind)
                (match truthy_text (cfg_repository config) with
                 | Some url =>
                     OMap.set "repository"
                       (JObj [("type", JStr "git"); ("url", JStr url)])
                       (OMap.spread fixed
                          (OMap.remove "scripts"
                             (getPackageJsonExtras g config)))
                 | None =>
                     OMap.spread fixed
                       (OMap.remove "scripts" (getPackageJsonExtras g config))
                 end)
              = OMap.has (section_key kind) (getPackageJsonExtras g config)).
  { intros fixed Hfixed.
    destruct (truthy_text (cfg_repository config)).
    - rewrite omap_has_set, omap_has_spread, Hfixed.
      rewrite omap_has_remove_other by (destruct kind; discriminate).
      destruct kind; reflexivity.
    - rewrite omap_has_spread, Hfixed.
      rewrite omap_has_remove_other by (destruct kind; discriminate).
      reflexivity. }
  rewrite Hbase by (destruct kind; reflexivity).
  destruct kind; simpl;
    repeat match goal with
           | |- context [Manifest.stores ?k ?d] =>
               destruct (Manifest.stores k d)
           end; simpl; reflexivity.
Qed.
End DependencySections.

Section DependencyRoundTrip.
Import Orchestrator.






(** A declared dependency named ["__proto__"] is not written: the
    generator declares it as its only optional dependency, and the
    manifest has no [optionalDependencies]. *)
Lemma proto_dependency_is_not_written :
  In (BaseGenerator.optionalDep "__proto__" "1.0.0")
     (getDependencies Cases.protoGenerator Samples.libConfig)
  /\ groupDependencies
       (getDependencies Cases.protoGenerator Samples.libConfig)
       OptionalDependency = []
  /\ OMap.has "optionalDependencies"
       (packageJson Cases.protoGenerator Samples.libConfig) = false.
Proof.
  split; [|split; reflexivity].
  cbn. repeat (try (left; reflexivity); right).
Qed.
End DependencyRoundTrip.

(** ** Validation by the React generator *)

Section ReactValidation.

(** C2, as the code has it. For the React generator and runtime target
    [node] the result is not valid: the issues end with the error that
    the target is not supported and, after it, the warning that
    recommends [browser] or [universal]; when the name, the package type
    and the output directory are valid these two are the only issues. *)
Theorem C2_react_node_target (config : GeneratorConfig) :
  cfg_runtimeTarget config = Node ->
  valid (validate ReactGenerator.reactGenerator config) = false
  /\ In Issues.react_node_error
        (issues (validate ReactGenerator.reactGenerator config))
  /\ In Issues.react_node_warning
        (issues (validate ReactGenerator.reactGenerator config))
  /\ (BaseGenerator.blank (cfg_name config) = false ->
      In (cfg_packageType config) [Library; Utility; Plugin] ->
      BaseGenerator.blank (cfg_outDir config) = false ->
      issues (validate ReactGenerator.reactGenerator config)
      = [Issues.react_node_error; Issues.react_node_warning]).
Proof.
  intros Htarget.
  simpl. unfold BaseGenerator.validate. simpl.
  unfold ReactGenerator.react_validate. rewrite Htarget. simpl.
  repeat split.
  - rewrite !existsb_app. simpl.
    now rewrite !orb_true_r.
  - apply in_or_app. right. apply in_or_app. right. now left.
  - apply in_or_app. right. apply in_or_app. right.
    right. apply in_or_app. right. now left.
  - intros Hname Htype Hout. rewrite Hname, Hout.
    destruct Htype as [<- | [<- | [<- | []]]]; reflexivity.
Qed.

(** C2 at the library configuration with the runtime target [node]. *)
Lemma C2_react_node_target_witness :
  valid (validate ReactGenerator.reactGenerator Samples.reactOnNode) = false
  /\ issues (validate ReactGenerator.reactGenerator Samples.reactOnNode)
     = [Issues.react_node_error; Issues.react_node_warning].
Proof.
  pose proof (C2_react_node_target Samples.reactOnNode eq_refl)
    as (Hvalid & _ & _ & Hissues).
  split; [exact Hvalid|].
  apply Hissues; [reflexivity | now left | reflexivity].
Defined.

(** C2 as stated fails: with every other field valid, the result for the
    runtime target [node] is not valid. *)
Lemma C2_react_node_is_not_valid :
  cfg_runtimeTarget Samples.reactOnNode = Node
  /\ BaseGenerator.blank (cfg_name Samples.reactOnNode) = false
  /\ BaseGenerator.blank (cfg_outDir Samples.reactOnNode) = false
  /\ In (cfg_packageType Samples.reactOnNode)
        (supportedPackageTypes (meta ReactGenerator.reactGenerator))
  /\ valid (validate ReactGenerator.reactGenerator Samples.reactOnNode)
     = false.
Proof. repeat split; try reflexivity. now left. Qed.
End ReactValidation.

(** ** The registry *)

Section RegistryFacts.

(** The three views of a framework without generators agree. *)
Lemma no_generator_views fw r :
  Registry.getByFramework fw r = []
  <-> Registry.getPrimary fw r = None.
Proof.
  unfold Registry.getPrimary.
  destruct (Registry.getByFramework fw r); split; congruence.
Qed.

Lemma hasFramework_bucket fw r :
  Registry.hasFramework fw r = false <-> Registry.getByFramework fw r = [].
Proof.
  unfold Registry.hasFramework, Registry.getByFramework, Registry.bucket.
  destruct (OMap.get fw (Registry.frameworkMap r)) as [[|g gs]|];
    cbn; split; intros H; try reflexivity; discriminate H.
Qed.

(** [register] stores the generator under its identity and appends it to
    the bucket of its framework; nothing is taken out of a bucket. *)
Lemma register_get g r :
  Registry.get (id (meta g)) (fst (Registry.register g r)) = Some g.
Proof. apply omap_get_set_same. Qed.

Lemma register_bucket g r :
  Registry.getByFramework (framework (meta g)) (fst (Registry.register g r))
  = Registry.getByFramework (framework (meta g)) r ++ [g].
Proof.
  unfold Registry.getByFramework, Registry.bucket. simpl.
  now rewrite omap_get_set_same.
Qed.

(** After a second [register] under an identity, the generator stored
    before is still in the bucket of its framework, and the primary
    generator of that framework is who it was. *)
Lemma register_keeps_bucket g r old :
  In old (Registry.getByFramework (framework (meta g)) r) ->
  In old (Registry.getByFramework (framework (meta g))
            (fst (Registry.register g r)))
  /\ Registry.getPrimary (framework (meta g)) (fst (Registry.register g r))
     = Registry.getPrimary (framework (meta g)) r.
Proof.
  intros Hold. unfold Registry.getPrimary. rewrite register_bucket.
  split.
  - apply in_or_app. now left.
  - destruct (Registry.getByFramework (framework (meta g)) r);
      [destruct Hold | reflexivity].
Qed.

Lemma linked_empty : Registry.linked Registry.empty.
Proof. intros gid g Hget. discriminate Hget. Qed.

Lemma linked_step r o :
  Registry.linked r -> Registry.linked (Registry.step r o).
Proof.
  intros Hr. destruct o as [g | gid]; simpl.
  - intros gid' g' Hget. simpl in *. rewrite omap_has_set.
    destruct (String.eqb (id (meta g)) gid') eqn:Hid.
    + apply String.eqb_eq in Hid; subst gid'.
      rewrite omap_get_set_same in Hget. injection Hget as <-.
      now rewrite String.eqb_refl.
    + apply String.eqb_neq in Hid.
      rewrite omap_get_set_other in Hget by congruence.
      rewrite (Hr _ _ Hget). apply orb_true_r.
  - unfold Registry.unregister.
    destruct (OMap.get gid (Registry.generators r)) as [g|] eqn:Hg;
      [|exact Hr].
    intros gid' g' Hget. simpl in *. rewrite omap_has_set.
    destruct (String.eqb gid gid') eqn:Hid.
    + apply String.eqb_eq in Hid; subst gid'.
      now rewrite omap_get_remove_same in Hget.
    + apply String.eqb_neq in Hid.
      rewrite omap_get_remove_other in Hget by congruence.
      rewrite (Hr _ _ Hget). apply orb_true_r.
Qed.

(** [register] adds the framework tag to the listed ones; [unregister]
    takes none away. *)
Lemma supported_step r o fw :
  Registry.linked r ->
  In fw (Registry.getSupportedFrameworks (Registry.step r o))
  <-> In fw (Registry.getSupportedFrameworks r)
      \/ (exists g, o = Registry.DoRegister g /\ framework (meta g) = fw).
Proof.
  intros Hr. unfold Registry.getSupportedFrameworks.
  rewrite <- !omap_has_keys.
  destruct o as [g | gid]; simpl.
  - rewrite omap_has_set, orb_true_iff, String.eqb_eq.
    split.
    + intros [Hfw | Hin]; [right; now exists g | now left].
    + intros [Hin | (g' & Heq & Hfw)]; [now right|].
      injection Heq as <-. now left.
  - unfold Registry.unregister.
    destruct (OMap.get gid (Registry.generators r)) as [g|] eqn:Hg; simpl.
    + rewrite omap_has_set, orb_true_iff, String.eqb_eq.
      split.
      * intros [Hfw | Hin]; [|now left].
        left. subst fw. exact (Hr _ _ Hg).
      * intros [Hin | (g' & Heq & _)]; [now right | discriminate Heq].
    + split; [now left|].
      intros [Hin | (g' & Heq & _)]; [exact Hin | discriminate Heq].
Qed.

(** What [getSupportedFrameworks] lists after a sequence of calls: the
    framework tags of all generators that were ever registered. *)
Lemma supported_after_run ops fw :
  In fw (Registry.getSupportedFrameworks (Registry.run ops))
  <-> exists g, In (Registry.DoRegister g) ops /\ framework (meta g) = fw.
Proof.
  unfold Registry.run.
  assert (Hgen : forall r,
             Registry.linked r ->
             In fw (Registry.getSupportedFrameworks
                      (fold_left Registry.step ops r))
             <-> In fw (Registry.getSupportedFrameworks r)
                 \/ (exists g, In (Registry.DoRegister g) ops
                               /\ framework (meta g) = fw)).
  { induction ops as [|o ops IH]; intros r Hr; simpl.
    - split; [now left|]. intros [Hin | (g & [] & _)]. exact Hin.
    - rewrite (IH _ (linked_step r o Hr)), (supported_step r o fw Hr).
      split.
      + intros [[Hin | (g & Heq & Hfw)] | (g & Hin & Hfw)].
        * now left.
        * right. exists g. split; [now left | exact Hfw].
        * right. exists g. split; [now right | exact Hfw].
      + intros [Hin | (g & [Heq | Hin] & Hfw)].
        * left. now left.
        * left. right. now exists g.
        * right. now exists g. }
  rewrite (Hgen _ linked_empty). simpl.
  split; [intros [[] | H]; exact H | intros H; now right].
Qed.

(** C3, at two generators with the identity ["react-library"] and the
    framework ["react"]: the second [register] logs the warning and
    nothing at error level, and [get] returns the second generator, but
    the bucket of ["react"] holds both and [getPrimary] still returns the
    first. *)
Theorem C3_reregistered_identity_stays_in_bucket :
  let r1 := fst (Registry.register ReactGenerator.reactGenerator
                   Registry.empty) in
  let r2 := fst (Registry.register Samples.reactGenerator2 r1) in
  let logged := snd (Registry.register Samples.reactGenerator2 r1) in
  logged
  = [ (LWarn, "Generator " +s+ dquote +s+ "react-library" +s+ dquote
                +s+ " is already registered. Overwriting.");
      (LDebug, "Registered generator: react-library (react)") ]
  /\ Registry.get "react-library" r2 = Some Samples.reactGenerator2
  /\ Registry.getByFramework "react" r2
     = [ ReactGenerator.reactGenerator; Samples.reactGenerator2 ]
  /\ Registry.getPrimary "react" r2 = Some ReactGenerator.reactGenerator
  /\ version (meta ReactGenerator.reactGenerator)
     <> version (meta Samples.reactGenerator2).
Proof. repeat split; try reflexivity. discriminate. Qed.

(** C4, after registering the React generator and unregistering it: no
    generator is left and the bucket of ["react"] is empty, yet
    [getSupportedFrameworks] lists ["react"], where [hasFramework]
    answers no. *)
Theorem C4_emptied_framework_still_listed :
  let r := Registry.run
             [ Registry.DoRegister ReactGenerator.reactGenerator;
               Registry.DoUnregister "react-library" ] in
  Registry.getAll r = []
  /\ Registry.getByFramework "react" r = []
  /\ Registry.hasFramework "react" r = false
  /\ Registry.getSupportedFrameworks r = ["react"].
Proof. repeat split; reflexivity. Qed.
End RegistryFacts.

(** ** Failures before any file-system operation *)

Section EarlyFailures.
Import Orchestrator.
Variable E : Env.

Lemma append_not_empty (a b : string) :
  a <> EmptyString -> a +s+ b <> EmptyString.
Proof. destruct a; simpl; congruence. Qed.

Lemma join_head_not_empty sep first rest :
  first <> EmptyString -> Str.join sep (first :: rest) <> EmptyString.
Proof.
  intros Hfirst. unfold Str.join. simpl.
  destruct rest; [exact Hfirst | now apply append_not_empty].
Qed.

(** C5. When no generator is registered for the framework tag,
    [generatePackage] leaves the world as it found it (no file-system
    operation, no log entry) and returns a failed result with no files
    and a non-empty error message. *)
Theorem C5_unknown_framework_fails_without_writes
        (reg : Registry.t) (fw : Framework) (config : GeneratorConfig)
        (w : World) :
  Registry.getByFramework fw reg = [] ->
  fst (generatePackage E reg fw config w) = w
  /\ success (snd (generatePackage E reg fw config w)) = false
  /\ files (snd (generatePackage E reg fw config w)) = []
  /\ (exists msg,
         error (snd (generatePackage E reg fw config w)) = Some msg
         /\ msg <> EmptyString).
Proof.
  intros Hnone. apply no_generator_views in Hnone.
  unfold generatePackage. rewrite Hnone. simpl.
  repeat split. eexists. split; [reflexivity|]. discriminate.
Qed.

Lemma trim_start_all_space s :
  Str.all_space s = true -> Str.trim_start s = EmptyString.
Proof.
  induction s as [|c s IH]; simpl; [reflexivity|].
  intros Hs. apply andb_true_iff in Hs as [Hc Hs].
  rewrite Hc. now apply IH.
Qed.

Lemma blank_all_space s :
  Str.all_space s = true -> BaseGenerator.blank s = true.
Proof.
  intros Hs. unfold BaseGenerator.blank, Str.trim.
  now rewrite trim_start_all_space.
Qed.

(** What [generatePackage] does once validation has failed. *)
Lemma generatePackage_invalid reg fw g config w :
  Registry.getPrimary fw reg = Some g ->
  valid (validate g config) = false ->
  generatePackage E reg fw config w
  = (w, failure [] []
          (Str.join newline
             (map message
                  (filter (fun i => is_error (severity i))
                          (issues (validate g config)))))).
Proof.
  intros Hg Hvalid. unfold generatePackage. now rewrite Hg, Hvalid.
Qed.

Lemma validate_blank_name s config :
  BaseGenerator.blank (cfg_name config) = true ->
  exists rest,
    issues (BaseGenerator.validate s config) = Issues.name_required :: rest
    /\ valid (BaseGenerator.validate s config) = false.
Proof.
  intros Hblank. unfold BaseGenerator.validate. simpl.
  rewrite Hblank. simpl. eexists. split; reflexivity.
Qed.

(** C6. For a generator that validates as [BaseGenerator] does and a
    name that is empty or all white space: [validate] reports the
    error-severity issue that the name is required, and [generatePackage]
    returns a failed result with a non-empty message while the world is
    as before, with no directory created and no file written. *)
Theorem C6_blank_name_fails_before_any_write
        (s : BaseGenerator.Subclass) (g : Generator) (reg : Registry.t)
        (fw : Framework) (config : GeneratorConfig) (w : World) :
  validate g = BaseGenerator.validate s ->
  Str.all_space (cfg_name config) = true ->
  (In Issues.name_required (issues (validate g config))
   /\ severity Issues.name_required = SevError
   /\ valid (validate g config) = false)
  /\ (Registry.getPrimary fw reg = Some g ->
      fst (generatePackage E reg fw config w) = w
      /\ success (snd (generatePackage E reg fw config w)) = false
      /\ files (snd (generatePackage E reg fw config w)) = []
      /\ (exists msg,
             error (snd (generatePackage E reg fw config w)) = Some msg
             /\ msg <> EmptyString)).
Proof.
  intros Hvalidate Hname.
  destruct (validate_blank_name s config (blank_all_space _ Hname))
    as (rest & Hissues & Hvalid).
  rewrite <- Hvalidate in Hissues, Hvalid.
  split.
  - rewrite Hissues. repeat split; auto. now left.
  - intros Hg.
    rewrite (generatePackage_invalid reg fw g config w Hg Hvalid).
    simpl. repeat split.
    eexists. split; [reflexivity|].
    rewrite Hissues.
    change (filter (fun i => is_error (severity i))
                   (Issues.name_required :: rest))
      with (Issues.name_required
              :: filter (fun i => is_error (severity i)) rest).
    apply join_head_not_empty. discriminate.
Qed.
End EarlyFailures.

(** ** What a run never undoes *)

Section RunFacts.
Import Orchestrator RunOrder.
Variable E : Env.

Lemma carried_refl st : carried st st.
Proof. split; auto. Qed.

Lemma carried_trans st1 st2 st3 :
  carried st1 st2 -> carried st2 st3 -> carried st1 st3.
Proof. intros [H1 H2] [H3 H4]. split; [congruence | auto]. Qed.

Lemma steady_ret {A} (a : A) : steady (ret a).
Proof. intros st. apply carried_refl. Qed.

Lemma steady_throw {A} msg : steady (@throw RunState A msg).
Proof. intros st. apply carried_refl. Qed.

Lemma steady_bind {A B} (m : M RunState A) (k : A -> M RunState B) :
  steady m -> (forall a, steady (k a)) -> steady (bind m k).
Proof.
  intros Hm Hk st. unfold bind.
  specialize (Hm st). destruct (m st) as [st1 [msg | a]]; simpl in *.
  - exact Hm.
  - eapply carried_trans; [exact Hm | apply Hk].
Qed.

Lemma steady_logM lvl msg : steady (logM lvl msg).
Proof. intros st. split; simpl; auto. Qed.

Lemma steady_fsM op : steady (fsM E op).
Proof.
  intros st. unfold fsM.
  destruct (fs_fail E (fs_ops (rs_world st)) op); split; simpl; auto.
Qed.

Lemma steady_push p : steady (push_file p).
Proof.
  intros st. split; simpl; [reflexivity|].
  intros q Hq. apply in_or_app. now left.
Qed.

Lemma steady_lift {A} (m : M World A) : steady (lift m).
Proof.
  intros st. unfold lift. destruct (m (rs_world st)). split; simpl; auto.
Qed.

Lemma steady_formatContent content filepath :
  steady (formatContent E content filepath).
Proof.
  unfold formatContent.
  destruct (parserFor (path_extname E filepath)); [|apply steady_ret].
  destruct (prettier_format E content p); [|apply steady_ret].
  apply steady_bind; [apply steady_logM | intros; apply steady_ret].
Qed.

Lemma steady_fileContent fw file context :
  steady (fileContent E fw file context).
Proof.
  unfold fileContent.
  destruct (file_isTemplate file); [|apply steady_ret].
  apply steady_bind; [apply steady_logM | intros _].
  destruct (render E (file_template file) context); [|apply steady_ret].
  destruct (firstRendered E _ context); [apply steady_ret|].
  repeat (apply steady_bind; [apply steady_logM | intros _]).
  apply steady_throw.
Qed.

Lemma steady_generateFile fw config context file :
  steady (generateFile E fw config context file).
Proof.
  unfold generateFile.
  apply steady_bind; [apply steady_fsM | intros _].
  apply steady_bind; [apply steady_fileContent | intros content].
  apply steady_bind; [apply steady_formatContent | intros formatted].
  apply steady_bind; [apply steady_fsM | intros _].
  apply steady_bind; [apply steady_push | intros _].
  apply steady_logM.
Qed.

Lemma steady_generateFiles fw config context filesToGenerate :
  steady (generateFiles E fw config context filesToGenerate).
Proof.
  induction filesToGenerate as [|file rest IH]; simpl.
  - apply steady_ret.
  - apply steady_bind; [|intros _; exact IH].
    destruct (skipped config file);
      [apply steady_ret | apply steady_generateFile].
Qed.

Lemma bind_assoc {A B C} (m : M RunState A) (k : A -> M RunState B)
      (h : B -> M RunState C) st :
  bind (bind m k) h st = bind m (fun a => bind (k a) h) st.
Proof. unfold bind. destruct (m st) as [st1 [msg | a]]; reflexivity. Qed.

Lemma bind_ext {A B} (m : M RunState A) (k k' : A -> M RunState B) st :
  (forall a st1, k a st1 = k' a st1) -> bind m k st = bind m k' st.
Proof.
  intros Hk. unfold bind. destruct (m st) as [st1 [msg | a]];
    [reflexivity | apply Hk].
Qed.

(** The loop over a list is the loop over its front, then over its
    back. *)
Lemma generateFiles_app fw config context front back st :
  generateFiles E fw config context (front ++ back) st
  = (generateFiles E fw config context front ;;;
     generateFiles E fw config context back) st.
Proof.
  revert st. induction front as [|file front IH]; intros st; simpl.
  - reflexivity.
  - rewrite bind_assoc. apply bind_ext. intros _ st1. apply IH.
Qed.

(** The result [finalize] returns carries the two arrays as they are
    when it starts. *)
Lemma finalize_spec g config st :
  carried st (fst (finalize E g config st))
  /\ (forall r,
        snd (finalize E g config st) = Value r ->
        success r = true /\ files r = rs_files st
        /\ warnings r = rs_warnings st).
Proof.
  unfold finalize, generatePackageJson, bind, fsM, lift, ret.
  destruct (fs_fail E (fs_ops (rs_world st)) _); cbn.
  - split; [apply carried_refl | intros r Hr; discriminate Hr].
  - destruct (postGenerate g) as [hook|]; cbn.
    + destruct (hook config _ _) as [w' [msg | []]]; cbn.
      * split; [split; cbn; auto | intros r Hr; discriminate Hr].
      * split; [split; cbn; auto|].
        intros r Hr. injection Hr as <-. cbn. auto.
    + split; [split; cbn; auto|].
      intros r Hr. injection Hr as <-. cbn. auto.
Qed.

(** Whatever is left of the run, the caller's result has the warnings of
    the current state and every path it has recorded. *)
Lemma settle_rest fw g config context rest st :
  warnings
    (snd (settle ((generateFiles E fw config context rest ;;;
                   finalize E g config) st)))
  = rs_warnings st
  /\ (forall p,
        In p (rs_files st) ->
        In p (files
                (snd (settle ((generateFiles E fw config context rest ;;;
                               finalize E g config) st))))).
Proof.
  unfold bind.
  pose proof (steady_generateFiles fw config context rest st) as [Hw Hf].
  destruct (generateFiles E fw config context rest st) as [st1 [msg | []]];
    simpl in *.
  - split; [exact Hw | exact Hf].
  - destruct (finalize_spec g config st1) as [[Hw1 Hf1] Hres].
    destruct (finalize E g config st1) as [st2 [msg | r]]; simpl in *.
    + split; [congruence | auto].
    + destruct (Hres r eq_refl) as (_ & Hfiles & Hwarn).
      rewrite Hfiles, Hwarn. split; [exact Hw | exact Hf].
Qed.

(** A run that passed validation. *)
Lemma generatePackage_valid reg fw g config w :
  Registry.getPrimary fw reg = Some g ->
  valid (validate g config) = true ->
  generatePackage E reg fw config w
  = settle (generation E fw g config (validated (validate g config) w)).
Proof.
  intros Hg Hvalid. unfold generatePackage. now rewrite Hg, Hvalid.
Qed.

Lemma bind_value {A B} (m : M RunState A) (k : A -> M RunState B) st st' b :
  bind m k st = (st', Value b) ->
  exists a st1, m st = (st1, Value a) /\ k a st1 = (st', Value b).
Proof.
  unfold bind. destruct (m st) as [st1 [msg | a]]; [discriminate|].
  intros Hk. now exists a, st1.
Qed.
End RunFacts.

(** ** A formatting failure *)

Section FormatFailure.
Import Orchestrator.
Variable E : Env.

Lemma bind_run {A B} (m : M RunState A) (k : A -> M RunState B) st st1 a :
  m st = (st1, Value a) -> bind m k st = k a st1.
Proof. intros Hm. unfold bind. now rewrite Hm. Qed.

Lemma bind_same_start {A B} (m m' : M RunState A) (k : A -> M RunState B) st :
  m st = m' st -> bind m k st = bind m' k st.
Proof. intros Hm. unfold bind. now rewrite Hm. Qed.

(** [formatContent] never throws; when Prettier throws it logs a warning
    and hands the content back as it was. *)
Lemma formatContent_thrown content filepath parser msg st :
  parserFor (path_extname E filepath) = Some parser ->
  prettier_format E content parser = Thrown msg ->
  formatContent E content filepath st
  = (on_world
       (log_call LWarn ("Failed to format " +s+ filepath +s+ ": " +s+ msg))
       st,
     Value content).
Proof.
  intros Hparser Hthrown. unfold formatContent.
  now rewrite Hparser, Hthrown.
Qed.

Lemma formatContent_returns content filepath st :
  exists st' formatted,
    formatContent E content filepath st = (st', Value formatted).
Proof.
  unfold formatContent.
  destruct (parserFor (path_extname E filepath)) as [parser|];
    [|now eexists _, _].
  destruct (prettier_format E content parser); now eexists _, _.
Qed.

(** C9. A run has passed validation and reached [file], which is not
    skipped, with its content in hand; Prettier throws on that content,
    and the write itself does not fail. Then the run is the run of the
    remaining files and the final steps from the state in which the
    unformatted content has been written to the file's path, the path
    has been recorded and a warning has been logged; and the path is
    among the files of the result the caller receives. *)
Theorem C9_format_failure_is_not_fatal
        (reg : Registry.t) (fw : Framework) (g : Generator)
        (config : GeneratorConfig) (w : World)
        (front : list GeneratedFile) (file : GeneratedFile)
        (rest : list GeneratedFile)
        (st : RunState) (content : string) (parser : Parser) (msg : string) :
  Registry.getPrimary fw reg = Some g ->
  valid (validate g config) = true ->
  getFiles g config = front ++ file :: rest ->
  skipped config file = false ->
  (fsM E (FsEnsureDir (cfg_outDir config)) ;;;
   generateFiles E fw config (buildTemplateContext E config g) front ;;;
   fsM E (FsEnsureDir
            (path_dirname E
               (path_join E (cfg_outDir config) (file_path file)))) ;;;
   fileContent E fw file (buildTemplateContext E config g))
    (validated (validate g config) w)
  = (st, Value content) ->
  parserFor
    (path_extname E (path_join E (cfg_outDir config) (file_path file)))
  = Some parser ->
  prettier_format E content parser = Thrown msg ->
  fs_fail E (fs_ops (rs_world st))
          (FsWriteFile (path_join E (cfg_outDir config) (file_path file))
                       content)
  = None ->
  generatePackage E reg fw config w
  = settle
      ((generateFiles E fw config (buildTemplateContext E config g) rest ;;;
        finalize E g config)
         {| rs_world :=
              {| fs_ops :=
                   fs_ops (rs_world st)
                   ++ [FsWriteFile
                         (path_join E (cfg_outDir config) (file_path file))
                         content];
                 log :=
                   (log (rs_world st)
                    ++ [(LWarn,
                         "Failed to format "
                           +s+ path_join E (cfg_outDir config)
                                 (file_path file)
                           +s+ ": " +s+ msg)])
                   ++ [(LDebug, "Generated: " +s+ file_path file)] |};
            rs_files := rs_files st ++ [file_path file];
            rs_warnings := rs_warnings st |})
  /\ In (file_path file)
        (files (snd (generatePackage E reg fw config w))).
Proof.
  intros Hg Hvalid Hfiles Hskip Hrun Hparser Hthrown Hwrite.
  apply bind_value in Hrun as ([] & st1 & Hdir & Hrun).
  apply bind_value in Hrun as ([] & st2 & Hfront & Hrun).
  apply bind_value in Hrun as ([] & st3 & Hparent & Hcontent).
  assert (Hstep :
            generatePackage E reg fw config w
            = settle
                ((generateFiles E fw config
                    (buildTemplateContext E config g) rest ;;;
                  finalize E g config)
                   {| rs_world :=
                        {| fs_ops :=
                             fs_ops (rs_world st)
                             ++ [FsWriteFile
                                   (path_join E (cfg_outDir config)
                                      (file_path file))
                                   content];
                           log :=
                             (log (rs_world st)
                              ++ [(LWarn,
                                   "Failed to format "
                                     +s+ path_join E (cfg_outDir config)
                                           (file_path file)
                                     +s+ ": " +s+ msg)])
                             ++ [(LDebug,
                                  "Generated: " +s+ file_path file)] |};
                      rs_files := rs_files st ++ [file_path file];
                      rs_warnings := rs_warnings st |})).
  { rewrite (generatePackage_valid E reg fw g config w Hg Hvalid).
    f_equal. unfold generation. rewrite Hfiles.
    rewrite (bind_run _ _ _ _ _ Hdir).
    rewrite (bind_same_start _ _ _ _
               (generateFiles_app E fw config _ front (file :: rest) st1)).
    rewrite bind_assoc.
    rewrite (bind_run _ _ _ _ _ Hfront).
    simpl generateFiles. rewrite Hskip.
    rewrite bind_assoc. unfold generateFile.
    rewrite bind_assoc.
    rewrite (bind_run _ _ _ _ _ Hparent).
    rewrite bind_assoc.
    rewrite (bind_run _ _ _ _ _ Hcontent).
    rewrite bind_assoc.
    rewrite (bind_run _ _ _ _ _
               (formatContent_thrown content _ parser msg st
                  Hparser Hthrown)).
    rewrite bind_assoc.
    unfold bind at 1. unfold fsM at 1. cbn [rs_world on_world log_call fs_ops].
    rewrite Hwrite.
    reflexivity. }
  split; [exact Hstep|].
  rewrite Hstep.
  apply settle_rest. cbn. apply in_or_app. right. now left.
Qed.
End FormatFailure.

(** ** Warnings in a failed result *)

Section FailedValidation.
Import Orchestrator.
Variable E : Env.

Lemma base_valid s config :
  valid (BaseGenerator.validate s config)
  = negb (existsb (fun i => is_error (severity i))
                  (issues (BaseGenerator.validate s config))).
Proof. reflexivity. Qed.

Lemma has_error_issue (l : list ValidationIssue) :
  existsb (fun i => is_error (severity i)) l = true
  <-> exists i, In i l /\ severity i = SevError.
Proof.
  rewrite existsb_exists.
  split; intros (i & Hin & Hsev); exists i; (split; [exact Hin|]).
  - destruct (severity i); simpl in Hsev; congruence.
  - now rewrite Hsev.
Qed.

(** After validation has passed, the result carries the warnings of the
    validation, whether the run completes or fails later. *)
Lemma generation_warnings fw g config w :
  warnings
    (snd (settle (generation E fw g config
                    (validated (validate g config) w))))
  = map message
        (filter (fun i => is_warning (severity i))
                (issues (validate g config))).
Proof.
  unfold generation. unfold bind at 1.
  pose proof (steady_fsM E (FsEnsureDir (cfg_outDir config))
                (validated (validate g config) w)) as [Hw _].
  destruct (fsM E (FsEnsureDir (cfg_outDir config))
                (validated (validate g config) w))
    as [st1 [msg | []]]; simpl in *.
  - exact Hw.
  - destruct (settle_rest E fw g config
                (buildTemplateContext E config g) (getFiles g config) st1)
      as [Hsettled _].
    rewrite Hsettled. exact Hw.
Qed.

(** C10. For a generator that validates as [BaseGenerator] does: when
    the issues include one of error severity, the result is a failure
    whose warnings list is empty, whatever warnings the validation
    produced, and the world is as before; when they include none, the
    result carries the messages of the warning-severity issues. *)
Theorem C10_failed_validation_reports_no_warnings
        (s : BaseGenerator.Subclass) (g : Generator) (reg : Registry.t)
        (fw : Framework) (config : GeneratorConfig) (w : World) :
  Registry.getPrimary fw reg = Some g ->
  validate g = BaseGenerator.validate s ->
  ((exists i, In i (issues (validate g config)) /\ severity i = SevError) ->
   success (snd (generatePackage E reg fw config w)) = false
   /\ warnings (snd (generatePackage E reg fw config w)) = []
   /\ fst (generatePackage E reg fw config w) = w)
  /\ ((forall i, In i (issues (validate g config)) ->
                 severity i <> SevError) ->
      warnings (snd (generatePackage E reg fw config w))
      = map message
            (filter (fun i => is_warning (severity i))
                    (issues (validate g config)))).
Proof.
  intros Hg Hvalidate.
  pose proof (base_valid s config) as Hvalid.
  rewrite <- Hvalidate in Hvalid.
  split.
  - intros Herr. apply has_error_issue in Herr.
    rewrite Herr in Hvalid. simpl in Hvalid.
    rewrite (generatePackage_invalid E reg fw g config w Hg Hvalid).
    simpl. auto.
  - intros Hnone.
    assert (Hno : existsb (fun i => is_error (severity i))
                          (issues (validate g config)) = false).
    { destruct (existsb _ _) eqn:Hex; [|reflexivity].
      apply has_error_issue in Hex as (i & Hin & Hsev).
      now destruct (Hnone i Hin). }
    rewrite Hno in Hvalid. simpl in Hvalid.
    rewrite (generatePackage_valid E reg fw g config w Hg Hvalid).
    apply generation_warnings.
Qed.
End FailedValidation.

(** ** The theorems at concrete inputs *)

Section Witnesses.
Import Orchestrator Samples.

(** C5 at the tag ["cobol"], with the built-in generators registered. *)
Lemma C5_unknown_framework_fails_without_writes_witness :
  Registry.getByFramework "cobol" builtins = []
  /\ fst (generatePackage strictPrettier builtins "cobol" libConfig
            freshWorld) = freshWorld
  /\ success (snd (generatePackage strictPrettier builtins "cobol"
                     libConfig freshWorld)) = false.
Proof.
  split; [reflexivity|].
  destruct (C5_unknown_framework_fails_without_writes
              strictPrettier builtins "cobol" libConfig freshWorld
              eq_refl) as (Hw & Hs & _).
  split; [exact Hw | exact Hs].
Defined.

(** C6 at the React generator and a name of three spaces. *)
Lemma C6_blank_name_fails_before_any_write_witness :
  Str.all_space (cfg_name blankName) = true
  /\ valid (validate ReactGenerator.reactGenerator blankName) = false
  /\ fst (generatePackage strictPrettier builtins "react" blankName
            freshWorld) = freshWorld.
Proof.
  split; [reflexivity|].
  destruct (C6_blank_name_fails_before_any_write
              strictPrettier ReactGenerator.ReactGenerator
              ReactGenerator.reactGenerator builtins "react" blankName
              freshWorld eq_refl eq_refl) as ((_ & _ & Hvalid) & Hrun).
  split; [exact Hvalid|].
  exact (proj1 (Hrun eq_refl)).
Defined.

(** C8 at a scoped CLI package and at a library. *)
Lemma C8_node_cli_bin_witness :
  OMap.has "bin" (packageJson NodeGenerator.nodeGenerator nodeCli) = true
  /\ map exp_path (getExports NodeGenerator.nodeGenerator nodeCli)
     = ["."; "./bin"]
  /\ OMap.has "bin" (packageJson NodeGenerator.nodeGenerator nodeLibrary)
     = false.
Proof.
  destruct (proj1 (C8_node_cli_bin nodeCli) eq_refl) as (Hbin & _ & Hpaths).
  split; [exact Hbin|]. split; [exact Hpaths|].
  exact (proj2 (C8_node_cli_bin nodeLibrary) eq_refl).
Defined.

(** C9 at a generator whose last file is a literal TypeScript file, with a
    Prettier that rejects it. *)
Lemma C9_format_failure_is_not_fatal_witness :
  literalRun = (fst literalRun, Value "export const x = ;")
  /\ prettier_format strictPrettier "export const x = ;" PTypescript
     = Thrown "SyntaxError: Unexpected token"
  /\ In "src/index.ts"
        (files (snd (generatePackage strictPrettier
                       (Registry.run [Registry.DoRegister literalGenerator])
                       "vanilla" libConfig freshWorld))).
Proof.
  assert (Hrun : literalRun = (fst literalRun, Value "export const x = ;"))
    by (vm_compute; reflexivity).
  split; [exact Hrun|]. split; [reflexivity|].
  exact (proj2 (C9_format_failure_is_not_fatal
                  strictPrettier
                  (Registry.run [Registry.DoRegister literalGenerator])
                  "vanilla" literalGenerator libConfig freshWorld
                  (BaseGenerator.getCommonFiles libConfig) literalFile []
                  (fst literalRun) "export const x = ;" PTypescript
                  "SyntaxError: Unexpected token"
                  eq_refl eq_refl eq_refl eq_refl Hrun eq_refl eq_refl
                  eq_refl)).
Defined.

(** C10 at React asked for the runtime target [node]: one error, one
    warning. *)
Lemma C10_failed_validation_reports_no_warnings_witness :
  (exists i, In i (issues (validate ReactGenerator.reactGenerator
                             reactOnNode))
             /\ severity i = SevWarning)
  /\ warnings (snd (generatePackage strictPrettier builtins "react"
                      reactOnNode freshWorld)) = [].
Proof.
  split.
  - exists Issues.react_node_warning. split; [right; now left | reflexivity].
  - apply (proj1 (C10_failed_validation_reports_no_warnings
                    strictPrettier ReactGenerator.ReactGenerator
                    ReactGenerator.reactGenerator builtins "react"
                    reactOnNode freshWorld eq_refl eq_refl)).
    exists Issues.react_node_error. split; [now left | reflexivity].
Defined.
End Witnesses.

(* ------------------------------------------------------------------ *)
(** * Further properties of the code *)

(** ** More on insertion-ordered maps *)

Section OMapOrder.
Context {V : Type}.
Implicit Types (m : list (string * V)) (k : string) (v : V).

Lemma omap_keys_set k k' v m :
  In k' (OMap.keys (OMap.set k v m)) <-> k' = k \/ In k' (OMap.keys m).
Proof.
  rewrite <- !omap_has_keys, omap_has_set, orb_true_iff, String.eqb_eq.
  split; intros [H | H]; auto.
Qed.

Lemma omap_set_nodup k v m :
  NoDup (OMap.keys m) -> NoDup (OMap.keys (OMap.set k v m)).
Proof.
  induction m as [|[k0 v0] m IH]; simpl; intros Hnd.
  - constructor; [intros [] | constructor].
  - inversion Hnd as [|? ? Hnotin Hrest]; subst.
    destruct (String.eqb k0 k) eqn:Hk; simpl.
    + apply String.eqb_eq in Hk; subst k0. now constructor.
    + apply String.eqb_neq in Hk. constructor; [|now apply IH].
      intros Hin. apply omap_keys_set in Hin as [Heq | Hin]; auto.
Qed.

Lemma omap_keys_remove k k' m :
  In k' (OMap.keys (OMap.remove k m)) -> In k' (OMap.keys m).
Proof.
  induction m as [|[k0 v0] m IH]; simpl; [tauto|].
  destruct (String.eqb k0 k); simpl; intros H; [right; auto|].
  destruct H; auto.
Qed.

Lemma omap_remove_nodup k m :
  NoDup (OMap.keys m) -> NoDup (OMap.keys (OMap.remove k m)).
Proof.
  induction m as [|[k0 v0] m IH]; simpl; intros Hnd; [constructor|].
  inversion Hnd as [|? ? Hnotin Hrest]; subst.
  destruct (String.eqb k0 k); simpl; [now apply IH|].
  constructor; [|now apply IH].
  intros Hin. apply Hnotin. now apply omap_keys_remove in Hin.
Qed.

Lemma omap_spread_nodup (o e : list (string * V)) :
  NoDup (OMap.keys o) -> NoDup (OMap.keys (OMap.spread o e)).
Proof.
  unfold OMap.spread. revert o.
  induction e as [|[k v] e IH]; intros o Hnd; simpl; [exact Hnd|].
  apply IH. now apply omap_set_nodup.
Qed.

Lemma omap_get_in k v m : OMap.get k m = Some v -> In (k, v) m.
Proof.
  induction m as [|[k0 v0] m IH]; simpl; [discriminate|].
  destruct (String.eqb k0 k) eqn:Hk.
  - apply String.eqb_eq in Hk; subst. intros H; injection H as <-. now left.
  - intros H. right. now apply IH.
Qed.

(** A key of [e] is read from [e] after a spread: the value is one that
    [e] holds for it. *)
Lemma omap_get_spread_present k (o e : list (string * V)) :
  OMap.has k e = true ->
  exists v, In (k, v) e /\ OMap.get k (OMap.spread o e) = Some v.
Proof.
  unfold OMap.spread. revert o.
  induction e as [|[k0 v0] e IH]; intros o Hhas; simpl.
  - discriminate Hhas.
  - destruct (OMap.has k e) eqn:He.
    + destruct (IH (OMap.set k0 v0 o) eq_refl) as (v & Hin & Hget).
      exists v. split; [now right | exact Hget].
    + unfold OMap.has in Hhas. simpl in Hhas.
      destruct (String.eqb k0 k) eqn:Hk.
      * apply String.eqb_eq in Hk; subst k0.
        exists v0. split; [now left|].
        change (fold_left _ e (OMap.set k v0 o))
          with (OMap.spread (OMap.set k v0 o) e).
        rewrite omap_get_spread_absent by exact He.
        apply omap_get_set_same.
      * unfold OMap.has in He. rewrite He in Hhas. discriminate Hhas.
Qed.
End OMapOrder.

(** ** The registry, continued *)

Section RegistryMore.

Lemma register_primary (g : Generator) (r : Registry.t) (fw : Framework) :
  Registry.getPrimary fw (fst (Registry.register g r))
  = match Registry.getPrimary fw r with
    | Some first => Some first
    | None => if String.eqb (framework (meta g)) fw then Some g else None
    end.
Proof.
  unfold Registry.getPrimary.
  destruct (String.eqb (framework (meta g)) fw) eqn:Hfw.
  - apply String.eqb_eq in Hfw; subst fw.
    rewrite register_bucket.
    destruct (Registry.getByFramework (framework (meta g)) r); reflexivity.
  - apply String.eqb_neq in Hfw.
    assert (Hsame : Registry.getByFramework fw (fst (Registry.register g r))
                    = Registry.getByFramework fw r).
    { unfold Registry.getByFramework, Registry.bucket. simpl.
      now rewrite omap_get_set_other by congruence. }
    rewrite Hsame.
    destruct (Registry.getByFramework fw r); reflexivity.
Qed.

Lemma registerAll_primary (gs : list Generator) (r : Registry.t)
      (fw : Framework) :
  Registry.getPrimary fw (fst (Generators.registerAll gs r))
  = match Registry.getPrimary fw r with
    | Some first => Some first
    | None => Trace.first_for fw gs
    end.
Proof.
  revert r. induction gs as [|g gs IH]; intros r;
    cbn [Generators.registerAll].
  - cbn [fst Trace.first_for find]. now destruct (Registry.getPrimary fw r).
  - cbn [Trace.first_for find].
    destruct (Registry.register g r) as [r1 logged1] eqn:Hreg.
    specialize (IH r1).
    destruct (Generators.registerAll gs r1) as [r2 logged2].
    cbn [fst] in *. rewrite IH.
    replace r1 with (fst (Registry.register g r)) by now rewrite Hreg.
    rewrite register_primary.
    destruct (Registry.getPrimary fw r); [reflexivity|].
    destruct (String.eqb (framework (meta g)) fw); reflexivity.
Qed.

(** X1. The first generator registered for a framework stays its primary.
    One [register] makes its argument the primary of its framework only
    when the framework had none, and changes no other framework's
    primary; after a sequence of [register] calls the primary of a
    framework is the one it had or, failing that, the first generator of
    the sequence with that framework. *)
Theorem X1_first_registered_is_primary (gs : list Generator)
        (g : Generator) (r : Registry.t) (fw : Framework) :
  Registry.getPrimary fw (fst (Registry.register g r))
  = match Registry.getPrimary fw r with
    | Some first => Some first
    | None => if String.eqb (framework (meta g)) fw then Some g else None
    end
  /\ Registry.getPrimary fw (fst (Generators.registerAll gs r))
     = match Registry.getPrimary fw r with
       | Some first => Some first
       | None => Trace.first_for fw gs
       end.
Proof.
  split; [apply register_primary | apply registerAll_primary].
Qed.

Lemma unregister_absent gid r :
  Registry.get gid r = None -> Registry.unregister gid r = (r, false).
Proof.
  unfold Registry.get, Registry.unregister. now intros ->.
Qed.

Lemma unregister_present gid r g :
  Registry.get gid r = Some g ->
  snd (Registry.unregister gid r) = true
  /\ Registry.get gid (fst (Registry.unregister gid r)) = None
  /\ (forall gid', gid' <> gid ->
        Registry.get gid' (fst (Registry.unregister gid r))
        = Registry.get gid' r)
  /\ Registry.getByFramework (framework (meta g))
       (fst (Registry.unregister gid r))
     = filter (fun g' => negb (String.eqb (id (meta g')) gid))
              (Registry.getByFramework (framework (meta g)) r)
  /\ (forall fw, fw <> framework (meta g) ->
        Registry.getByFramework fw (fst (Registry.unregister gid r))
        = Registry.getByFramework fw r).
Proof.
  unfold Registry.get, Registry.unregister. intros Hg. rewrite Hg.
  simpl. repeat split.
  - apply omap_get_remove_same.
  - intros gid' Hne. now apply omap_get_remove_other.
  - unfold Registry.getByFramework, Registry.bucket at 1. simpl.
    now rewrite omap_get_set_same.
  - intros fw Hne. unfold Registry.getByFramework, Registry.bucket. simpl.
    now rewrite omap_get_set_other.
Qed.

(** X2. [unregister] of an identity that is absent returns [false] and
    leaves the registry as it is. Of one that is present it returns
    [true]; the identity is then absent and every other identity is
    looked up as before; the bucket of the generator's framework keeps, in
    order, the generators with another identity; the other buckets are as
    before. *)
Theorem X2_unregister_lookups (gid : string) (r : Registry.t) :
  match Registry.get gid r with
  | None => Registry.unregister gid r = (r, false)
  | Some g =>
      snd (Registry.unregister gid r) = true
      /\ Registry.get gid (fst (Registry.unregister gid r)) = None
      /\ (forall gid', gid' <> gid ->
            Registry.get gid' (fst (Registry.unregister gid r))
            = Registry.get gid' r)
      /\ Registry.getByFramework (framework (meta g))
           (fst (Registry.unregister gid r))
         = filter (fun g' => negb (String.eqb (id (meta g')) gid))
                  (Registry.getByFramework (framework (meta g)) r)
      /\ (forall fw, fw <> framework (meta g) ->
            Registry.getByFramework fw (fst (Registry.unregister gid r))
            = Registry.getByFramework fw r)
  end.
Proof.
  destruct (Registry.get gid r) as [g|] eqn:Hg.
  - now apply unregister_present.
  - now apply unregister_absent.
Qed.

Lemma filter_other_ids gid (gs : list Generator) :
  (forall g', In g' gs -> id (meta g') <> gid) ->
  filter (fun g' => negb (String.eqb (id (meta g')) gid)) gs = gs.
Proof.
  induction gs as [|g0 gs IH]; simpl; intros Hall; [reflexivity|].
  assert (Hne : String.eqb (id (meta g0)) gid = false)
    by (apply String.eqb_neq, Hall; now left).
  rewrite Hne. simpl. f_equal. apply IH. intros g' Hin. apply Hall. now right.
Qed.

(** X3. Registering a generator whose identity is new, and unregistering
    it again, restores every lookup: [get], [getByFramework], and with it
    [getPrimary], answer as before. ([getSupportedFrameworks] may have
    gained the framework tag.) *)
Theorem X3_register_then_unregister (g : Generator) (r : Registry.t) :
  Registry.get (id (meta g)) r = None ->
  (forall g', In g' (Registry.getByFramework (framework (meta g)) r) ->
              id (meta g') <> id (meta g)) ->
  let r' := fst (Registry.unregister (id (meta g))
                   (fst (Registry.register g r))) in
  snd (Registry.unregister (id (meta g)) (fst (Registry.register g r)))
  = true
  /\ (forall gid, Registry.get gid r' = Registry.get gid r)
  /\ (forall fw, Registry.getByFramework fw r'
                 = Registry.getByFramework fw r)
  /\ (forall fw, Registry.getPrimary fw r' = Registry.getPrimary fw r).
Proof.
  intros Hnew Hbucket.
  destruct (unregister_present (id (meta g)) (fst (Registry.register g r)) g
              (register_get g r))
    as (Hret & Hgone & Hothers & Hsame & Hrest).
  assert (Hby : forall fw,
             Registry.getByFramework fw
               (fst (Registry.unregister (id (meta g))
                       (fst (Registry.register g r))))
             = Registry.getByFramework fw r).
  { intros fw.
    destruct (String.eqb fw (framework (meta g))) eqn:Hfw.
    - apply String.eqb_eq in Hfw; subst fw.
      rewrite Hsame, register_bucket, filter_app. simpl.
      rewrite String.eqb_refl. simpl.
      rewrite app_nil_r. now apply filter_other_ids.
    - apply String.eqb_neq in Hfw. rewrite (Hrest fw Hfw).
      unfold Registry.getByFramework, Registry.bucket. simpl.
      rewrite omap_get_set_other by congruence. reflexivity. }
  cbv zeta. repeat split.
  - exact Hret.
  - intros gid.
    destruct (String.eqb gid (id (meta g))) eqn:Hid.
    + apply String.eqb_eq in Hid; subst gid. now rewrite Hgone, Hnew.
    + apply String.eqb_neq in Hid. rewrite (Hothers gid Hid).
      unfold Registry.get. simpl.
      rewrite omap_get_set_other by congruence. reflexivity.
  - exact Hby.
  - intros fw. unfold Registry.getPrimary. now rewrite Hby.
Qed.

(** X4. After any sequence of calls from the empty registry,
    [getSupportedFrameworks] lists a tag exactly when a generator with
    that tag was registered at some point of the sequence, and each tag
    once; every tag for which [hasFramework] answers yes is listed. *)
Theorem X4_supported_frameworks (ops : list Registry.Op) :
  (forall fw,
      In fw (Registry.getSupportedFrameworks (Registry.run ops))
      <-> exists g, In (Registry.DoRegister g) ops
                    /\ framework (meta g) = fw)
  /\ NoDup (Registry.getSupportedFrameworks (Registry.run ops))
  /\ (forall fw,
        Registry.hasFramework fw (Registry.run ops) = true ->
        In fw (Registry.getSupportedFrameworks (Registry.run ops))).
Proof.
  split; [|split].
  - intros fw. apply supported_after_run.
  - unfold Registry.run, Registry.getSupportedFrameworks.
    assert (Hgen : forall r,
               NoDup (OMap.keys (Registry.frameworkMap r)) ->
               NoDup (OMap.keys
                        (Registry.frameworkMap
                           (fold_left Registry.step ops r)))).
    { induction ops as [|o ops IH]; intros r Hr; simpl; [exact Hr|].
      apply IH. destruct o as [g | gid]; simpl.
      - now apply omap_set_nodup.
      - unfold Registry.unregister.
        destruct (OMap.get gid (Registry.generators r)); simpl;
          [now apply omap_set_nodup | exact Hr]. }
    apply Hgen. constructor.
  - intros fw Hhas. unfold Registry.getSupportedFrameworks.
    apply omap_has_keys. unfold Registry.hasFramework in Hhas.
    unfold OMap.has.
    destruct (OMap.get fw (Registry.frameworkMap (Registry.run ops)));
      [reflexivity | discriminate Hhas].
Qed.

Lemma stored_in_bucket_step r o :
  Trace.stored_in_bucket r -> Trace.stored_in_bucket (Registry.step r o).
Proof.
  intros Hr gid g Hget. destruct o as [g0 | gid0]; cbn [Registry.step] in *.
  - unfold Registry.get in Hget. simpl in Hget.
    destruct (String.eqb (id (meta g0)) gid) eqn:Hid.
    + apply String.eqb_eq in Hid; subst gid.
      rewrite omap_get_set_same in Hget. injection Hget as <-.
      split; [reflexivity|].
      rewrite register_bucket. apply in_or_app. right. now left.
    + apply String.eqb_neq in Hid.
      rewrite omap_get_set_other in Hget by congruence.
      destruct (Hr gid g Hget) as [Hown Hin]. split; [exact Hown|].
      destruct (String.eqb (framework (meta g0)) (framework (meta g)))
        eqn:Hfw.
      * apply String.eqb_eq in Hfw. rewrite <- Hfw in *.
        rewrite register_bucket. apply in_or_app. now left.
      * apply String.eqb_neq in Hfw.
        unfold Registry.getByFramework, Registry.bucket in *. simpl.
        rewrite omap_get_set_other by congruence. exact Hin.
  - destruct (Registry.get gid0 r) as [g0|] eqn:Hg0.
    + destruct (unregister_present gid0 r g0 Hg0)
        as (_ & Hgone & Hothers & Hsame & Hrest).
      assert (Hne : gid <> gid0).
      { intros ->. rewrite Hgone in Hget. discriminate Hget. }
      rewrite (Hothers gid Hne) in Hget.
      destruct (Hr gid g Hget) as [Hown Hin]. split; [exact Hown|].
      destruct (String.eqb (framework (meta g)) (framework (meta g0)))
        eqn:Hfw.
      * apply String.eqb_eq in Hfw. rewrite Hfw in *.
        rewrite Hsame. apply filter_In. split; [exact Hin|].
        apply negb_true_iff, String.eqb_neq. congruence.
      * apply String.eqb_neq in Hfw. now rewrite (Hrest _ Hfw).
    + rewrite (unregister_absent gid0 r Hg0) in Hget |- *.
      simpl in Hget |- *. now apply Hr.
Qed.

Lemma stored_in_bucket_run ops : Trace.stored_in_bucket (Registry.run ops).
Proof.
  unfold Registry.run.
  assert (Hgen : forall r, Trace.stored_in_bucket r ->
                           Trace.stored_in_bucket (fold_left Registry.step ops r)).
  { induction ops as [|o ops IH]; intros r Hr; simpl; [exact Hr|].
    apply IH. now apply stored_in_bucket_step. }
  apply Hgen. intros gid g Hget. discriminate Hget.
Qed.

(** X5. After any sequence of calls from the empty registry, a generator
    that [get] returns carries the identity it was asked under, is in the
    bucket of its framework, and that framework has a primary generator:
    a framework with a registered generator is never reported as
    unknown. *)
Theorem X5_registered_generator_has_bucket
        (ops : list Registry.Op) (gid : string) (g : Generator) :
  Registry.get gid (Registry.run ops) = Some g ->
  id (meta g) = gid
  /\ In g (Registry.getByFramework (framework (meta g)) (Registry.run ops))
  /\ Registry.hasFramework (framework (meta g)) (Registry.run ops) = true
  /\ Registry.getPrimary (framework (meta g)) (Registry.run ops) <> None.
Proof.
  intros Hget.
  destruct (stored_in_bucket_run ops gid g Hget) as [Hown Hin].
  repeat split; auto.
  - destruct (Registry.hasFramework _ _) eqn:Hhas; [reflexivity|].
    apply hasFramework_bucket in Hhas. rewrite Hhas in Hin. destruct Hin.
  - intros Hnone. apply no_generator_views in Hnone.
    rewrite Hnone in Hin. destruct Hin.
Qed.

Lemma X5_registered_generator_has_bucket_witness :
  Registry.getPrimary "node" Samples.builtins <> None.
Proof.
  exact (proj2 (proj2 (proj2 (X5_registered_generator_has_bucket
           [ Registry.DoRegister ReactGenerator.reactGenerator;
             Registry.DoRegister NodeGenerator.nodeGenerator ]
           "node-package" NodeGenerator.nodeGenerator eq_refl)))).
Defined.

Lemma X3_register_then_unregister_witness :
  Registry.getPrimary "node"
    (fst (Registry.unregister "node-package"
            (fst (Registry.register NodeGenerator.nodeGenerator
                    (Registry.run
                       [Registry.DoRegister
                          ReactGenerator.reactGenerator])))))
  = Registry.getPrimary "node"
      (Registry.run [Registry.DoRegister ReactGenerator.reactGenerator]).
Proof.
  refine (proj2 (proj2 (proj2 (X3_register_then_unregister
            NodeGenerator.nodeGenerator
            (Registry.run [Registry.DoRegister ReactGenerator.reactGenerator])
            eq_refl _))) "node").
  intros g' Hin. destruct Hin.
Defined.
End RegistryMore.

Section RegistryIdentities.

Lemma omap_in_get {V} k (v : V) m :
  NoDup (OMap.keys m) -> In (k, v) m -> OMap.get k m = Some v.
Proof.
  induction m as [|[k0 v0] m IH]; simpl; intros Hnd Hin; [destruct Hin|].
  inversion Hnd as [|? ? Hnotin Hrest]; subst.
  destruct Hin as [Heq | Hin].
  - injection Heq as -> ->. now rewrite String.eqb_refl.
  - destruct (String.eqb k0 k) eqn:Hk.
    + apply String.eqb_eq in Hk; subst k0. exfalso. apply Hnotin.
      unfold OMap.keys. change k with (fst (k, v)). now apply in_map.
    + now apply IH.
Qed.

Lemma omap_set_entries {V} (P : string * V -> Prop) k v m :
  P (k, v) -> Forall P m -> Forall P (OMap.set k v m).
Proof.
  intros Hkv Hm. induction Hm as [|[k0 v0] m H0 Hm IH]; simpl.
  - now constructor.
  - destruct (String.eqb k0 k); constructor; auto.
Qed.

Lemma omap_remove_entries {V} (P : string * V -> Prop) k m :
  Forall P m -> Forall P (OMap.remove k m).
Proof.
  intros Hm. induction Hm as [|[k0 v0] m H0 Hm IH]; simpl.
  - constructor.
  - destruct (String.eqb k0 k); [exact IH | now constructor].
Qed.

Lemma identities_run ops :
  NoDup (OMap.keys (Registry.generators (Registry.run ops)))
  /\ Forall (fun kv => id (meta (snd kv)) = fst kv)
            (Registry.generators (Registry.run ops)).
Proof.
  unfold Registry.run.
  assert (Hgen : forall r,
             NoDup (OMap.keys (Registry.generators r))
             /\ Forall (fun kv => id (meta (snd kv)) = fst kv)
                       (Registry.generators r) ->
             NoDup (OMap.keys
                      (Registry.generators (fold_left Registry.step ops r)))
             /\ Forall (fun kv => id (meta (snd kv)) = fst kv)
                       (Registry.generators
                          (fold_left Registry.step ops r))).
  { induction ops as [|o ops IH]; intros r [Hnd Hall]; simpl; [now split|].
    apply IH. destruct o as [g | gid]; simpl.
    - split; [now apply omap_set_nodup|].
      now apply omap_set_entries.
    - unfold Registry.unregister.
      destruct (OMap.get gid (Registry.generators r)); simpl;
        [|now split].
      split; [now apply omap_remove_nodup | now apply omap_remove_entries]. }
  apply Hgen. split; constructor.
Qed.

(** X6. After any sequence of calls from the empty registry, the
    generators [getAll] returns have pairwise distinct identities, and
    [get] of the identity of each of them returns that very generator. *)
Theorem X6_identities_are_unique (ops : list Registry.Op) :
  NoDup (map id (Registry.getAllMeta (Registry.run ops)))
  /\ (forall g,
        In g (Registry.getAll (Registry.run ops)) ->
        Registry.get (id (meta g)) (Registry.run ops) = Some g).
Proof.
  destruct (identities_run ops) as [Hnd Hall].
  unfold Registry.getAllMeta, Registry.getAll, Registry.get, OMap.values.
  assert (Hkeys : map id (map meta (map snd
                    (Registry.generators (Registry.run ops))))
                  = OMap.keys (Registry.generators (Registry.run ops))).
  { unfold OMap.keys. rewrite !map_map.
    apply map_ext_in. intros kv Hin.
    rewrite Forall_forall in Hall. exact (Hall kv Hin). }
  split.
  - now rewrite Hkeys.
  - intros g Hin. apply in_map_iff in Hin as ([k g'] & Hsnd & Hin).
    simpl in Hsnd; subst g'.
    rewrite Forall_forall in Hall. pose proof (Hall _ Hin) as Hown.
    simpl in Hown. rewrite Hown. now apply omap_in_get.
Qed.
End RegistryIdentities.

(** ** Validation by the base generator *)

Section BaseValidation.

Lemma existsb_PackageType t l :
  existsb (PackageType_eqb t) l = true <-> In t l.
Proof.
  rewrite existsb_exists. split.
  - intros (x & Hin & Heq). apply PackageType_eqb_eq in Heq. now subst.
  - intros Hin. exists t. split; [exact Hin | now apply PackageType_eqb_eq].
Qed.

Lemma existsb_RuntimeTarget t l :
  existsb (RuntimeTarget_eqb t) l = true <-> In t l.
Proof.
  rewrite existsb_exists. split.
  - intros (x & Hin & Heq). apply RuntimeTarget_eqb_eq in Heq. now subst.
  - intros Hin. exists t. split; [exact Hin | now apply RuntimeTarget_eqb_eq].
Qed.

Lemma no_error_issue (l : list ValidationIssue) :
  existsb (fun i => is_error (severity i)) l = false
  <-> forall i, In i l -> severity i <> SevError.
Proof.
  split.
  - intros Hno i Hin Hsev.
    assert (Hyes : existsb (fun i => is_error (severity i)) l = true)
      by (apply has_error_issue; now exists i).
    congruence.
  - intros Hall. destruct (existsb _ l) eqn:Hex; [|reflexivity].
    apply has_error_issue in Hex as (i & Hin & Hsev).
    now destruct (Hall i Hin).
Qed.

(** X7. [BaseGenerator.validate] accepts a configuration exactly when the
    name and the output directory are not blank, the package type and the
    runtime target are among those the generator supports, and the
    framework hook reports no error; the issues of an accepted
    configuration are those of the hook alone. *)
Theorem X7_validate_accepts_iff (s : BaseGenerator.Subclass)
        (config : GeneratorConfig) :
  (valid (BaseGenerator.validate s config) = true
   <-> BaseGenerator.blank (cfg_name config) = false
       /\ In (cfg_packageType config)
             (supportedPackageTypes (BaseGenerator.sub_meta s))
       /\ In (cfg_runtimeTarget config)
             (supportedRuntimeTargets (BaseGenerator.sub_meta s))
       /\ BaseGenerator.blank (cfg_outDir config) = false
       /\ (forall i,
             In i (BaseGenerator.validateFrameworkConfig s config) ->
             severity i <> SevError))
  /\ (valid (BaseGenerator.validate s config) = true ->
      issues (BaseGenerator.validate s config)
      = BaseGenerator.validateFrameworkConfig s config).
Proof.
  unfold BaseGenerator.validate. cbn [valid issues].
  rewrite <- existsb_PackageType, <- existsb_RuntimeTarget, <- no_error_issue.
  rewrite negb_true_iff, !existsb_app.
  destruct (BaseGenerator.blank (cfg_name config));
    destruct (existsb (PackageType_eqb (cfg_packageType config)) _);
    destruct (existsb (RuntimeTarget_eqb (cfg_runtimeTarget config)) _);
    destruct (BaseGenerator.blank (cfg_outDir config));
    cbn [existsb app is_error severity BaseGenerator.config_error orb];
    (split;
     [ split;
       [ intros H; try discriminate H; repeat split; auto
       | intros (H1 & H2 & H3 & H4 & H5);
         try discriminate H1; try discriminate H2; try discriminate H3;
         try discriminate H4; auto ]
     | intros H; try discriminate H; reflexivity ]).
Qed.
End BaseValidation.

(** ** More on the manifest *)

Section ManifestShape.
Import Orchestrator.

(** The entry [exportsField] holds for a subpath other than
    ["__proto__"] is the one built from the last export for it. *)
Lemma exportsField_get config exports p :
  p <> "__proto__" ->
  OMap.get p (buildExportsField config exports)
  = option_map (exportEntry config) (Manifest.last_export p exports).
Proof.
  intros Hproto. unfold buildExportsField, Manifest.last_export.
  assert (Hgen : forall acc found,
             OMap.get p acc = option_map (exportEntry config) found ->
             OMap.get p
               (fold_left
                  (fun acc exp =>
                     OMap.assign (exp_path exp) (exportEntry config exp) acc)
                  exports acc)
             = option_map (exportEntry config)
                 (fold_left
                    (fun found e =>
                       if String.eqb (exp_path e) p then Some e else found)
                    exports found)).
  { induction exports as [|e exports IH]; intros acc found Hacc;
      cbn [fold_left]; [exact Hacc|].
    apply IH. destruct (String.eqb (exp_path e) p) eqn:Hp.
    - apply String.eqb_eq in Hp. subst p.
      now rewrite omap_get_assign_same.
    - apply String.eqb_neq in Hp.
      rewrite omap_get_assign_other by congruence. exact Hacc. }
  now apply Hgen.
Qed.

(** [exportsField] never holds the subpath ["__proto__"]. *)
Lemma exportsField_get_proto config exports :
  OMap.get "__proto__" (buildExportsField config exports) = None.
Proof.
  unfold buildExportsField.
  change (@None Json) with (OMap.get "__proto__" (@nil (string * Json))).
  generalize (@nil (string * Json)) as acc.
  induction exports as [|e exports IH]; intros acc; cbn [fold_left].
  - reflexivity.
  - rewrite IH. apply omap_get_assign_proto.
Qed.

Lemma omap_remove_subset {V} k (m : list (string * V)) kv :
  In kv (OMap.remove k m) -> In kv m.
Proof.
  intros Hin.
  pose proof (omap_remove_entries (fun kv => In kv m) k m) as Hall.
  rewrite !Forall_forall in Hall. apply Hall; auto.
Qed.

(** X8. The [exports] field built by [generatePackageJson] has, for a
    subpath other than ["__proto__"], the entry of the last export the
    generator lists for that subpath, and no entry for a subpath no
    export has; it never has the key ["__proto__"]. The manifest carries
    that field under [exports], unless the generator's extras have an
    [exports] key: then the manifest carries a value of the extras. *)
Theorem X8_exports_in_manifest (g : Generator) (config : GeneratorConfig) :
  (forall p,
      p <> "__proto__" ->
      OMap.get p (buildExportsField config (getExports g config))
      = option_map (exportEntry config)
          (Manifest.last_export p (getExports g config)))
  /\ OMap.get "__proto__" (buildExportsField config (getExports g config))
     = None
  /\ (if OMap.has "exports" (getPackageJsonExtras g config)
      then exists v,
             In ("exports", v) (getPackageJsonExtras g config)
             /\ OMap.get "exports" (packageJson g config) = Some v
      else OMap.get "exports" (packageJson g config)
           = Some (JObj (buildExportsField config (getExports g config)))).
Proof.
  split; [|split].
  - intros p Hp. now apply exportsField_get.
  - apply exportsField_get_proto.
  - destruct (OMap.has "exports" (getPackageJsonExtras g config)) eqn:Hex;
      [|now apply packageJson_exports].
    unfold packageJson.
    rewrite !get_add_section_other
      by (match goal with |- _ <> section_key ?k => now destruct k end).
    assert (Hspread :
              forall fixed,
                exists v,
                  In ("exports", v) (getPackageJsonExtras g config)
                  /\ OMap.get "exports"
                       (OMap.spread fixed
                          (OMap.remove "scripts"
                             (getPackageJsonExtras g config)))
                     = Some v).
    { intros fixed.
      destruct (omap_get_spread_present "exports" fixed
                  (OMap.remove "scripts" (getPackageJsonExtras g config)))
        as (v & Hin & Hget).
      - rewrite omap_has_remove_other by discriminate. exact Hex.
      - exists v. split; [|exact Hget].
        exact (omap_remove_subset _ _ _ Hin). }
    destruct (truthy_text (cfg_repository config)).
    + rewrite omap_get_set_other by discriminate. apply Hspread.
    + apply Hspread.
Qed.

(** The fields [generatePackageJson] fixes, read back from the manifest
    of a generator whose extras do not have the key. *)
Lemma packageJson_plain_key g config k :
  OMap.has k (getPackageJsonExtras g config) = false ->
  k <> "repository" -> k <> "scripts" ->
  (forall kind, k <> section_key kind) ->
  OMap.get k (packageJson g config)
  = OMap.get k
      [ ("name", JStr (cfg_name config));
        ("version", JStr "0.0.1");
        ("description", JStr (cfg_description config));
        ("type", JStr "module");
        ("main", JStr "./dist/index.js");
        ("module", JStr "./dist/index.js");
        ("types", JStr "./dist/index.d.ts");
        ("exports",
         JObj (buildExportsField config (getExports g config)));
        ("files", JArr [JStr "dist"; JStr "README.md"; JStr "LICENSE";
                        JStr "CHANGELOG.md"]);
        ("keywords", JArr []);
        ("author", JStr (cfg_author config));
        ("license", JStr (cfg_license config));
        ("sideEffects", JBool false) ].
Proof.
  intros Hex Hrepo Hscripts Hsec. unfold packageJson.
  rewrite !get_add_section_other by apply Hsec.
  assert (Hspread : forall fixed,
             OMap.get k
               (OMap.spread fixed
                  (OMap.remove "scripts" (getPackageJsonExtras g config)))
             = OMap.get k fixed).
  { intros fixed. apply omap_get_spread_absent.
    now rewrite omap_has_remove_other. }
  assert (Hk : String.eqb "scripts" k = false)
    by (apply String.eqb_neq; congruence).
  destruct (truthy_text (cfg_repository config)).
  - rewrite omap_get_set_other by exact Hrepo.
    rewrite Hspread. cbn [OMap.get].
    now rewrite Hk.
  - rewrite Hspread. cbn [OMap.get]. now rewrite Hk.
Qed.

(** The [scripts] field is always the merged object: extras cannot
    replace it. *)
Lemma packageJson_scripts g config :
  OMap.get "scripts" (packageJson g config)
  = Some (JObj (OMap.spread (baseScripts config)
                  (extraScripts (getPackageJsonExtras g config)))).
Proof.
  unfold packageJson.
  rewrite !get_add_section_other
    by (match goal with |- _ <> section_key ?k => now destruct k end).
  assert (Hspread : forall fixed,
             OMap.get "scripts"
               (OMap.spread fixed
                  (OMap.remove "scripts" (getPackageJsonExtras g config)))
             = OMap.get "scripts" fixed).
  { intros fixed. apply omap_get_spread_absent.
    unfold OMap.has. now rewrite omap_get_remove_same. }
  destruct (truthy_text (cfg_repository config)).
  - rewrite omap_get_set_other by discriminate.
    rewrite Hspread. reflexivity.
  - rewrite Hspread. reflexivity.
Qed.

Lemma to_uint_not_nil n : Nat.to_uint n <> Decimal.Nil.
Proof.
  rewrite DecimalNat.Unsigned.to_uint_alt. intros Hnil.
  apply DecimalFacts.rev_nil_inv in Hnil.
  destruct n as [|n]; [discriminate Hnil|].
  rewrite DecimalNat.Unsigned.to_lu_succ in Hnil.
  destruct (DecimalNat.Unsigned.to_lu n); discriminate Hnil.
Qed.

(** Different indices have different property names. *)
Lemma index_key_inj i j : index_key i = index_key j -> i = j.
Proof.
  unfold index_key. intros Hkey.
  apply (f_equal NilZero.uint_of_string) in Hkey.
  rewrite !NilZero.usu in Hkey by apply to_uint_not_nil.
  injection Hkey as Hkey. now apply DecimalNat.Unsigned.to_uint_inj.
Qed.

Lemma indexed_in {A} (l : list A) i0 k v :
  In (k, v) (indexed i0 l) ->
  exists j, k = index_key (i0 + j) /\ nth_error l j = Some v.
Proof.
  revert i0. induction l as [|a l IH]; intros i0 Hin; [destruct Hin|].
  destruct Hin as [Heq | Hin].
  - injection Heq as <- <-. exists 0. now rewrite Nat.add_0_r.
  - destruct (IH (S i0) Hin) as (j & -> & Hnth).
    exists (S j). split; [|exact Hnth].
    f_equal. now rewrite Nat.add_succ_r.
Qed.

Lemma indexed_has {A} (l : list A) i0 j v :
  nth_error l j = Some v ->
  OMap.has (index_key (i0 + j)) (indexed i0 l) = true.
Proof.
  revert i0 j. induction l as [|a l IH]; intros i0 j Hnth;
    [destruct j; discriminate Hnth|].
  unfold OMap.has. cbn [indexed OMap.get].
  destruct j as [|j].
  - now rewrite Nat.add_0_r, String.eqb_refl.
  - destruct (String.eqb (index_key i0) (index_key (i0 + S j))); 
      [reflexivity|].
    rewrite Nat.add_succ_r. apply (IH (S i0) j Hnth).
Qed.

(** What the spread of index keys puts into the merged scripts. *)
Lemma spread_indexed {A} (o : list (string * A)) (l : list A) i v :
  nth_error l i = Some v ->
  OMap.get (index_key i) (OMap.spread o (indexed 0 l)) = Some v.
Proof.
  intros Hnth.
  destruct (omap_get_spread_present (index_key i) o (indexed 0 l))
    as (v' & Hin & Hget).
  { exact (indexed_has l 0 i v Hnth). }
  apply indexed_in in Hin as (j & Hkey & Hnth').
  apply index_key_inj in Hkey. cbn in Hkey. subst j.
  rewrite Hget. congruence.
Qed.

(** X9. The [scripts] of the manifest are the base scripts overridden by
    what the spread of the extras' [scripts] copies: a script name it
    copies has a value it gave, any other name keeps the value of the
    base scripts, and a [scripts] key among the extras never replaces
    the merged object. For an array, and for a string, under [scripts]
    the spread copies the elements, or the characters, under their
    index keys. *)
Theorem X9_generator_scripts_override (g : Generator)
        (config : GeneratorConfig) :
  exists merged,
    OMap.get "scripts" (packageJson g config) = Some (JObj merged)
    /\ (forall k,
          OMap.has k (extraScripts (getPackageJsonExtras g config)) = true ->
          exists v,
            In (k, v) (extraScripts (getPackageJsonExtras g config))
            /\ OMap.get k merged = Some v)
    /\ (forall k,
          OMap.has k (extraScripts (getPackageJsonExtras g config))
          = false ->
          OMap.get k merged = OMap.get k (baseScripts config))
    /\ (forall items i item,
          OMap.get "scripts" (getPackageJsonExtras g config)
          = Some (JArr items) ->
          nth_error items i = Some item ->
          OMap.get (index_key i) merged = Some item)
    /\ (forall s i c,
          OMap.get "scripts" (getPackageJsonExtras g config)
          = Some (JStr s) ->
          nth_error (chars s) i = Some c ->
          OMap.get (index_key i) merged = Some c).
Proof.
  eexists. split; [apply packageJson_scripts|]. split; [|split; [|split]].
  - intros k Hk. now apply omap_get_spread_present.
  - intros k Hk. now apply omap_get_spread_absent.
  - intros items i item Hscripts Hnth. unfold extraScripts.
    rewrite Hscripts. now apply spread_indexed.
  - intros s i c Hscripts Hnth. unfold extraScripts.
    rewrite Hscripts. now apply spread_indexed.
Qed.

(** An array under [scripts]: its element is the script ["0"] of the
    manifest, beside the base scripts. *)
Lemma array_scripts_are_spread :
  OMap.get "scripts"
    (getPackageJsonExtras Cases.arrayScriptsGenerator Samples.libConfig)
  = Some (JArr [ JStr "echo hi" ])
  /\ exists merged,
       OMap.get "scripts"
         (packageJson Cases.arrayScriptsGenerator Samples.libConfig)
       = Some (JObj merged)
       /\ OMap.get "0" merged = Some (JStr "echo hi")
       /\ OMap.get "test" merged = Some (JStr "vitest").
Proof.
  split; [reflexivity|].
  eexists. split; [reflexivity|]. split; reflexivity.
Qed.

(** X10. With a repository URL that is not empty, the manifest's
    [repository] is the git object for that URL, whatever the extras
    hold; without one, the manifest has a [repository] only if the
    extras have. *)
Theorem X10_repository_field (g : Generator) (config : GeneratorConfig) :
  match truthy_text (cfg_repository config) with
  | Some url =>
      OMap.get "repository" (packageJson g config)
      = Some (JObj [("type", JStr "git"); ("url", JStr url)])
  | None =>
      OMap.has "repository" (packageJson g config)
      = OMap.has "repository" (getPackageJsonExtras g config)
  end.
Proof.
  unfold packageJson.
  destruct (truthy_text (cfg_repository config)) as [url|].
  - rewrite !get_add_section_other
      by (match goal with |- _ <> section_key ?k => now destruct k end).
    apply omap_get_set_same.
  - rewrite !has_add_section. simpl.
    rewrite omap_has_spread. simpl.
    now rewrite omap_has_remove_other by discriminate.
Qed.
End ManifestShape.

(** ** The five built-in generators *)

Section BuiltinGenerators.
Import Orchestrator.

Ltac in_keys H :=
  apply omap_has_keys in H; simpl in H;
  repeat (destruct H as [<- | H]; [simpl; tauto|]); destruct H.

(** The keys the built-in generators put among their manifest extras. *)
Lemma builtin_extras_keys :
  Forall
    (fun g =>
       forall config k,
         OMap.has k (getPackageJsonExtras g config) = true ->
         In k [ "sideEffects"; "files"; "peerDependenciesMeta"; "scripts";
                "svelte"; "engines"; "bin" ])
    Generators.builtin.
Proof.
  unfold Generators.builtin.
  repeat apply Forall_cons; try apply Forall_nil; intros config k Hhas;
    simpl in Hhas; unfold BaseGenerator.getPackageJsonExtras in Hhas;
    rewrite omap_has_spread in Hhas;
    apply orb_true_iff in Hhas as [Hhas | Hhas];
    try (in_keys Hhas).
  - simpl in Hhas. unfold VanillaGenerator.vanilla_extras in Hhas.
    destruct (RuntimeTarget_eqb (cfg_runtimeTarget config) Node
              || RuntimeTarget_eqb (cfg_runtimeTarget config) Universal);
      in_keys Hhas.
  - simpl in Hhas. unfold NodeGenerator.node_extras in Hhas.
    destruct (NodeGenerator.is_cli config); in_keys Hhas.
Qed.

Lemma builtin_extras_lack g config k :
  In g Generators.builtin ->
  ~ In k [ "sideEffects"; "files"; "peerDependenciesMeta"; "scripts";
           "svelte"; "engines"; "bin" ] ->
  OMap.has k (getPackageJsonExtras g config) = false.
Proof.
  intros Hg Hk.
  destruct (OMap.has k (getPackageJsonExtras g config)) eqn:Hhas;
    [|reflexivity].
  exfalso. apply Hk.
  pose proof builtin_extras_keys as Hall. rewrite Forall_forall in Hall.
  exact (Hall g Hg config k Hhas).
Qed.

Ltac not_in_list :=
  simpl; intros H; repeat (destruct H as [H | H]; [discriminate H|]);
  exact H.

(** No built-in generator declares a dependency named ["__proto__"]. *)
Lemma builtin_names_stored g config :
  In g Generators.builtin ->
  forallb (fun d => negb (String.eqb (dep_name d) "__proto__"))
          (getDependencies g config) = true.
Proof.
  intros Hg. simpl in Hg.
  repeat (destruct Hg as [<- | Hg];
          [ cbn; unfold BaseGenerator.getDependencies;
            rewrite forallb_app; cbn [BaseGenerator.getCommonDependencies];
            destruct (cfg_buildSystem config); cbn;
            try (unfold NodeGenerator.node_dependencies;
                 destruct (NodeGenerator.is_cli config));
            reflexivity |]).
  destruct Hg.
Qed.

Lemma stores_all_named deps kind :
  forallb (fun d => negb (String.eqb (dep_name d) "__proto__")) deps = true ->
  Manifest.stores kind deps = true
  <-> exists d, In d deps /\ dep_type d = kind.
Proof.
  intros Hall. rewrite stores_iff. rewrite forallb_forall in Hall.
  split.
  - intros (d & Hin & Hk & _). now exists d.
  - intros (d & Hin & Hk). exists d. split; [exact Hin|].
    split; [exact Hk|].
    apply String.eqb_neq, negb_true_iff, Hall, Hin.
Qed.

(** X11. For each of the five built-in generators and every
    configuration, a dependency section is in the manifest exactly when
    the generator declares a dependency of that kind: [devDependencies]
    always, [optionalDependencies] never. *)
Theorem X11_builtin_sections_follow_declarations :
  Forall
    (fun g =>
       forall config,
         (forall kind,
             OMap.has (section_key kind) (packageJson g config) = true
             <-> exists d, In d (getDependencies g config)
                           /\ dep_type d = kind)
         /\ OMap.has "devDependencies" (packageJson g config) = true
         /\ OMap.has "optionalDependencies" (packageJson g config) = false)
    Generators.builtin.
Proof.
  apply Forall_forall. intros g Hg config.
  assert (Hsec : forall kind,
             OMap.has (section_key kind) (packageJson g config)
             = Manifest.stores kind (getDependencies g config)).
  { intros kind. rewrite packageJson_has_section.
    rewrite (builtin_extras_lack g config (section_key kind) Hg)
      by (destruct kind; not_in_list).
    apply orb_false_r. }
  split; [|split].
  - intros kind. rewrite Hsec.
    apply stores_all_named, builtin_names_stored, Hg.
  - pose proof (Hsec DevDependency) as Hdev. cbn [section_key] in Hdev.
    rewrite Hdev. simpl in Hg.
    repeat (destruct Hg as [<- | Hg]; [reflexivity|]). destruct Hg.
  - pose proof (Hsec OptionalDependency) as Hopt.
    cbn [section_key] in Hopt. rewrite Hopt. simpl in Hg.
    repeat (destruct Hg as [<- | Hg];
            [ cbn; unfold BaseGenerator.getDependencies,
                Manifest.stores;
              rewrite existsb_app; cbn [BaseGenerator.getCommonDependencies];
              destruct (cfg_buildSystem config); cbn;
              try (unfold NodeGenerator.node_dependencies;
                   destruct (NodeGenerator.is_cli config));
              reflexivity |]).
    destruct Hg.
Qed.

(** Each built-in generator's extras are the common ones overridden by
    its own, and its own never name [sideEffects]. *)
Lemma builtin_extras_spread :
  Forall
    (fun g =>
       exists own,
         (forall config,
             getPackageJsonExtras g config
             = OMap.spread (BaseGenerator.getCommonPackageJsonExtras config)
                           (own config))
         /\ (forall config, OMap.has "sideEffects" (own config) = false))
    Generators.builtin.
Proof.
  unfold Generators.builtin.
  repeat apply Forall_cons; try apply Forall_nil.
  - exists ReactGenerator.react_extras. split; reflexivity.
  - exists VueGenerator.vue_extras. split; reflexivity.
  - exists SvelteGenerator.svelte_extras. split; reflexivity.
  - exists VanillaGenerator.vanilla_extras. split; [reflexivity|].
    intros config. unfold VanillaGenerator.vanilla_extras.
    destruct (RuntimeTarget_eqb (cfg_runtimeTarget config) Node
              || RuntimeTarget_eqb (cfg_runtimeTarget config) Universal);
      reflexivity.
  - exists NodeGenerator.node_extras. split; [reflexivity|].
    intros config. unfold NodeGenerator.node_extras.
    destruct (NodeGenerator.is_cli config); reflexivity.
Qed.

(** X12. For each of the five built-in generators and every
    configuration, the fields the orchestrator fixes are in the manifest
    as fixed: the name, description, author and license of the
    configuration, version ["0.0.1"], type ["module"], the three entry
    points under [./dist], and [sideEffects: false]. *)
Theorem X12_builtin_fixed_fields :
  Forall
    (fun g =>
       forall config,
         OMap.get "name" (packageJson g config)
         = Some (JStr (cfg_name config))
         /\ OMap.get "version" (packageJson g config) = Some (JStr "0.0.1")
         /\ OMap.get "description" (packageJson g config)
            = Some (JStr (cfg_description config))
         /\ OMap.get "type" (packageJson g config) = Some (JStr "module")
         /\ OMap.get "main" (packageJson g config)
            = Some (JStr "./dist/index.js")
         /\ OMap.get "module" (packageJson g config)
            = Some (JStr "./dist/index.js")
         /\ OMap.get "types" (packageJson g config)
            = Some (JStr "./dist/index.d.ts")
         /\ OMap.get "author" (packageJson g config)
            = Some (JStr (cfg_author config))
         /\ OMap.get "license" (packageJson g config)
            = Some (JStr (cfg_license config))
         /\ OMap.get "sideEffects" (packageJson g config)
            = Some (JBool false))
    Generators.builtin.
Proof.
  apply Forall_forall. intros g Hg config.
  assert (Hplain : forall k,
             ~ In k [ "sideEffects"; "files"; "peerDependenciesMeta";
                      "scripts"; "svelte"; "engines"; "bin" ] ->
             k <> "repository" ->
             (forall kind, k <> section_key kind) ->
             OMap.get k (packageJson g config)
             = OMap.get k
                 [ ("name", JStr (cfg_name config));
                   ("version", JStr "0.0.1");
                   ("description", JStr (cfg_description config));
                   ("type", JStr "module");
                   ("main", JStr "./dist/index.js");
                   ("module", JStr "./dist/index.js");
                   ("types", JStr "./dist/index.d.ts");
                   ("exports",
                    JObj (buildExportsField config (getExports g config)));
                   ("files",
                    JArr [JStr "dist"; JStr "README.md"; JStr "LICENSE";
                          JStr "CHANGELOG.md"]);
                   ("keywords", JArr []);
                   ("author", JStr (cfg_author config));
                   ("license", JStr (cfg_license config));
                   ("sideEffects", JBool false) ]).
  { intros k Hk Hrepo Hsec.
    apply packageJson_plain_key; auto.
    - now apply builtin_extras_lack.
    - intros ->. apply Hk. simpl. tauto. }
  repeat split;
    try (rewrite Hplain;
         [ reflexivity | not_in_list | discriminate
         | intros kind; destruct kind; discriminate ]).
  (* sideEffects: set by the fixed fields and again, to the same value, by
     the common extras *)
  pose proof builtin_extras_spread as Hall. rewrite Forall_forall in Hall.
  destruct (Hall g Hg) as (own & Hextras & Hown).
  assert (Hrest : OMap.get "sideEffects"
                    (OMap.remove "scripts" (getPackageJsonExtras g config))
                  = Some (JBool false)).
  { rewrite omap_get_remove_other by discriminate.
    rewrite Hextras, omap_get_spread_absent by apply Hown. reflexivity. }
  assert (Hnd : NoDup (OMap.keys
                         (OMap.remove "scripts"
                            (getPackageJsonExtras g config)))).
  { apply omap_remove_nodup. rewrite Hextras.
    apply omap_spread_nodup. simpl.
    repeat (constructor; [not_in_list|]). constructor. }
  assert (Hside : forall fixed,
             OMap.get "sideEffects"
               (OMap.spread fixed
                  (OMap.remove "scripts" (getPackageJsonExtras g config)))
             = Some (JBool false)).
  { intros fixed.
    assert (Hhas : OMap.has "sideEffects"
                     (OMap.remove "scripts" (getPackageJsonExtras g config))
                   = true)
      by (unfold OMap.has; now rewrite Hrest).
    destruct (omap_get_spread_present "sideEffects" fixed _ Hhas)
      as (v & Hin & Hget).
    rewrite Hget. rewrite (omap_in_get _ _ _ Hnd Hin) in Hrest.
    exact Hrest. }
  unfold packageJson.
  rewrite !get_add_section_other
    by (match goal with |- _ <> section_key ?k => now destruct k end).
  destruct (truthy_text (cfg_repository config)).
  - rewrite omap_get_set_other by discriminate. apply Hside.
  - apply Hside.
Qed.
End BuiltinGenerators.

Section BuiltinFiles.
Import Orchestrator.

Lemma distinct_sound l : Trace.distinct l = true -> NoDup l.
Proof.
  induction l as [|x l IH]; simpl; intros H; [constructor|].
  apply andb_true_iff in H as [Hx Hl].
  constructor; [|now apply IH].
  intros Hin. apply negb_true_iff in Hx.
  assert (Hyes : existsb (String.eqb x) l = true).
  { apply existsb_exists. exists x. split; [exact Hin|].
    apply String.eqb_refl. }
  congruence.
Qed.

Lemma absent_sound x l : existsb (String.eqb x) l = false -> ~ In x l.
Proof.
  intros Hno Hin.
  assert (Hyes : existsb (String.eqb x) l = true).
  { apply existsb_exists. exists x. split; [exact Hin|].
    apply String.eqb_refl. }
  congruence.
Qed.

Ltac every_file :=
  let f := fresh "f" in
  let Hf := fresh "Hf" in
  intros f Hf; simpl in Hf;
  repeat (destruct Hf as [<- | Hf]; [split; reflexivity|]);
  destruct Hf.

Ltac settle_files :=
  split; [apply distinct_sound; vm_compute; reflexivity|];
  split; [apply absent_sound; vm_compute; reflexivity | every_file].

(** X13. For each of the five built-in generators and every
    configuration, the files to generate have pairwise distinct paths,
    none of them is the root [package.json] the orchestrator writes
    itself, and each is a template without a condition, so none is
    skipped. *)
Theorem X13_builtin_files_are_distinct :
  Forall
    (fun g =>
       forall config,
         NoDup (map file_path (getFiles g config))
         /\ ~ In "package.json" (map file_path (getFiles g config))
         /\ (forall f,
               In f (getFiles g config) ->
               skipped config f = false /\ file_isTemplate f = true))
    Generators.builtin.
Proof.
  unfold Generators.builtin.
  repeat apply Forall_cons; try apply Forall_nil; intros config.
  - change (getFiles ReactGenerator.reactGenerator config)
      with (BaseGenerator.getCommonFiles config
            ++ ReactGenerator.react_files config).
    unfold BaseGenerator.getCommonFiles, ReactGenerator.react_files.
    destruct (cfg_buildSystem config);
      destruct (truthy_flag (cfg_includeExample config)); settle_files.
  - change (getFiles VueGenerator.vueGenerator config)
      with (BaseGenerator.getCommonFiles config
            ++ VueGenerator.vue_files config).
    unfold BaseGenerator.getCommonFiles, VueGenerator.vue_files.
    destruct (cfg_buildSystem config);
      destruct (truthy_flag (cfg_includeExample config)); settle_files.
  - change (getFiles SvelteGenerator.svelteGenerator config)
      with (BaseGenerator.getCommonFiles config
            ++ SvelteGenerator.svelte_files config).
    unfold BaseGenerator.getCommonFiles, SvelteGenerator.svelte_files.
    destruct (cfg_buildSystem config);
      destruct (truthy_flag (cfg_includeExample config)); settle_files.
  - change (getFiles VanillaGenerator.vanillaGenerator config)
      with (BaseGenerator.getCommonFiles config
            ++ VanillaGenerator.vanilla_files config).
    unfold BaseGenerator.getCommonFiles, VanillaGenerator.vanilla_files.
    destruct (cfg_buildSystem config);
      destruct (truthy_flag (cfg_includeExample config)); settle_files.
  - change (getFiles NodeGenerator.nodeGenerator config)
      with (BaseGenerator.getCommonFiles config
            ++ NodeGenerator.node_files config).
    unfold BaseGenerator.getCommonFiles, NodeGenerator.node_files.
    destruct (cfg_buildSystem config);
      destruct (truthy_flag (cfg_includeExample config));
      destruct (NodeGenerator.is_cli config); settle_files.
Qed.
End BuiltinFiles.

Section BuiltinWarnings.
Import Orchestrator.
Variable E : Env.

Lemma result_warnings reg fw g config w :
  Registry.getPrimary fw reg = Some g ->
  warnings (snd (generatePackage E reg fw config w))
  = if valid (validate g config)
    then map message
             (filter (fun i => is_warning (severity i))
                     (issues (validate g config)))
    else [].
Proof.
  intros Hg. destruct (valid (validate g config)) eqn:Hvalid.
  - rewrite (generatePackage_valid E reg fw g config w Hg Hvalid).
    apply generation_warnings.
  - now rewrite (generatePackage_invalid E reg fw g config w Hg Hvalid).
Qed.

Lemma accepted_issues s config :
  valid (BaseGenerator.validate s config) = true ->
  issues (BaseGenerator.validate s config)
  = BaseGenerator.validateFrameworkConfig s config
  /\ In (cfg_runtimeTarget config)
        (supportedRuntimeTargets (BaseGenerator.sub_meta s)).
Proof.
  intros Hvalid. unfold BaseGenerator.validate in *. cbn [valid issues] in *.
  apply negb_true_iff in Hvalid. rewrite !existsb_app in Hvalid.
  rewrite <- existsb_RuntimeTarget.
  destruct (BaseGenerator.blank (cfg_name config));
    destruct (existsb (PackageType_eqb (cfg_packageType config)) _);
    destruct (existsb (RuntimeTarget_eqb (cfg_runtimeTarget config)) _);
    destruct (BaseGenerator.blank (cfg_outDir config));
    cbn in Hvalid; try discriminate Hvalid; split; reflexivity.
Qed.

(** X14. When the primary generator is the React, Vue, Vanilla or Node
    generator, the result of [generatePackage] never carries a warning:
    the warnings React and Node can issue come only with a runtime target
    they reject, Vue issues an information only, Vanilla nothing. *)
Theorem X14_builtin_results_without_warnings
        (reg : Registry.t) (fw : Framework) (g : Generator)
        (config : GeneratorConfig) (w : World) :
  Registry.getPrimary fw reg = Some g ->
  In g [ ReactGenerator.reactGenerator; VueGenerator.vueGenerator;
         VanillaGenerator.vanillaGenerator; NodeGenerator.nodeGenerator ] ->
  warnings (snd (generatePackage E reg fw config w)) = [].
Proof.
  intros Hg Hin. rewrite (result_warnings reg fw g config w Hg).
  destruct (valid (validate g config)) eqn:Hvalid; [|reflexivity].
  simpl in Hin.
  destruct Hin as [<- | [<- | [<- | [<- | []]]]];
    destruct (accepted_issues _ config Hvalid) as [Hissues Htarget];
    cbn [validate BaseGenerator.make NodeGenerator.nodeGenerator
         ReactGenerator.reactGenerator VueGenerator.vueGenerator
         VanillaGenerator.vanillaGenerator] in *;
    rewrite Hissues; cbn.
  - unfold ReactGenerator.react_validate.
    destruct Htarget as [<- | [<- | []]]; reflexivity.
  - unfold VueGenerator.vue_validate.
    destruct (negb (BuildSystem_eqb (cfg_buildSystem config) Vite));
      reflexivity.
  - reflexivity.
  - unfold NodeGenerator.node_validate.
    destruct Htarget as [<- | [<- | []]]; reflexivity.
Qed.

(** X15. When the primary generator is the Svelte generator, the result
    carries its one warning exactly when the configuration is accepted
    and the build system is not Vite; the warning is there whether the
    run then succeeds or fails. *)
Theorem X15_svelte_warning (reg : Registry.t) (fw : Framework)
        (config : GeneratorConfig) (w : World) :
  Registry.getPrimary fw reg = Some SvelteGenerator.svelteGenerator ->
  warnings (snd (generatePackage E reg fw config w))
  = if valid (validate SvelteGenerator.svelteGenerator config)
       && negb (BuildSystem_eqb (cfg_buildSystem config) Vite)
    then [ "Svelte libraries typically use @sveltejs/package with Vite" ]
    else [].
Proof.
  intros Hg. rewrite (result_warnings reg fw _ config w Hg).
  destruct (valid (validate SvelteGenerator.svelteGenerator config))
    eqn:Hvalid; [|reflexivity].
  destruct (accepted_issues _ config Hvalid) as [Hissues _].
  cbn [validate BaseGenerator.make SvelteGenerator.svelteGenerator] in *.
  rewrite Hissues. cbn. unfold SvelteGenerator.svelte_validate.
  destruct (negb (BuildSystem_eqb (cfg_buildSystem config) Vite));
    reflexivity.
Qed.
End BuiltinWarnings.

(** ** Start-up and the wizard *)

Section StartUp.

Lemma registerAll_fold gs r :
  fst (Generators.registerAll gs r)
  = fold_left (fun r g => fst (Registry.register g r)) gs r.
Proof.
  revert r. induction gs as [|g gs IH]; intros r;
    cbn [Generators.registerAll fold_left]; [reflexivity|].
  destruct (Registry.register g r) as [r1 logged1] eqn:Hreg.
  specialize (IH r1).
  destruct (Generators.registerAll gs r1) as [r2 logged2].
  cbn [fst] in *. exact IH.
Qed.

Lemma primary_hasFramework fw r :
  Registry.getPrimary fw r <> None -> Registry.hasFramework fw r = true.
Proof.
  intros Hsome.
  destruct (Registry.hasFramework fw r) eqn:Hhas; [reflexivity|].
  apply hasFramework_bucket, no_generator_views in Hhas. contradiction.
Qed.

(** X16. [initializeGenerators], on whatever registry, leaves each of the
    five built-in generators stored under its identity, and each of their
    frameworks with a primary generator: the one it had, or else the
    built-in one. On the empty registry it logs no warning and the
    supported frameworks are the five tags in registration order. *)
Theorem X16_initializeGenerators (r : Registry.t) :
  Forall
    (fun g =>
       Registry.get (id (meta g)) (fst (Generators.initializeGenerators r))
       = Some g
       /\ Registry.getPrimary (framework (meta g))
            (fst (Generators.initializeGenerators r))
          = match Registry.getPrimary (framework (meta g)) r with
            | Some first => Some first
            | None => Some g
            end
       /\ Registry.hasFramework (framework (meta g))
            (fst (Generators.initializeGenerators r)) = true)
    Generators.builtin
  /\ Registry.getSupportedFrameworks
       (fst (Generators.initializeGenerators Registry.empty))
     = [ "react"; "vue"; "svelte"; "vanilla"; "node" ]
  /\ Forall (fun entry => fst entry = LDebug)
            (snd (Generators.initializeGenerators Registry.empty)).
Proof.
  split; [|split].
  - assert (Hprimary :
              Forall
                (fun g =>
                   Registry.getPrimary (framework (meta g))
                     (fst (Generators.initializeGenerators r))
                   = match Registry.getPrimary (framework (meta g)) r with
                     | Some first => Some first
                     | None => Some g
                     end)
                Generators.builtin).
    { unfold Generators.initializeGenerators, Generators.builtin.
      repeat apply Forall_cons; try apply Forall_nil;
        rewrite registerAll_primary;
        destruct (Registry.getPrimary _ r); reflexivity. }
    assert (Hget :
              Forall
                (fun g =>
                   Registry.get (id (meta g))
                     (fst (Generators.initializeGenerators r)) = Some g)
                Generators.builtin).
    { unfold Generators.initializeGenerators.
      rewrite registerAll_fold. unfold Generators.builtin.
      cbn [fold_left]. unfold Registry.get, Registry.register.
      cbn [fst Registry.generators].
      repeat apply Forall_cons; try apply Forall_nil;
        repeat (rewrite omap_get_set_other by discriminate);
        apply omap_get_set_same. }
    rewrite Forall_forall in *. intros g Hg.
    split; [now apply Hget|]. split; [now apply Hprimary|].
    apply primary_hasFramework. rewrite (Hprimary g Hg).
    destruct (Registry.getPrimary (framework (meta g)) r); discriminate.
  - reflexivity.
  - vm_compute. repeat constructor.
Qed.

Lemma offered_type_supported g t :
  In t (Wizard.packageTypeChoices (Some g)) ->
  existsb (PackageType_eqb t) (supportedPackageTypes (meta g)) = true.
Proof.
  unfold Wizard.packageTypeChoices. intros Hin.
  apply filter_In in Hin as [_ Hsupported]. exact Hsupported.
Qed.

Lemma offered_target_supported g t :
  In t (Wizard.runtimeTargetChoices (Some g)) ->
  existsb (RuntimeTarget_eqb t) (supportedRuntimeTargets (meta g)) = true.
Proof.
  unfold Wizard.runtimeTargetChoices. intros Hin.
  apply filter_In in Hin as [_ Hsupported]. exact Hsupported.
Qed.

(** X17. A configuration whose package type and runtime target are among
    those the wizard offers for a generator, with a name and an output
    directory that are not blank, gets from [BaseGenerator.validate] no
    issue of its own: the issues are those of the framework hook, and the
    configuration is accepted unless the hook reports an error. *)
Theorem X17_offered_choices_validate (s : BaseGenerator.Subclass)
        (config : GeneratorConfig) :
  In (cfg_packageType config)
     (Wizard.packageTypeChoices (Some (BaseGenerator.make s))) ->
  In (cfg_runtimeTarget config)
     (Wizard.runtimeTargetChoices (Some (BaseGenerator.make s))) ->
  BaseGenerator.blank (cfg_name config) = false ->
  BaseGenerator.blank (cfg_outDir config) = false ->
  issues (validate (BaseGenerator.make s) config)
  = BaseGenerator.validateFrameworkConfig s config
  /\ valid (validate (BaseGenerator.make s) config)
     = negb (existsb (fun i => is_error (severity i))
                     (BaseGenerator.validateFrameworkConfig s config)).
Proof.
  intros Htype Htarget Hname Hout.
  apply offered_type_supported in Htype.
  apply offered_target_supported in Htarget.
  cbn [validate BaseGenerator.make meta] in *.
  unfold BaseGenerator.validate. cbn [valid issues].
  rewrite Hname, Hout, Htype, Htarget. split; reflexivity.
Qed.

Lemma X17_offered_choices_validate_witness :
  issues (validate ReactGenerator.reactGenerator Samples.libConfig) = [].
Proof.
  refine (proj1 (X17_offered_choices_validate ReactGenerator.ReactGenerator
                   Samples.libConfig _ _ eq_refl eq_refl)).
  - now left.
  - now left.
Defined.

(** X18. For each of the five built-in generators the wizard has a package
    type to offer, offers only supported package types and runtime
    targets, and its default runtime target for the generator's framework
    is one of the targets it offers. *)
Theorem X18_wizard_defaults :
  Forall
    (fun g =>
       Wizard.packageTypeChoices (Some g) <> []
       /\ (forall t, In t (Wizard.packageTypeChoices (Some g)) ->
                     In t (supportedPackageTypes (meta g)))
       /\ (forall t, In t (Wizard.runtimeTargetChoices (Some g)) ->
                     In t (supportedRuntimeTargets (meta g)))
       /\ In (Wizard.defaultRuntimeTarget (framework (meta g)))
             (Wizard.runtimeTargetChoices (Some g)))
    Generators.builtin.
Proof.
  apply Forall_forall. intros g Hg.
  split; [|split; [|split]].
  - simpl in Hg.
    repeat (destruct Hg as [<- | Hg]; [discriminate|]). destruct Hg.
  - intros t Hin. now apply existsb_PackageType, offered_type_supported.
  - intros t Hin. now apply existsb_RuntimeTarget, offered_target_supported.
  - simpl in Hg.
    repeat (destruct Hg as [<- | Hg]; [vm_compute; tauto|]). destruct Hg.
Qed.
End StartUp.

(** ** Names and template helpers *)

Section Names.

Lemma after_slash_scope scope rest :
  Trace.has_char "/" scope = false ->
  Str.after_slash (scope +s+ String "/"%char rest)
  = Some (String.length scope, rest).
Proof.
  induction scope as [|c scope IH]; simpl; intros Hno; [reflexivity|].
  apply orb_false_iff in Hno as [Hc Hrest].
  rewrite Hc, (IH Hrest). reflexivity.
Qed.

Lemma after_slash_none s :
  Trace.has_char "/" s = false -> Str.after_slash s = None.
Proof.
  induction s as [|c s IH]; simpl; intros Hno; [reflexivity|].
  apply orb_false_iff in Hno as [Hc Hrest].
  now rewrite Hc, (IH Hrest).
Qed.

(** X19. The scope pattern [/^@[^/]+\//] of the Node generator's [bin]
    name and of the wizard's directory name: a leading ["@scope/"] with a
    non-empty scope is dropped, and a name that does not start with ["@"]
    or has no ["/"] is returned as it is. *)
Theorem X19_strip_scope :
  (forall scope rest,
      scope <> EmptyString ->
      Trace.has_char "/" scope = false ->
      Str.strip_scope ("@" +s+ scope +s+ "/" +s+ rest) = rest
      /\ Wizard.getPackageDir ("@" +s+ scope +s+ "/" +s+ rest) = rest)
  /\ (forall name,
        TemplateHelpers.isScoped name = false ->
        Str.strip_scope name = name)
  /\ (forall name,
        Trace.has_char "/" name = false -> Str.strip_scope name = name).
Proof.
  split; [|split].
  - intros scope rest Hscope Hno.
    assert (Hstrip : Str.strip_scope ("@" +s+ scope +s+ "/" +s+ rest) = rest).
    { unfold Str.strip_scope. simpl.
      rewrite (after_slash_scope scope rest Hno).
      destruct scope; [congruence | reflexivity]. }
    split; exact Hstrip.
  - intros name Hname. unfold Str.strip_scope.
    destruct name as [|c name]; [reflexivity|].
    destruct c as [[] [] [] [] [] [] [] []]; try reflexivity.
    discriminate Hname.
  - intros name Hno. unfold Str.strip_scope.
    destruct name as [|c name]; [reflexivity|].
    simpl in Hno. apply orb_false_iff in Hno as [_ Hrest].
    rewrite (after_slash_none name Hrest).
    destruct c as [[] [] [] [] [] [] [] []]; reflexivity.
Qed.

Lemma X19_strip_scope_witness :
  Str.strip_scope "@acme/tool" = "tool".
Proof.
  refine (proj1 (proj1 X19_strip_scope "acme" "tool" _ eq_refl)).
  discriminate.
Defined.

(** X20. The template helper [packageShortName] and the scope pattern
    agree whenever what the pattern leaves is one non-empty line;
    otherwise the helper returns the name unchanged. So the helper never
    turns a non-empty name into the empty one, which the pattern does for
    a name that ends with its scope's ["/"]. *)
Theorem X20_packageShortName (name : string) :
  TemplateHelpers.packageShortName name
  = (if TemplateHelpers.one_line (Str.strip_scope name)
     then Str.strip_scope name else name)
  /\ (name <> EmptyString ->
      TemplateHelpers.packageShortName name <> EmptyString).
Proof.
  assert (Hshape :
            TemplateHelpers.packageShortName name
            = (if TemplateHelpers.one_line (Str.strip_scope name)
               then Str.strip_scope name else name)).
  { unfold TemplateHelpers.packageShortName, Str.strip_scope.
    destruct name as [|c name]; [reflexivity|].
    destruct c as [[] [] [] [] [] [] [] []];
      try (now destruct (TemplateHelpers.one_line _)).
    destruct (Str.after_slash name) as [[[|n] r]|];
      now destruct (TemplateHelpers.one_line _). }
  split; [exact Hshape|].
  intros Hname. rewrite Hshape.
  destruct (TemplateHelpers.one_line (Str.strip_scope name)) eqn:Hline;
    [|exact Hname].
  intros Hempty. rewrite Hempty in Hline. discriminate Hline.
Qed.

Lemma X20_packageShortName_witness :
  TemplateHelpers.packageShortName "@acme/" <> EmptyString
  /\ Str.strip_scope "@acme/" = EmptyString.
Proof.
  split; [|reflexivity].
  apply (proj2 (X20_packageShortName "@acme/")). discriminate.
Defined.

Lemma string_pairs (P : string -> Prop) :
  P EmptyString ->
  (forall c, P (String c EmptyString)) ->
  (forall c l s, P s -> P (String l s) -> P (String c (String l s))) ->
  forall s, P s.
Proof.
  intros Hnil Hone Hstep s.
  assert (Hboth : P s /\ forall c, P (String c s)).
  { induction s as [|l s [IHs IHone]].
    - split; [exact Hnil | exact Hone].
    - split; [apply IHone|]. intros c. apply Hstep; [exact IHs | apply IHone]. }
  exact (proj1 Hboth).
Qed.

Lemma upper_letter_not_lower l :
  TemplateHelpers.is_lower l = true ->
  TemplateHelpers.is_lower (TemplateHelpers.upper_letter l) = false
  /\ Ascii.eqb (TemplateHelpers.upper_letter l) "-"%char = false.
Proof.
  destruct l as [[] [] [] [] [] [] [] []]; vm_compute;
    intros H; try discriminate H; split; reflexivity.
Qed.

Lemma camelCase_head l s :
  exists h t,
    TemplateHelpers.camelCase (String l s) = String h t
    /\ (h = l \/ TemplateHelpers.is_lower h = false).
Proof.
  destruct s as [|l2 s2]; cbn [TemplateHelpers.camelCase].
  - eexists _, _. split; [reflexivity | now left].
  - destruct (Ascii.eqb l "-"%char && TemplateHelpers.is_lower l2) eqn:Hm.
    + apply andb_true_iff in Hm as [_ Hlow].
      eexists _, _. split; [reflexivity|]. right.
      now apply upper_letter_not_lower.
    + eexists _, _. split; [reflexivity | now left].
Qed.

Lemma camelCase_cons c l s :
  TemplateHelpers.camelCase (String c (String l s))
  = if Ascii.eqb c "-"%char && TemplateHelpers.is_lower l
    then String (TemplateHelpers.upper_letter l) (TemplateHelpers.camelCase s)
    else String c (TemplateHelpers.camelCase (String l s)).
Proof. reflexivity. Qed.

Lemma kebab_free_cons c l s :
  Trace.kebab_free (String c (String l s))
  = negb (Ascii.eqb c "-"%char && TemplateHelpers.is_lower l)
    && Trace.kebab_free (String l s).
Proof. reflexivity. Qed.

(** X21. The template helper [camelCase] leaves no ["-"] followed by a
    lower-case letter, returns unchanged a string that has none, and so
    applied twice gives what it gives applied once. *)
Theorem X21_camelCase (s : string) :
  Trace.kebab_free (TemplateHelpers.camelCase s) = true
  /\ (Trace.kebab_free s = true -> TemplateHelpers.camelCase s = s)
  /\ TemplateHelpers.camelCase (TemplateHelpers.camelCase s)
     = TemplateHelpers.camelCase s.
Proof.
  assert (Hfree : forall s, Trace.kebab_free (TemplateHelpers.camelCase s)
                            = true).
  { apply string_pairs.
    - reflexivity.
    - reflexivity.
    - intros c l s' IH1 IH2. rewrite camelCase_cons.
      destruct (Ascii.eqb c "-"%char && TemplateHelpers.is_lower l) eqn:Hm.
      + apply andb_true_iff in Hm as [_ Hlow].
        destruct (upper_letter_not_lower l Hlow) as [_ Hdash].
        destruct (TemplateHelpers.camelCase s') as [|h t] eqn:Hc;
          [reflexivity|].
        rewrite kebab_free_cons, Hdash, IH1. reflexivity.
      + destruct (camelCase_head l s') as (h & t & Hhead & Hh).
        rewrite Hhead in *.
        rewrite kebab_free_cons, IH2, andb_true_r. apply negb_true_iff.
        destruct Hh as [-> | Hlow]; [exact Hm|].
        rewrite Hlow. apply andb_false_r. }
  assert (Hfix : forall s, Trace.kebab_free s = true ->
                           TemplateHelpers.camelCase s = s).
  { apply (string_pairs
             (fun s => Trace.kebab_free s = true ->
                       TemplateHelpers.camelCase s = s)).
    - reflexivity.
    - reflexivity.
    - intros c l s' IH1 IH2 Hk.
      rewrite kebab_free_cons in Hk.
      apply andb_true_iff in Hk as [Hm Hrest].
      apply negb_true_iff in Hm.
      rewrite camelCase_cons, Hm.
      f_equal. now apply IH2. }
  split; [apply Hfree|]. split; [apply Hfix|].
  apply Hfix, Hfree.
Qed.

Lemma X21_camelCase_witness :
  TemplateHelpers.camelCase "my-lib" = "myLib"
  /\ TemplateHelpers.camelCase "myLib" = "myLib".
Proof.
  split; [reflexivity|].
  apply (proj1 (proj2 (X21_camelCase "myLib"))). reflexivity.
Defined.
End Names.

(** ** What a run writes *)

Section RunTrace.
Import Orchestrator.
Variable E : Env.

Lemma written_paths_app a b :
  Trace.written_paths (a ++ b)
  = Trace.written_paths a ++ Trace.written_paths b.
Proof.
  induction a as [|[d | p c | p v] a IH]; simpl; [reflexivity | | |];
    now rewrite IH.
Qed.

Lemma written_manifests_app a b :
  Trace.written_manifests (a ++ b)
  = Trace.written_manifests a ++ Trace.written_manifests b.
Proof.
  induction a as [|[d | p c | p v] a IH]; simpl; [reflexivity | | |];
    now rewrite IH.
Qed.

Lemma quiet_ret {A} (a : A) : Trace.quiet (ret a).
Proof. intros st. repeat split. Qed.

Lemma quiet_throw {A} msg : Trace.quiet (@throw RunState A msg).
Proof. intros st. repeat split. Qed.

Lemma quiet_logM lvl msg : Trace.quiet (logM lvl msg).
Proof. intros st. repeat split. Qed.

Lemma quiet_bind {A B} (m : M RunState A) (k : A -> M RunState B) :
  Trace.quiet m -> (forall a, Trace.quiet (k a)) -> Trace.quiet (bind m k).
Proof.
  intros Hm Hk st. unfold bind.
  destruct (Hm st) as (H1 & H2 & H3).
  destruct (m st) as [st1 [msg | a]]; cbn [fst] in *.
  - now repeat split.
  - destruct (Hk a st1) as (K1 & K2 & K3).
    repeat split; congruence.
Qed.

Lemma quiet_formatContent content filepath :
  Trace.quiet (formatContent E content filepath).
Proof.
  unfold formatContent.
  destruct (parserFor (path_extname E filepath)); [|apply quiet_ret].
  destruct (prettier_format E content p); [|apply quiet_ret].
  apply quiet_bind; [apply quiet_logM | intros; apply quiet_ret].
Qed.

Lemma quiet_fileContent fw file context :
  Trace.quiet (fileContent E fw file context).
Proof.
  unfold fileContent.
  destruct (file_isTemplate file); [|apply quiet_ret].
  apply quiet_bind; [apply quiet_logM | intros _].
  destruct (render E (file_template file) context); [|apply quiet_ret].
  destruct (firstRendered E _ context); [apply quiet_ret|].
  repeat (apply quiet_bind; [apply quiet_logM | intros _]).
  apply quiet_throw.
Qed.

Lemma advanced_refl outDir st : Trace.advanced E outDir [] st st.
Proof. unfold Trace.advanced. simpl. now rewrite !app_nil_r. Qed.

Lemma advanced_trans outDir d1 d2 st1 st2 st3 :
  Trace.advanced E outDir d1 st1 st2 ->
  Trace.advanced E outDir d2 st2 st3 ->
  Trace.advanced E outDir (d1 ++ d2) st1 st3.
Proof.
  intros (A1 & A2 & A3 & A4) (B1 & B2 & B3 & B4).
  unfold Trace.advanced. rewrite !map_app, !app_assoc.
  repeat split; congruence.
Qed.

Lemma bind_cases {A B} (m : M RunState A) (k : A -> M RunState B)
      st st' out :
  bind m k st = (st', out) ->
  (exists msg, m st = (st', Thrown msg) /\ out = Thrown msg)
  \/ (exists a st1, m st = (st1, Value a) /\ k a st1 = (st', out)).
Proof.
  unfold bind. destruct (m st) as [st1 [msg | a]]; intros Hrun.
  - left. exists msg. injection Hrun as <- <-. now split.
  - right. now exists a, st1.
Qed.

Lemma fsM_cases op st st' (out : Outcome unit) :
  fsM E op st = (st', out) ->
  (st' = st /\ exists msg, out = Thrown msg)
  \/ (out = Value tt
      /\ rs_files st' = rs_files st
      /\ rs_warnings st' = rs_warnings st
      /\ fs_ops (rs_world st') = fs_ops (rs_world st) ++ [op]).
Proof.
  unfold fsM.
  destruct (fs_fail E (fs_ops (rs_world st)) op) as [msg|];
    intros Hrun; injection Hrun as <- <-.
  - left. split; [reflexivity | now exists msg].
  - right. repeat split.
Qed.

Lemma quiet_run {A} (m : M RunState A) st st' out :
  Trace.quiet m -> m st = (st', out) ->
  fs_ops (rs_world st') = fs_ops (rs_world st)
  /\ rs_files st' = rs_files st
  /\ rs_warnings st' = rs_warnings st.
Proof.
  intros Hq Hrun. specialize (Hq st). now rewrite Hrun in Hq.
Qed.

(** One file: either it is written and recorded, or the step throws and
    nothing was written for it. *)
Lemma generateFile_advanced fw config context file st st' out :
  generateFile E fw config context file st = (st', out) ->
  match out with
  | Value _ => Trace.advanced E (cfg_outDir config) [file] st st'
  | Thrown _ => Trace.advanced E (cfg_outDir config) [] st st'
  end.
Proof.
  unfold generateFile. intros Hrun.
  apply bind_cases in Hrun as [(msg & Hdir & ->) | ([] & st1 & Hdir & Hrun)].
  { apply fsM_cases in Hdir as [[-> _] | [Hbad _]];
      [apply advanced_refl | discriminate Hbad]. }
  apply fsM_cases in Hdir
    as [[_ (msg & Hbad)] | (_ & F1 & W1 & O1)]; [discriminate Hbad|].
  apply bind_cases in Hrun
    as [(msg & Hcontent & ->) | (content & st2 & Hcontent & Hrun)];
    apply (quiet_run _ _ _ _ (quiet_fileContent fw file context))
      in Hcontent as (O2 & F2 & W2).
  { unfold Trace.advanced. rewrite O2, F2, W2, O1, F1, W1.
    rewrite written_paths_app, written_manifests_app. cbn.
    now rewrite !app_nil_r. }
  apply bind_cases in Hrun
    as [(msg & Hformat & ->) | (formatted & st3 & Hformat & Hrun)];
    apply (quiet_run _ _ _ _ (quiet_formatContent _ _))
      in Hformat as (O3 & F3 & W3).
  { unfold Trace.advanced. rewrite O3, F3, W3, O2, F2, W2, O1, F1, W1.
    rewrite written_paths_app, written_manifests_app. cbn.
    now rewrite !app_nil_r. }
  apply bind_cases in Hrun as [(msg & Hwrite & ->) | ([] & st4 & Hwrite & Hrun)].
  { apply fsM_cases in Hwrite as [[-> _] | [Hbad _]]; [|discriminate Hbad].
    unfold Trace.advanced. rewrite O3, F3, W3, O2, F2, W2, O1, F1, W1.
    rewrite written_paths_app, written_manifests_app. cbn.
    now rewrite !app_nil_r. }
  apply fsM_cases in Hwrite
    as [[_ (msg & Hbad)] | (_ & F4 & W4 & O4)]; [discriminate Hbad|].
  unfold bind, push_file, logM in Hrun. injection Hrun as <- <-.
  unfold Trace.advanced. cbn.
  rewrite O4, F4, W4, O3, F3, W3, O2, F2, W2, O1, F1, W1.
  rewrite !written_paths_app, !written_manifests_app. cbn.
  now rewrite !app_nil_r.
Qed.

(** The loop: the files written and recorded are, in order, a front part
    of the included files, and all of them when the loop completes. *)
Lemma generateFiles_advanced fw config context filesToGenerate st st' out :
  generateFiles E fw config context filesToGenerate st = (st', out) ->
  exists done rest,
    Trace.included config filesToGenerate = done ++ rest
    /\ Trace.advanced E (cfg_outDir config) done st st'
    /\ (forall u, out = Value u -> rest = [])
    /\ (forall msg, out = Thrown msg -> rest <> []).
Proof.
  revert st.
  induction filesToGenerate as [|file files IH]; intros st Hrun.
  - injection Hrun as <- <-. exists [], [].
    split; [reflexivity|]. split; [apply advanced_refl|].
    split; [reflexivity | discriminate].
  - cbn [generateFiles] in Hrun. unfold Trace.included. cbn [filter].
    fold (Trace.included config files).
    destruct (skipped config file) eqn:Hskip; cbn [negb].
    + apply (IH st). exact Hrun.
    + apply bind_cases in Hrun
        as [(msg & Hone & ->) | ([] & st1 & Hone & Hrun)];
        apply generateFile_advanced in Hone.
      * exists [], (file :: Trace.included config files).
        split; [reflexivity|]. split; [exact Hone|].
        split; discriminate.
      * destruct (IH st1 Hrun) as (done & rest & Hsplit & Hadv & Hall & Hnot).
        exists (file :: done), rest.
        split; [now rewrite Hsplit|].
        split; [exact (advanced_trans _ [file] done _ _ _ Hone Hadv)|].
        split; assumption.
Qed.

(** The end of the [try] block: the arrays stay as they are, and a result
    that is returned is the successful one built from them. *)
Lemma finalize_cases g config st st' out :
  finalize E g config st = (st', out) ->
  rs_files st' = rs_files st
  /\ rs_warnings st' = rs_warnings st
  /\ (forall r,
        out = Value r ->
        r = {| success := true; files := rs_files st;
               warnings := rs_warnings st; error := None;
               nextSteps := generateNextSteps E config |}).
Proof.
  unfold finalize, generatePackageJson. intros Hrun.
  apply bind_cases in Hrun as [(msg & Hjson & ->) | ([] & st1 & Hjson & Hrun)].
  { apply fsM_cases in Hjson as [[-> _] | [Hbad _]]; [|discriminate Hbad].
    repeat split. intros r Hr. discriminate Hr. }
  apply fsM_cases in Hjson
    as [[_ (msg & Hbad)] | (_ & F1 & W1 & O1)]; [discriminate Hbad|].
  destruct (postGenerate g) as [hook|].
  - unfold bind, lift, ret in Hrun.
    destruct (hook config _ (rs_world st1)) as [w' [msg | []]];
      injection Hrun as <- <-; cbn; rewrite F1, W1;
      (split; [reflexivity|]); (split; [reflexivity|]); intros r Hr;
      [discriminate Hr | now injection Hr as <-].
  - unfold ret in Hrun. injection Hrun as <- <-. rewrite F1, W1.
    split; [reflexivity|]. split; [reflexivity|].
    intros r Hr. now injection Hr as <-.
Qed.

(** With the inherited hook, the end of the [try] block fails only when
    the manifest cannot be written, and otherwise adds that one write. *)
Lemma finalize_default g config st st' out :
  Trace.default_hook g ->
  finalize E g config st = (st', out) ->
  ((exists msg, out = Thrown msg) /\ st' = st)
  \/ ((exists r, out = Value r)
      /\ fs_ops (rs_world st')
         = fs_ops (rs_world st)
           ++ [FsWriteJson (path_join E (cfg_outDir config) "package.json")
                           (packageJson g config)]).
Proof.
  unfold finalize, generatePackageJson. intros Hhook Hrun.
  apply bind_cases in Hrun as [(msg & Hjson & ->) | ([] & st1 & Hjson & Hrun)].
  { apply fsM_cases in Hjson as [[-> _] | [Hbad _]]; [|discriminate Hbad].
    left. split; [now exists msg | reflexivity]. }
  apply fsM_cases in Hjson
    as [[_ (msg & Hbad)] | (_ & F1 & W1 & O1)]; [discriminate Hbad|].
  right.
  destruct Hhook as [Hhook | Hhook]; rewrite Hhook in Hrun;
    unfold bind, lift, ret, BaseGenerator.postGenerate in Hrun;
    cbn in Hrun; injection Hrun as <- <-;
    (split; [eexists; reflexivity | exact O1]).
Qed.

(** The [try] block: a front part of the included files is written and
    recorded; then the block has thrown, or every included file is done
    and the end of the block runs. *)
Lemma generation_cases fw g config st st' out :
  generation E fw g config st = (st', out) ->
  exists done rest st1,
    Trace.included config (getFiles g config) = done ++ rest
    /\ Trace.advanced E (cfg_outDir config) done st st1
    /\ (((exists msg, out = Thrown msg) /\ st' = st1)
        \/ (rest = [] /\ finalize E g config st1 = (st', out))).
Proof.
  unfold generation. intros Hrun.
  apply bind_cases in Hrun as [(msg & Hdir & ->) | ([] & st0 & Hdir & Hrun)].
  { apply fsM_cases in Hdir as [[-> _] | [Hbad _]]; [|discriminate Hbad].
    exists [], (Trace.included config (getFiles g config)), st.
    split; [reflexivity|]. split; [apply advanced_refl|].
    left. split; [now exists msg | reflexivity]. }
  apply fsM_cases in Hdir
    as [[_ (msg & Hbad)] | (_ & F0 & W0 & O0)]; [discriminate Hbad|].
  assert (Hstart : Trace.advanced E (cfg_outDir config) [] st st0).
  { unfold Trace.advanced. rewrite F0, W0, O0.
    rewrite written_paths_app, written_manifests_app. cbn.
    now rewrite !app_nil_r. }
  apply bind_cases in Hrun
    as [(msg & Hloop & ->) | ([] & st1 & Hloop & Hrun)];
    apply generateFiles_advanced in Hloop
      as (done & rest & Hsplit & Hadv & Hall & Hnot).
  - exists done, rest, st'. split; [exact Hsplit|].
    split; [exact (advanced_trans _ [] done _ _ _ Hstart Hadv)|].
    left. split; [now exists msg | reflexivity].
  - exists done, rest, st1. split; [exact Hsplit|].
    split; [exact (advanced_trans _ [] done _ _ _ Hstart Hadv)|].
    right. split; [exact (Hall tt eq_refl) | exact Hrun].
Qed.

(** X22. For an accepted configuration the files of the result are, in
    order, the paths of a front part of the generator's files that are
    not skipped, and of all of them when the result is a success. *)
Theorem X22_reported_files_are_a_prefix
        (reg : Registry.t) (fw : Framework) (g : Generator)
        (config : GeneratorConfig) (w : World) :
  Registry.getPrimary fw reg = Some g ->
  valid (validate g config) = true ->
  exists done rest,
    Trace.included config (getFiles g config) = done ++ rest
    /\ files (snd (generatePackage E reg fw config w)) = map file_path done
    /\ (success (snd (generatePackage E reg fw config w)) = true ->
        rest = []).
Proof.
  intros Hg Hvalid.
  rewrite (generatePackage_valid E reg fw g config w Hg Hvalid).
  destruct (generation E fw g config (validated (validate g config) w))
    as [st' out] eqn:Hrun.
  apply generation_cases in Hrun
    as (done & rest & st1 & Hsplit & (F & _) & Hend).
  cbn [validated rs_files app] in F.
  exists done, rest. split; [exact Hsplit|].
  destruct Hend as [[(msg & ->) ->] | [-> Hfin]].
  - cbn. split; [exact F | discriminate].
  - apply finalize_cases in Hfin as (F' & _ & Hres).
    destruct out as [msg | r]; cbn.
    + split; [congruence | reflexivity].
    + rewrite (Hres r eq_refl). cbn. split; [exact F | reflexivity].
Qed.

(** X23. With the inherited hook, the [writeFile] calls of a run are
    exactly the files the result reports, each under the output directory
    and in the reported order, and the run writes one manifest, the
    [package.json] of the output directory, exactly when the result is a
    success. *)
Theorem X23_reported_files_are_the_writes
        (reg : Registry.t) (fw : Framework) (g : Generator)
        (config : GeneratorConfig) (w : World) :
  Registry.getPrimary fw reg = Some g ->
  Trace.default_hook g ->
  Trace.written_paths (fs_ops (fst (generatePackage E reg fw config w)))
  = Trace.written_paths (fs_ops w)
    ++ map (path_join E (cfg_outDir config))
           (files (snd (generatePackage E reg fw config w)))
  /\ Trace.written_manifests
       (fs_ops (fst (generatePackage E reg fw config w)))
     = Trace.written_manifests (fs_ops w)
       ++ (if success (snd (generatePackage E reg fw config w))
           then [ (path_join E (cfg_outDir config) "package.json",
                   packageJson g config) ]
           else []).
Proof.
  intros Hg Hhook.
  destruct (valid (validate g config)) eqn:Hvalid.
  2:{ rewrite (generatePackage_invalid E reg fw g config w Hg Hvalid).
      cbn. now rewrite !app_nil_r. }
  rewrite (generatePackage_valid E reg fw g config w Hg Hvalid).
  destruct (generation E fw g config (validated (validate g config) w))
    as [st' out] eqn:Hrun.
  apply generation_cases in Hrun
    as (done & rest & st1 & Hsplit & (F & P & J & _) & Hend).
  cbn [validated rs_files rs_world app] in F, P, J.
  assert (Hpaths :
            map (path_join E (cfg_outDir config)) (rs_files st1)
            = map (fun f => path_join E (cfg_outDir config) (file_path f))
                  done).
  { rewrite F. apply map_map. }
  destruct Hend as [[(msg & ->) ->] | [-> Hfin]].
  - cbn. rewrite app_nil_r, Hpaths. split; [exact P | exact J].
  - pose proof (finalize_cases g config _ _ _ Hfin) as (F' & _ & Hres).
    apply (finalize_default g config _ _ _ Hhook) in Hfin
      as [[(msg & ->) ->] | [(r & ->) O]].
    + cbn. rewrite app_nil_r, Hpaths. split; [exact P | exact J].
    + rewrite (Hres r eq_refl). cbn. rewrite O.
      rewrite written_paths_app, written_manifests_app. cbn.
      rewrite app_nil_r, Hpaths. split; [exact P | now rewrite J].
Qed.

(** X24. Whatever happens, the result of [generatePackage] is a success
    exactly when it carries no error, and it carries the next steps
    exactly when it is a success. *)
Theorem X24_success_iff_no_error
        (reg : Registry.t) (fw : Framework) (config : GeneratorConfig)
        (w : World) :
  (success (snd (generatePackage E reg fw config w)) = true
   <-> error (snd (generatePackage E reg fw config w)) = None)
  /\ nextSteps (snd (generatePackage E reg fw config w))
     = if success (snd (generatePackage E reg fw config w))
       then generateNextSteps E config
       else [].
Proof.
  unfold generatePackage.
  destruct (Registry.getPrimary fw reg) as [g|];
    [|cbn; split; [split; discriminate | reflexivity]].
  destruct (valid (validate g config)); cbn [negb];
    [|cbn; split; [split; discriminate | reflexivity]].
  destruct (generation E fw g config (validated (validate g config) w))
    as [st' [msg | r]] eqn:Hrun;
    [cbn; split; [split; discriminate | reflexivity]|].
  apply generation_cases in Hrun
    as (done & rest & st1 & _ & _ & [[(msg & Hbad) _] | [_ Hfin]]);
    [discriminate Hbad|].
  apply finalize_cases in Hfin as (_ & _ & Hres).
  rewrite (Hres r eq_refl). cbn. split; [split; reflexivity | reflexivity].
Qed.

(** X25. When the output directory cannot be created, an accepted
    configuration gives a failure with the message of the file system,
    no file, and the warnings of the validation; the world is left as it
    was, without a further log entry. *)
Theorem X25_output_directory_failure
        (reg : Registry.t) (fw : Framework) (g : Generator)
        (config : GeneratorConfig) (w : World) (msg : string) :
  Registry.getPrimary fw reg = Some g ->
  valid (validate g config) = true ->
  fs_fail E (fs_ops w) (FsEnsureDir (cfg_outDir config)) = Some msg ->
  generatePackage E reg fw config w
  = (w, failure []
          (map message
               (filter (fun i => is_warning (severity i))
                       (issues (validate g config))))
          msg).
Proof.
  intros Hg Hvalid Hfail.
  rewrite (generatePackage_valid E reg fw g config w Hg Hvalid).
  unfold generation, bind, fsM. cbn [validated rs_world].
  now rewrite Hfail.
Qed.
End RunTrace.

(** ** The template fallback *)

Section TemplateFallback.
Import Orchestrator.
Variable E : Env.

Lemma append_assoc (a b c : string) : (a +s+ b) +s+ c = a +s+ (b +s+ c).
Proof. induction a as [|x a IH]; simpl; [reflexivity | now rewrite IH]. Qed.

Lemma strip_prefix_append p x : Str.strip_prefix p (p +s+ x) = Some x.
Proof.
  induction p as [|c p IH]; simpl.
  - now destruct x.
  - now rewrite Ascii.eqb_refl.
Qed.

Lemma replace_first_unfold pat rep s :
  Str.replace_first pat rep s
  = match Str.strip_prefix pat s with
    | Some rest => rep +s+ rest
    | None =>
        match s with
        | EmptyString => EmptyString
        | String c s' => String c (Str.replace_first pat rep s')
        end
    end.
Proof. destruct s; reflexivity. Qed.

Lemma occurs_unfold p s :
  Trace.occurs p s
  = match Str.strip_prefix p s with
    | Some _ => true
    | None =>
        match s with
        | EmptyString => false
        | String _ s' => Trace.occurs p s'
        end
    end.
Proof. destruct s; reflexivity. Qed.

(** A pattern that does not occur is not replaced. *)
Lemma replace_first_absent pat rep s :
  Trace.occurs pat s = false -> Str.replace_first pat rep s = s.
Proof.
  induction s as [|c s IH]; rewrite occurs_unfold, replace_first_unfold;
    destruct (Str.strip_prefix pat _); try discriminate; intros Hs.
  - reflexivity.
  - now rewrite IH.
Qed.

(** A pattern at the front is the occurrence that is removed. *)
Lemma replace_first_front pat x :
  Str.replace_first pat EmptyString (pat +s+ x) = x.
Proof. now rewrite replace_first_unfold, strip_prefix_append. Qed.

(** X26. For a template whose path does not contain the framework
    directory, the second alternate path is the template path again, so
    the fallback has one new candidate: the content is that of the
    template, else that of the path under the framework directory with
    the first [common/] removed, else the file fails with
    [Template not found]. *)
Theorem X26_fallback_for_shared_template
        (fw : Framework) (file : GeneratedFile) (context : TemplateContext)
        (st : RunState) :
  file_isTemplate file = true ->
  Trace.occurs (fw +s+ "/") (file_template file) = false ->
  alternatePaths fw (file_template file)
  = [ fw +s+ "/"
         +s+ Str.replace_first "common/" EmptyString (file_template file);
      file_template file ]
  /\ snd (fileContent E fw file context st)
     = match render E (file_template file) context with
       | Value content => Value content
       | Thrown _ =>
           match render E
                   (fw +s+ "/"
                       +s+ Str.replace_first "common/" EmptyString
                             (file_template file))
                   context with
           | Value content => Value content
           | Thrown _ =>
               Thrown ("Template not found: " +s+ file_template file)
           end
       end.
Proof.
  intros Htemplate Habsent.
  assert (Hpaths :
            alternatePaths fw (file_template file)
            = [ fw +s+ "/"
                   +s+ Str.replace_first "common/" EmptyString
                         (file_template file);
                file_template file ]).
  { unfold alternatePaths. now rewrite (replace_first_absent _ _ _ Habsent). }
  split; [exact Hpaths|].
  unfold fileContent. rewrite Htemplate, Hpaths. unfold bind at 1, logM at 1.
  destruct (render E (file_template file) context) as [msg | content] eqn:Hr;
    [|reflexivity].
  cbn [firstRendered]. rewrite Hr.
  destruct (render E (fw +s+ "/" +s+ _) context) as [msg' | content];
    reflexivity.
Qed.

(** X27. For a template path that starts with the framework directory
    and has no [common/] after it, the first alternate path is the
    template path again and the second is the path without the framework
    directory. *)
Theorem X27_fallback_for_framework_template
        (fw : Framework) (x : string) :
  Trace.occurs "common/" x = false ->
  alternatePaths fw ((fw +s+ "/") +s+ x) = [ (fw +s+ "/") +s+ x; x ].
Proof.
  intros Habsent. unfold alternatePaths.
  rewrite replace_first_front, (replace_first_absent _ _ _ Habsent).
  now rewrite append_assoc.
Qed.
End TemplateFallback.

(** ** The properties of runs at concrete inputs *)

Section RunWitnesses.
Import Orchestrator Samples Cases.

(** X14 at the Vue generator. *)
Lemma X14_builtin_results_without_warnings_witness :
  Registry.getPrimary "vue" allBuiltins = Some VueGenerator.vueGenerator
  /\ warnings (snd (generatePackage strictPrettier allBuiltins "vue"
                      libConfig freshWorld)) = [].
Proof.
  assert (Hg : Registry.getPrimary "vue" allBuiltins
               = Some VueGenerator.vueGenerator) by reflexivity.
  split; [exact Hg|].
  apply (X14_builtin_results_without_warnings
           strictPrettier allBuiltins "vue" VueGenerator.vueGenerator
           libConfig freshWorld Hg).
  right. left. reflexivity.
Defined.

(** X15 at the library configuration. *)
Lemma X15_svelte_warning_witness :
  Registry.getPrimary "svelte" allBuiltins
  = Some SvelteGenerator.svelteGenerator
  /\ warnings (snd (generatePackage strictPrettier allBuiltins "svelte"
                      libConfig freshWorld))
     = if valid (validate SvelteGenerator.svelteGenerator libConfig)
          && negb (BuildSystem_eqb (cfg_buildSystem libConfig) Vite)
       then [ "Svelte libraries typically use @sveltejs/package with Vite" ]
       else [].
Proof.
  assert (Hg : Registry.getPrimary "svelte" allBuiltins
               = Some SvelteGenerator.svelteGenerator) by reflexivity.
  split; [exact Hg|].
  exact (X15_svelte_warning strictPrettier allBuiltins "svelte" libConfig
           freshWorld Hg).
Defined.

(** X22 at the Node generator and a Node library. *)
Lemma X22_reported_files_are_a_prefix_witness :
  valid (validate NodeGenerator.nodeGenerator nodeLibrary) = true
  /\ exists done rest,
       Trace.included nodeLibrary
         (getFiles NodeGenerator.nodeGenerator nodeLibrary) = done ++ rest
       /\ files (snd (generatePackage strictPrettier allBuiltins "node"
                        nodeLibrary freshWorld))
          = map file_path done
       /\ (success (snd (generatePackage strictPrettier allBuiltins "node"
                           nodeLibrary freshWorld)) = true ->
           rest = []).
Proof.
  split; [reflexivity|].
  exact (X22_reported_files_are_a_prefix
           strictPrettier allBuiltins "node" NodeGenerator.nodeGenerator
           nodeLibrary freshWorld eq_refl eq_refl).
Defined.

(** X23 at the React generator. *)
Lemma X23_reported_files_are_the_writes_witness :
  Trace.default_hook ReactGenerator.reactGenerator
  /\ Trace.written_paths
       (fs_ops (fst (generatePackage strictPrettier allBuiltins "react"
                       libConfig freshWorld)))
     = Trace.written_paths (fs_ops freshWorld)
       ++ map (path_join strictPrettier (cfg_outDir libConfig))
              (files (snd (generatePackage strictPrettier allBuiltins
                             "react" libConfig freshWorld))).
Proof.
  assert (Hhook : Trace.default_hook ReactGenerator.reactGenerator)
    by (right; reflexivity).
  split; [exact Hhook|].
  exact (proj1 (X23_reported_files_are_the_writes
                  strictPrettier allBuiltins "react"
                  ReactGenerator.reactGenerator libConfig freshWorld
                  eq_refl Hhook)).
Defined.

(** X25 on a file system that refuses every operation. *)
Lemma X25_output_directory_failure_witness :
  valid (validate ReactGenerator.reactGenerator libConfig) = true
  /\ fs_fail readOnly (fs_ops freshWorld)
       (FsEnsureDir (cfg_outDir libConfig))
     = Some "EACCES: permission denied"
  /\ generatePackage readOnly allBuiltins "react" libConfig freshWorld
     = (freshWorld,
        failure []
          (map message
               (filter (fun i => is_warning (severity i))
                       (issues (validate ReactGenerator.reactGenerator
                                  libConfig))))
          "EACCES: permission denied").
Proof.
  split; [reflexivity|]. split; [reflexivity|].
  exact (X25_output_directory_failure
           readOnly allBuiltins "react" ReactGenerator.reactGenerator
           libConfig freshWorld "EACCES: permission denied"
           eq_refl eq_refl eq_refl).
Defined.

(** X26 at a shared template asked for by the React generator. *)
Lemma X26_fallback_for_shared_template_witness :
  Trace.occurs "react/" (file_template sharedTemplate) = false
  /\ alternatePaths "react" (file_template sharedTemplate)
     = [ "react/README.md.hbs"; "common/README.md.hbs" ].
Proof.
  split; [reflexivity|].
  exact (proj1 (X26_fallback_for_shared_template
                  strictPrettier "react" sharedTemplate
                  (buildTemplateContext strictPrettier libConfig
                     ReactGenerator.reactGenerator)
                  (validated
                     (validate ReactGenerator.reactGenerator libConfig)
                     freshWorld)
                  eq_refl eq_refl)).
Defined.

(** X27 at a template of the React generator. *)
Lemma X27_fallback_for_framework_template_witness :
  Trace.occurs "common/" "src/index.ts.hbs" = false
  /\ alternatePaths "react" "react/src/index.ts.hbs"
     = [ "react/src/index.ts.hbs"; "src/index.ts.hbs" ].
Proof.
  split; [reflexivity|].
  exact (X27_fallback_for_framework_template "react" "src/index.ts.hbs"
           eq_refl).
Defined.
End RunWitnesses.
